(** * The kURL bundle server ([cmd/server/main.go])

    A shallow embedding of the bundle handler: the registry allowlist,
    the preflight checks, the streaming compositor (images, layers, inline
    files) and the layer relayer [pipe], together with the properties of
    the handler that the specification states.

    Go strings and byte slices are Rocq strings (sequences of 8-bit
    characters).  Collaborators outside the repository (the HTTP client, the
    registries, the scratch file system, the clock, the client connection,
    the libraries net/url, publicsuffix, encoding/json) are fields of a
    record [World]: the handler is a function of the request and of what
    these collaborators answer. *)

From Stdlib Require Import String Ascii List ZArith Lia Bool DecimalString.
From stdpp Require Import gmap strings list fin_maps.

Open Scope string_scope.
Open Scope list_scope.

(** ** Go's [strings] and [path/filepath], as far as the handler uses them *)

Module GoStrings.

(** [strings.HasSuffix] *)
Definition HasSuffix (s suffix : string) : bool :=
  (String.length suffix <=? String.length s)%nat
  && String.eqb
       (substring (String.length s - String.length suffix)
                  (String.length suffix) s)
       suffix.

(** [strings.TrimSuffix] *)
Definition TrimSuffix (s suffix : string) : string :=
  if HasSuffix s suffix
  then substring 0 (String.length s - String.length suffix) s
  else s.

(** [strings.Split(s, "/")]: the path elements of [s], empty ones kept. *)
Fixpoint elements (s : string) : list string :=
  match s with
  | EmptyString => [EmptyString]
  | String c rest =>
      if Ascii.eqb c "/" then EmptyString :: elements rest
      else match elements rest with
           | e :: es => String c e :: es
           | [] => [String c EmptyString]
           end
  end.

(** [strings.Join(l, "/")] *)
Definition join_slash (l : list string) : string := String.concat "/" l.

(** [fmt.Sprintf("%d", i)] for an index. *)
Definition itoa (i : nat) : string := NilZero.string_of_uint (Nat.to_uint i).

End GoStrings.

Module Filepath.
Import GoStrings.

Fixpoint has_slash (s : string) : bool :=
  match s with
  | EmptyString => false
  | String c rest => Ascii.eqb c "/" || has_slash rest
  end.

(** A path element that is a name: not empty, not [.] or [..], and
    without a separator in it. *)
Definition plain_element (e : string) : bool :=
  negb (String.eqb e "") && negb (String.eqb e ".")
  && negb (String.eqb e "..") && negb (has_slash e).

(** One element of the path read by [Clean]; [out] is the output so far,
    last element first.  An empty element and [.] are dropped, [..]
    removes the element before it when there is one to remove, is dropped
    at the root, and is kept at the start of a relative path. *)
Definition clean_step (rooted : bool) (out : list string) (e : string)
  : list string :=
  if String.eqb e "" || String.eqb e "." then out
  else if String.eqb e ".." then
    match out with
    | top :: rest =>
        if String.eqb top ".." then (if rooted then out else e :: out)
        else rest
    | [] => if rooted then out else [e]
    end
  else e :: out.

(** [filepath.Clean] on a system whose separator is [/]. *)
Definition Clean (path : string) : string :=
  if String.eqb path "" then "."
  else
    let rooted := String.prefix "/" path in
    let out := fold_left (clean_step rooted) (elements path) [] in
    let body := join_slash (rev out) in
    if rooted then "/" +:+ body
    else if String.eqb body "" then "." else body.

(** [filepath.Join]: leading empty elements are skipped, the others are
    joined by the separator and the result is cleaned. *)
Fixpoint Join (elem : list string) : string :=
  match elem with
  | [] => ""
  | e :: rest =>
      if String.eqb e "" then Join rest else Clean (join_slash elem)
  end.

End Filepath.

(** ** Registry allowlist *)

(** [net/url] and [golang.org/x/net/publicsuffix] are libraries: the calls
    [allowRegistry] makes into them are the fields of [NetLib]. *)
Record URL := { Hostname : string }.

Record NetLib := {
  (** [url.Parse]: [None] when it returns an error. *)
  url_Parse : string -> option URL;
  (** [publicsuffix.EffectiveTLDPlusOne]: the pair (domain, error) that Go
      returns, [None] as error being [nil]. *)
  EffectiveTLDPlusOne : string -> string * option string
}.

(** What the library documents and does on every error path: the domain
    returned with an error is the empty string. *)
Definition etld_error_is_empty (L : NetLib) : Prop :=
  forall domain host e,
    EffectiveTLDPlusOne L domain = (host, Some e) -> host = "".

Definition allowed_hosts : list string :=
  ["docker.io"; "gcr.io"; "ghcr.io"; "azurecr.io"; "ttl.sh";
   "ecr.us-east-1.amazonaws.com"].

Definition allowRegistry (L : NetLib) (image : string) : bool :=
  match url_Parse L ("https://" +:+ image) with
  | None => false
  | Some parsed =>
      let (host, _) := EffectiveTLDPlusOne L (Hostname parsed) in
      existsb (String.eqb host) allowed_hosts
  end.

(** ** Data model *)

Record BundleManifest := {
  Layers : list string;
  Files : gmap string string;
  Images : list string
}.

(** The fields of [tar.Header] that the handler sets or rewrites; the other
    fields of a remote layer's header pass through untouched. *)
Record Header := { Name : string; Size : Z; Mode : Z; ModTime : Z }.

(** The request as the handler reads it: method, path and the two route
    variables of [mux.Vars]. *)
Record Request := {
  Method : string;
  Path : string;
  var_kurlVersion : string;
  var_installerID : string
}.

(** *** What the collaborators answer *)

Inductive UpstreamResp :=
| DoFailed                                (* [http.DefaultClient.Do] fails *)
| BodyUnreadable (code : nat)             (* [ioutil.ReadAll] fails *)
| Upstream (code : nat) (body : string).

(** One entry of a remote layer as [tar.Reader] delivers it: its header, the
    bytes that can be read, and whether they can be read to the end. *)
Record LayerEntry := {
  entry_header : Header;
  entry_data : string;
  entry_intact : bool
}.

Inductive StreamEnd := EOF | NextFailed.

Record LayerStream := { entries : list LayerEntry; stream_end : StreamEnd }.

Inductive LayerResp :=
| GetFailed                                          (* [http.Get] fails *)
| Got (code : nat) (body : option LayerStream).      (* [None]: not gzip *)

(** The oracles that depend on when they are asked take the moment of the
    call, which is the number of events the handler has produced so far. *)
Record World := {
  net : NetLib;
  http_NewRequest : string -> bool;
  client_Do : string -> UpstreamResp;
  json_Unmarshal : string -> option BundleManifest;
  http_Head : string -> option nat;          (* [None]: transport error *)
  http_Get : string -> LayerResp;
  ParseImageName : string -> bool;
  TempDir : nat -> option string;
  NewPolicyFromBytes : bool;
  NewPolicyContext : bool;
  (** [copy.Image] to a destination path: the archive file it leaves there. *)
  copy_Image : string -> string -> option string;
  os_Open : string -> bool;
  file_Stat : string -> bool;
  (** whether the client connection takes the bytes of a write made into the
      archive at that moment *)
  sink_accepts : nat -> bool;
  archive_Close : nat -> bool;
  gzip_Close : nat -> bool;
  time_Now : nat -> Z;
  (** the order in which [range] visits a map *)
  map_range : gmap string string -> list (string * string)
}.

(** Go visits every key of a map once, in an order of its choosing. *)
Definition range_visits_all (W : World) : Prop :=
  forall m, map_range W m ≡ₚ map_to_list m.

(** *** Errors the handler builds, and the events it produces

    An event is a call the handler makes, in the order of the calls.  The
    handler drops what [archive.WriteHeader] returns, so that event carries
    no outcome; a write of content carries whether it succeeded. *)

Inductive HeadCause := HeadTransport | HeadStatus (code : nat).

Inductive PipeCause :=
| PipeGet | PipeStatus (code : nat) | PipeGunzip | PipeNext
| PipeCopy (name : string).

Inductive Failure :=
| ErrBuildRequest (url : string)
| ErrFetch (url : string)
| ErrReadBody (url : string)
| ErrUnmarshal (url body : string)
| ErrHead (srcURL installerID : string) (cause : HeadCause)
| ErrUnsupportedRegistry (image : string)
| ErrParseOverride (image : string)
| ErrTempDir
| ErrParseLocal (destStr : string)
| ErrPolicy
| ErrPolicyContext
| ErrSaveImage (image : string)
| ErrOpenArchive
| ErrStat
| ErrCopyFile (name : string)
| ErrPipe (layerURL installerID : string) (cause : PipeCause)
| ErrWriteFile (filepath installerID : string)
| ErrCloseArchive (installerID : string)
| ErrCloseGzip (installerID : string).

Inductive Event :=
| EvPrintf (method path : string)         (* the request line in the log *)
| EvDo (url : string)                     (* manifest lookup *)
| EvHead (url : string)                   (* [http.Head] *)
| EvGet (url : string)                    (* [http.Get] of a layer *)
| EvTempDir (dir : string)
| EvRemoveAll (dir : string)
| EvCopyImage (image dest : string)       (* [copy.Image] *)
| EvGC
| EvLog (e : Failure)                     (* [log.Println(err)] *)
| EvNotify (e : Failure)                  (* [bugsnag.Notify] *)
| EvHeaderSet (key value : string)        (* [w.Header().Set] *)
| EvWriteHeader (code : nat)              (* [w.WriteHeader] *)
| EvWrite (text : string)                 (* [w.Write], outside the archive *)
| EvTarHeader (h : Header)                (* [archive.WriteHeader] *)
| EvTarWrite (data : string) (ok : bool)  (* [archive.Write], [io.Copy] *)
| EvTarClose (ok : bool)
| EvGzipClose (ok : bool).

Inductive Deferred :=
| DeferCloseWriters (installerID : string)
| DeferRemoveAll (dir : string).

(** ** The handler monad: a trace of effects, deferred calls, and [return] *)

Inductive Flow (A : Type) := Next (a : A) | Return.
Arguments Next {A} a.
Arguments Return {A}.

Record State := { trace : list Event; deferred : list Deferred }.

Definition Handler (A : Type) : Type := State -> Flow A * State.

Definition ret {A} (a : A) : Handler A := fun s => (Next a, s).

Definition bind {A B} (m : Handler A) (k : A -> Handler B) : Handler B :=
  fun s => match m s with
           | (Next a, s') => k a s'
           | (Return, s') => (Return, s')
           end.

Definition leave {A} : Handler A := fun s => (Return, s).

Declare Scope handler_scope.
Delimit Scope handler_scope with handler.
Notation "x <- m ;; k" := (bind m (fun x => k))
  (at level 100, m at next level, right associativity) : handler_scope.
Notation "m ;; k" := (bind m (fun _ => k))
  (at level 100, right associativity) : handler_scope.
Open Scope handler_scope.

Definition emit (l : list Event) : Handler unit :=
  fun s => (Next tt, {| trace := trace s ++ l; deferred := deferred s |}).

Definition moment : Handler nat := fun s => (Next (length (trace s)), s).

Definition defer (d : Deferred) : Handler unit :=
  fun s => (Next tt, {| trace := trace s; deferred := d :: deferred s |}).

(** ** The handler *)

Definition upstream : string := "http://localhost:3000".
Definition StatusNoContent : nat := 204.
Definition StatusOK : nat := 200.
Definition StatusMethodNotAllowed : nat := 405.
Definition StatusNotFound : nat := 404.
Definition StatusUnprocessableEntity : nat := 422.
Definition StatusInternalServerError : nat := 500.

(** [http.StatusText] on the two codes the handler passes to it. *)
Definition StatusText (code : nat) : string :=
  if (code =? 422)%nat then "Unprocessable Entity"
  else if (code =? 500)%nat then "Internal Server Error"
  else "".

Definition newline : string := String "010"%char EmptyString.

(** [http.Error]: two headers, the status, and the message with a newline
    ([fmt.Fprintln]). *)
Definition http_Error_events (msg : string) (code : nat) : list Event :=
  [EvHeaderSet "Content-Type" "text/plain; charset=utf-8";
   EvHeaderSet "X-Content-Type-Options" "nosniff";
   EvWriteHeader code;
   EvWrite (msg +:+ newline)].

Definition http_Error (msg : string) (code : nat) : Handler unit :=
  emit (http_Error_events msg code).

Definition handleHttpError (err : Failure) (code : nat) : Handler unit :=
  emit [EvLog err] ;; http_Error (StatusText code) code ;; emit [EvNotify err].

Definition handleError (err : Failure) : Handler unit :=
  emit [EvLog err] ;; emit [EvNotify err].

(** [if err != nil { handleHttpError(w, r, err, 500); return }] *)
Definition must (ok : bool) (err : Failure) : Handler unit :=
  if ok then ret tt
  else handleHttpError err StatusInternalServerError ;; leave.

(** Lines 139-153: the probe of every layer. *)
Fixpoint probe_layers (W : World) (installerID : string) (layers : list string)
  : Handler unit :=
  match layers with
  | [] => ret tt
  | srcURL :: rest =>
      emit [EvHead srcURL] ;;
      match http_Head W srcURL with
      | None =>
          handleHttpError (ErrHead srcURL installerID HeadTransport)
                          StatusInternalServerError ;; leave
      | Some code =>
          if negb (code =? StatusOK)%nat then
            handleHttpError (ErrHead srcURL installerID (HeadStatus code))
                            StatusInternalServerError ;; leave
          else probe_layers W installerID rest
      end
  end.

(** Lines 155-161: the allowlist check of every image. *)
Fixpoint check_images (W : World) (images : list string) : Handler unit :=
  match images with
  | [] => ret tt
  | image :: rest =>
      if negb (allowRegistry (net W) image) then
        handleHttpError (ErrUnsupportedRegistry image)
                        StatusUnprocessableEntity ;; leave
      else check_images W rest
  end.

Definition image_entry_name (i : nat) : string :=
  "kurl/image-overrides/" +:+ GoStrings.itoa i +:+ ".tar".

(** Lines 189-276: one round of the loop over the images.  ([path.Join] is
    [filepath.Join] where the separator is [/].) *)
Definition stream_image (W : World) (i : nat) (image : string) : Handler unit :=
  must (ParseImageName W ("docker://" +:+ image)) (ErrParseOverride image) ;;
  t <- moment ;;
  match TempDir W t with
  | None => handleHttpError ErrTempDir StatusInternalServerError ;; leave
  | Some tempDir =>
      emit [EvTempDir tempDir] ;;
      defer (DeferRemoveAll tempDir) ;;
      let destPath := Filepath.Join [tempDir; "temp-archive-image"] in
      let destStr := "docker-archive:" +:+ destPath +:+ ":" +:+ image in
      must (ParseImageName W destStr) (ErrParseLocal destStr) ;;
      must (NewPolicyFromBytes W) ErrPolicy ;;
      must (NewPolicyContext W) ErrPolicyContext ;;
      emit [EvCopyImage image destPath] ;;
      match copy_Image W destPath image with
      | None =>
          handleHttpError (ErrSaveImage image) StatusInternalServerError ;;
          leave
      | Some content =>
          must (os_Open W destPath) ErrOpenArchive ;;
          must (file_Stat W destPath) ErrStat ;;
          now <- moment ;;
          let header := {| Name := image_entry_name i;
                           Size := Z.of_nat (String.length content);
                           Mode := 420;                    (* 0644 *)
                           ModTime := time_Now W now |} in
          emit [EvTarHeader header] ;;
          m <- moment ;;
          emit [EvTarWrite content (sink_accepts W m)] ;;
          must (sink_accepts W m) (ErrCopyFile (Name header)) ;;
          emit [EvRemoveAll tempDir] ;;
          emit [EvGC]
      end
  end.

(** Lines 188-277: [for i, image := range bundle.Images]. *)
Fixpoint stream_images (W : World) (i : nat) (images : list string)
  : Handler unit :=
  match images with
  | [] => ret tt
  | image :: rest => stream_image W i image ;; stream_images W (S i) rest
  end.

(** [pipe] reports its error to the caller. *)
Definition Pipe : Type := State -> option PipeCause * State.

Definition rename (h : Header) : Header :=
  {| Name := Filepath.Join ["kurl"; Name h];
     Size := Size h; Mode := Mode h; ModTime := ModTime h |}.

(** Lines 320-333: the loop of [pipe] over the entries of the layer. *)
Fixpoint relay (W : World) (es : list LayerEntry) (fin : StreamEnd) : Pipe :=
  fun s =>
    match es with
    | [] => match fin with
            | EOF => (None, s)
            | NextFailed => (Some PipeNext, s)
            end
    | e :: rest =>
        let header := rename (entry_header e) in
        let ok := entry_intact e && sink_accepts W (S (length (trace s))) in
        let s' := {| trace := trace s ++ [EvTarHeader header;
                                          EvTarWrite (entry_data e) ok];
                     deferred := deferred s |} in
        if ok then relay W rest fin s'
        else (Some (PipeCopy (Name header)), s')
    end.

(** Lines 303-334. *)
Definition pipe (W : World) (srcURL : string) : Pipe :=
  fun s =>
    let s' := {| trace := trace s ++ [EvGet srcURL];
                 deferred := deferred s |} in
    match http_Get W srcURL with
    | GetFailed => (Some PipeGet, s')
    | Got code body =>
        if negb (code =? StatusOK)%nat then (Some (PipeStatus code), s')
        else match body with
             | None => (Some PipeGunzip, s')
             | Some src => relay W (entries src) (stream_end src) s'
             end
    end.

(** Lines 279-285. *)
Fixpoint stream_layers (W : World) (installerID : string)
  (layers : list string) : Handler unit :=
  match layers with
  | [] => ret tt
  | layerURL :: rest =>
      fun s =>
        match pipe W layerURL s with
        | (Some cause, s') =>
            (handleError (ErrPipe layerURL installerID cause) ;; leave) s'
        | (None, s') => stream_layers W installerID rest s'
        end
  end.

(** Lines 287-300, over the pairs of the map in the order of [range]. *)
Fixpoint stream_files (W : World) (installerID : string)
  (files : list (string * string)) : Handler unit :=
  match files with
  | [] => ret tt
  | (filepath, contents) :: rest =>
      now <- moment ;;
      emit [EvTarHeader {| Name := filepath;
                           Size := Z.of_nat (String.length contents);
                           Mode := 420;                    (* 0644 *)
                           ModTime := time_Now W now |}] ;;
      m <- moment ;;
      emit [EvTarWrite contents (sink_accepts W m)] ;;
      (if sink_accepts W m then ret tt
       else handleError (ErrWriteFile filepath installerID) ;; leave) ;;
      stream_files W installerID rest
  end.

(** Lines 174-186: the deferred closing of the archive and of the
    compression stream, in that order. *)
Definition close_writers (W : World) (installerID : string) : Handler unit :=
  m <- moment ;;
  emit [EvTarClose (archive_Close W m)] ;;
  (if archive_Close W m then ret tt
   else handleError (ErrCloseArchive installerID)) ;;
  m' <- moment ;;
  emit [EvGzipClose (gzip_Close W m')] ;;
  (if gzip_Close W m' then ret tt
   else handleError (ErrCloseGzip installerID)).

Definition run_one (W : World) (d : Deferred) : Handler unit :=
  match d with
  | DeferCloseWriters installerID => close_writers W installerID
  | DeferRemoveAll dir => emit [EvRemoveAll dir]
  end.

(** The deferred calls run when the handler returns, last one first. *)
Fixpoint run_deferred (W : World) (ds : list Deferred) (tr : list Event)
  : list Event :=
  match ds with
  | [] => tr
  | d :: rest =>
      run_deferred W rest
        (trace (snd (run_one W d {| trace := tr; deferred := [] |})))
  end.

Definition installerID_of (r : Request) : string :=
  GoStrings.TrimSuffix (var_installerID r) ".tar.gz".

Definition installerURL_of (r : Request) : string :=
  if negb (String.eqb (var_kurlVersion r) "") then
    upstream +:+ "/bundle/version/" +:+ var_kurlVersion r +:+ "/"
             +:+ installerID_of r
  else upstream +:+ "/bundle/" +:+ installerID_of r.

Definition success_headers : list Event :=
  [EvHeaderSet "Content-Type" "binary/octet-stream";
   EvHeaderSet "Access-Control-Allow-Origin" "*";
   EvHeaderSet "Content-Disposition" "attachment";
   EvHeaderSet "Transfer-Encoding" "chunked"].

(** Lines 172-300: what a GET does once the checks have passed. *)
Definition stream (W : World) (installerID : string) (bundle : BundleManifest)
  : Handler unit :=
  defer (DeferCloseWriters installerID) ;;
  stream_images W 0 (Images bundle) ;;
  stream_layers W installerID (Layers bundle) ;;
  stream_files W installerID (map_range W (Files bundle)).

(** Lines 139-170 and on: the checks, the headers, and the streaming. *)
Definition serve (W : World) (r : Request) (bundle : BundleManifest)
  : Handler unit :=
  probe_layers W (installerID_of r) (Layers bundle) ;;
  check_images W (Images bundle) ;;
  emit success_headers ;;
  if String.eqb (Method r) "HEAD" then leave
  else stream W (installerID_of r) bundle.

(** Lines 76-138: methods and manifest lookup.  (The forwarding of the
    request headers to the upstream service and the closing of the bodies
    that were read have no effect on the response and are left out.) *)
Definition bundle_body (W : World) (r : Request) : Handler unit :=
  if String.eqb (Method r) "OPTIONS" then
    emit [EvHeaderSet "Access-Control-Allow-Origin" "*";
          EvHeaderSet "Access-Control-Allow-Methods" "GET";
          EvHeaderSet "Access-Control-Allow-Headers"
                      "Access-Control-Allow-Origin, Content-Type";
          EvHeaderSet "Access-Control-Max-Age" "86400";
          EvWriteHeader StatusNoContent] ;;
    leave
  else if negb (String.eqb (Method r) "GET")
          && negb (String.eqb (Method r) "HEAD") then
    http_Error "Method Not Allowed" StatusMethodNotAllowed ;; leave
  else
    emit [EvPrintf (Method r) (Path r)] ;;
    let installerURL := installerURL_of r in
    must (http_NewRequest W installerURL) (ErrBuildRequest installerURL) ;;
    emit [EvDo installerURL] ;;
    match client_Do W installerURL with
    | DoFailed =>
        handleHttpError (ErrFetch installerURL) StatusInternalServerError ;;
        leave
    | BodyUnreadable _ =>
        handleHttpError (ErrReadBody installerURL) StatusInternalServerError ;;
        leave
    | Upstream code body =>
        if (code =? StatusNotFound)%nat then
          http_Error body StatusNotFound ;; leave
        else
          match json_Unmarshal W body with
          | None =>
              handleHttpError (ErrUnmarshal installerURL body)
                              StatusInternalServerError ;;
              leave
          | Some bundle => serve W r bundle
          end
    end.

Definition start : State := {| trace := []; deferred := [] |}.

(** Everything the handler does for one request, in order. *)
Definition bundle (W : World) (r : Request) : list Event :=
  let s := snd (bundle_body W r start) in
  run_deferred W (deferred s) (trace s).

(** ** The response writer ([net/http]) *)

Record Response := { status : nat; headers : gmap string string }.

Record Writer := { header_map : gmap string string; sent : option Response }.

(** The first status written is the one that counts; a write with no status
    written yet sends 200 and the headers as they are at that moment. *)
Definition commit (code : nat) (w : Writer) : Writer :=
  match sent w with
  | Some _ => w
  | None => {| header_map := header_map w;
               sent := Some {| status := code; headers := header_map w |} |}
  end.

(** The archive writes through the compression stream into the response:
    the first thing written into the archive makes the compression stream
    write its header, which is a write to the response. *)
Definition writer_step (w : Writer) (e : Event) : Writer :=
  match e with
  | EvHeaderSet k v =>
      {| header_map := <[k:=v]> (header_map w); sent := sent w |}
  | EvWriteHeader code => commit code w
  | EvWrite _ | EvTarHeader _ | EvTarWrite _ _ | EvTarClose _
  | EvGzipClose _ => commit StatusOK w
  | _ => w
  end.

Definition writer_after (tr : list Event) : Writer :=
  fold_left writer_step tr {| header_map := ∅; sent := None |}.

(** Status and headers committed by the events of [tr], if any. *)
Definition committed (tr : list Event) : option Response :=
  sent (writer_after tr).

(** The answer as the handler leaves it: what it committed or, when it
    returns without having written, 200 with the headers set. *)
Definition handler_response (tr : list Event) : Response :=
  match committed tr with
  | Some r => r
  | None => {| status := StatusOK; headers := header_map (writer_after tr) |}
  end.

(** [bodyAllowedForStatus] of [net/http]. *)
Definition bodyAllowedForStatus (code : nat) : bool :=
  negb ((100 <=? code)%nat && (code <=? 199)%nat
        || (code =? 204)%nat || (code =? 304)%nat).

(** The response the client gets, over HTTP/1.1.  An answer to a HEAD, and
    one with a status that allows no body, goes out without the header
    [Transfer-Encoding], which the server deletes from it
    ([chunkWriter.writeHeader]); any other answer keeps the headers of the
    handler.  (The headers the server adds of its own, [Date] and
    [Content-Length] among them, are not part of [headers].) *)
Definition response (r : Request) (tr : list Event) : Response :=
  let a := handler_response tr in
  if String.eqb (Method r) "HEAD" || negb (bodyAllowedForStatus (status a))
  then {| status := status a;
          headers := delete "Transfer-Encoding" (headers a) |}
  else a.

(** *** Views of a trace *)

Definition is_pull (e : Event) : bool :=
  match e with EvCopyImage _ _ => true | _ => false end.
Definition is_layer_fetch (e : Event) : bool :=
  match e with EvGet _ => true | _ => false end.
Definition is_archive_write (e : Event) : bool :=
  match e with
  | EvTarHeader _ | EvTarWrite _ _ | EvTarClose _ | EvGzipClose _ => true
  | _ => false
  end.
Definition is_probe (e : Event) : bool :=
  match e with EvHead _ => true | _ => false end.

(** The bytes written to the response outside the archive. *)
Definition plain_text (tr : list Event) : list string :=
  omap (fun e => match e with EvWrite t => Some t | _ => None end) tr.

(** What the archive writer was given, in order. *)
Definition archive (tr : list Event) : list Event :=
  List.filter is_archive_write tr.


(** ** Notions used in the statements *)

(** What [pipe] writes for one entry that is copied in full. *)
Definition relayed (e : LayerEntry) : list Event :=
  [EvTarHeader (rename (entry_header e)); EvTarWrite (entry_data e) true].

(** The state after [w] has been added to the trace and [ds] to the deferred
    calls. *)
Definition extend (s : State) (w : list Event) (ds : list Deferred) : State :=
  {| trace := trace s ++ w; deferred := ds ++ deferred s |}.

(** The status with which the handler answers an error, for the errors it
    answers over HTTP ([handleHttpError]); the errors of the layer and file
    loops and of the closing go to [handleError], which does not answer. *)
Definition http_code (e : Failure) : option nat :=
  match e with
  | ErrPipe _ _ _ | ErrWriteFile _ _ | ErrCloseArchive _ | ErrCloseGzip _ =>
      None
  | ErrUnsupportedRegistry _ => Some StatusUnprocessableEntity
  | _ => Some StatusInternalServerError
  end.

(** What follows the log line of an error. *)
Definition aftermath (e : Failure) : list Event :=
  match http_code e with
  | Some code => http_Error_events (StatusText code) code
  | None => []
  end ++ [EvNotify e].

Definition report (e : Failure) : list Event := EvLog e :: aftermath e.

(** The errors of the three streaming loops. *)
Definition image_failure (e : Failure) : bool :=
  match e with
  | ErrParseOverride _ | ErrTempDir | ErrParseLocal _ | ErrPolicy
  | ErrPolicyContext | ErrSaveImage _ | ErrOpenArchive | ErrStat
  | ErrCopyFile _ => true
  | _ => false
  end.

Definition midstream_failure (e : Failure) : bool :=
  match e with
  | ErrPipe _ _ _ | ErrWriteFile _ _ => true
  | _ => image_failure e
  end.

Definition closing_failure (e : Failure) : bool :=
  match e with
  | ErrCloseArchive _ | ErrCloseGzip _ => true
  | _ => false
  end.

(** The request is a GET or a HEAD and the upstream service answers it with
    the manifest [m]. *)
Definition resolves (W : World) (r : Request) (m : BundleManifest) : Prop :=
  (Method r = "GET" \/ Method r = "HEAD")
  /\ http_NewRequest W (installerURL_of r) = true
  /\ exists code body,
       client_Do W (installerURL_of r) = Upstream code body
       /\ code <> StatusNotFound
       /\ json_Unmarshal W body = Some m.

Definition reachable (W : World) (srcURL : string) : Prop :=
  http_Head W srcURL = Some StatusOK.

(** Events of the checks that come before the streaming. *)
Definition is_preflight (e : Event) : bool :=
  match e with
  | EvPrintf _ _ | EvDo _ | EvHead _ | EvHeaderSet _ _ | EvLog _ | EvNotify _
  | EvWriteHeader _ | EvWrite _ => true
  | _ => false
  end.

(** Events that leave the response as it is. *)
Definition is_silent (e : Event) : bool :=
  match e with
  | EvPrintf _ _ | EvDo _ | EvHead _ | EvGet _ | EvTempDir _ | EvRemoveAll _
  | EvCopyImage _ _ | EvGC | EvLog _ | EvNotify _ => true
  | _ => false
  end.

(** The work of the streaming loops: everything but reports and answers. *)
Definition is_work (e : Event) : bool :=
  match e with
  | EvGet _ | EvTempDir _ | EvRemoveAll _ | EvCopyImage _ _ | EvGC
  | EvTarHeader _ | EvTarWrite _ _ => true
  | _ => false
  end.

Definition is_remove_all (d : Deferred) : bool :=
  match d with DeferRemoveAll _ => true | _ => false end.

(** What every GET and HEAD starts with. *)
Definition lookup_events (r : Request) : list Event :=
  [EvPrintf (Method r) (Path r); EvDo (installerURL_of r)].

(** The headers of a successful answer, as a map. *)
Definition success_header_map : gmap string string :=
  header_map (writer_after success_headers).

(** The handler left the images, the layers and the archive alone. *)
Definition no_streaming_work (tr : list Event) : Prop :=
  List.filter is_pull tr = []
  /\ List.filter is_layer_fetch tr = []
  /\ archive tr = [].

Definition denied (W : World) (image : string) : Prop :=
  allowRegistry (net W) image = false.

Definition is_report (e : Event) : bool :=
  match e with EvLog _ | EvNotify _ => true | _ => false end.


(** How a piece of the streaming ends: it goes on after work only, or it
    returns after work only and the report of one error of the loops. *)
Definition streamed (out : Flow unit) (w : list Event) : Prop :=
  match out with
  | Next _ => forallb is_work w = true
  | Return =>
      exists w0 e,
        w = w0 ++ report e
        /\ forallb is_work w0 = true
        /\ midstream_failure e = true
  end.

Definition Shaped (m : Handler unit) : Prop :=
  forall s, exists out w ds,
    m s = (out, extend s w ds)
    /\ forallb is_remove_all ds = true
    /\ streamed out w.

Definition removed (d : Deferred) : list Event :=
  match d with
  | DeferRemoveAll dir => [EvRemoveAll dir]
  | DeferCloseWriters _ => []
  end.

(** The deferred calls of a GET that streams: the scratch directories are
    removed, then the archive is closed, then the compression stream; a
    failure to close is logged and reported. *)
Definition finalization (installerID : string) (fin : list Event) : Prop :=
  exists (ds : list Deferred) (a g : bool),
    forallb is_remove_all ds = true
    /\ fin = flat_map removed ds
             ++ EvTarClose a
                :: (if a then [] else report (ErrCloseArchive installerID))
             ++ EvGzipClose g
                :: (if g then [] else report (ErrCloseGzip installerID)).

(** Events of the deferred calls. *)
Definition is_cleanup (e : Event) : bool :=
  match e with
  | EvRemoveAll _ | EvTarClose _ | EvGzipClose _ => true
  | EvLog e | EvNotify e => closing_failure e
  | _ => false
  end.


(** Events of a request that ends before the streaming. *)
Definition is_early (e : Event) : bool :=
  match e with
  | EvLog f | EvNotify f => negb (midstream_failure f)
  | _ => is_preflight e
  end.

(** The answer of a GET that streams, and that of a HEAD that passes, which
    goes out without [Transfer-Encoding]. *)
Definition success_response : Response :=
  {| status := StatusOK; headers := success_header_map |}.

Definition head_success_response : Response :=
  {| status := StatusOK;
     headers := delete "Transfer-Encoding" success_header_map |}.

(** *** The archive of a request that streams to the end *)

(** An event with the modification time of the header it writes, if any,
    put to zero: the time of a write is not part of what is compared. *)
Definition untimed (e : Event) : Event :=
  match e with
  | EvTarHeader h =>
      EvTarHeader {| Name := Name h; Size := Size h; Mode := Mode h;
                     ModTime := 0 |}
  | _ => e
  end.

(** One entry made by the handler: a header with the name, the length of the
    content and mode 0644, then the content. *)
Definition entry_events (name data : string) : list Event :=
  [EvTarHeader {| Name := name; Size := Z.of_nat (String.length data);
                  Mode := 420; ModTime := 0 |};
   EvTarWrite data true].

(** The image entries: the archive pulled for each image, under the name
    made from the position of the image, counted from [i]. *)
Definition image_entries (pulled : string -> string) (i : nat)
  (images : list string) : list Event :=
  concat (imap (fun k image =>
                  entry_events (image_entry_name (i + k)) (pulled image))
               images).

(** The layer entries: the entries of each layer, renamed. *)
Definition layer_entries (src : string -> LayerStream) (layers : list string)
  : list Event :=
  flat_map (fun u => flat_map (fun e => map untimed (relayed e))
                              (entries (src u)))
           layers.

Definition file_entries (files : list (string * string)) : list Event :=
  flat_map (fun f => entry_events (fst f) (snd f)) files.

(** A world in which the request for [m] meets no error before the closing:
    the checks pass, every image is pulled ([pulled] is the archive of each),
    every layer is read to its end ([src] is the stream of each), and the
    client takes all that is written. *)
Record healthy (W : World) (m : BundleManifest) (pulled : string -> string)
  (src : string -> LayerStream) : Prop := {
  layers_up : Forall (reachable W) (Layers m);
  images_allowed : Forall (fun i => allowRegistry (net W) i = true) (Images m);
  names_parse : forall s, ParseImageName W s = true;
  scratch_available : forall n, is_Some (TempDir W n);
  policy_loads : NewPolicyFromBytes W = true /\ NewPolicyContext W = true;
  images_pull : forall dest image,
    In image (Images m) -> copy_Image W dest image = Some (pulled image);
  archives_open : forall p, os_Open W p = true /\ file_Stat W p = true;
  client_listens : forall n, sink_accepts W n = true;
  layers_stream : forall u,
    In u (Layers m) ->
    http_Get W u = Got StatusOK (Some (src u))
    /\ stream_end (src u) = EOF
    /\ Forall (fun e => entry_intact e = true) (entries (src u))
}.

(** ** Sample collaborators, for the examples *)

(** The answers of [net/url] and [publicsuffix] on the references used in
    the examples: [nginx:latest] does not parse as a host (the port is not a
    number), [nginx] has no apex domain. *)
Definition sample_net : NetLib := {|
  url_Parse s :=
    if String.eqb s "https://evil.example.com/foo:latest"
    then Some {| Hostname := "evil.example.com" |}
    else if String.eqb s "https://docker.io/library/nginx:1.21"
    then Some {| Hostname := "docker.io" |}
    else if String.eqb s "https://ttl.sh/app:1h"
    then Some {| Hostname := "ttl.sh" |}
    else if String.eqb s "https://nginx"
    then Some {| Hostname := "nginx" |}
    else None;
  EffectiveTLDPlusOne d :=
    if String.eqb d "evil.example.com" then ("example.com", None)
    else if String.eqb d "docker.io" then ("docker.io", None)
    else if String.eqb d "ttl.sh" then ("ttl.sh", None)
    else ("", Some "publicsuffix: cannot derive eTLD+1")
|}.

Definition sample_entry (name data : string) : LayerEntry :=
  {| entry_header := {| Name := name;
                        Size := Z.of_nat (String.length data);
                        Mode := 420; ModTime := 7 |};
     entry_data := data;
     entry_intact := true |}.

Definition sample_layer : LayerStream :=
  {| entries := [sample_entry "foo/bar.txt" "hi"; sample_entry "../x" "out"];
     stream_end := EOF |}.

(** A world in which everything works, but for the parts given as
    arguments: the answer of the upstream service and the manifest read
    from it, the answers to the probes and to the pulls, and the order of
    [range]. *)
Definition sample_world (up : UpstreamResp) (manifest : BundleManifest)
  (head : string -> option nat) (pull : string -> option string)
  (range : gmap string string -> list (string * string)) : World := {|
  net := sample_net;
  http_NewRequest _ := true;
  client_Do _ := up;
  json_Unmarshal _ := Some manifest;
  http_Head := head;
  http_Get _ := Got 200 (Some sample_layer);
  ParseImageName _ := true;
  TempDir n := Some ("/images/temp-image-pull" +:+ GoStrings.itoa n);
  NewPolicyFromBytes := true;
  NewPolicyContext := true;
  copy_Image _ image := pull image;
  os_Open _ := true;
  file_Stat _ := true;
  sink_accepts _ := true;
  archive_Close _ := true;
  gzip_Close _ := true;
  time_Now n := Z.of_nat n;
  map_range := range
|}.

(** The upstream service answers 200; the body stands for the JSON text of
    the manifest that [json_Unmarshal] reads from it. *)
Definition found : UpstreamResp := Upstream 200 "(manifest)".

Definition all_up : string -> option nat := fun _ => Some 200.

Definition pull_ok (image : string) : option string :=
  Some ("archive of " +:+ image).

Definition empty_manifest : BundleManifest :=
  {| Layers := []; Files := ∅; Images := [] |}.

(** A manifest with a layer and an image that is not on the allowlist. *)
Definition evil_manifest : BundleManifest :=
  {| Layers := ["http://s3/layer.tar.gz"]; Files := ∅;
     Images := ["evil.example.com/foo:latest"] |}.

(** A manifest with two images, a layer and two files. *)
Definition full_manifest : BundleManifest :=
  {| Layers := ["http://s3/layer.tar.gz"];
     Files := {[ "a.txt" := "a"; "b.txt" := "bb" ]};
     Images := ["docker.io/library/nginx:1.21"; "ttl.sh/app:1h"] |}.

Definition sample_request (method : string) : Request :=
  {| Method := method; Path := "/bundle/abc.tar.gz";
     var_kurlVersion := ""; var_installerID := "abc.tar.gz" |}.

(** The layer of [evil_manifest] is gone. *)
Definition dead_layer_world : World :=
  sample_world found evil_manifest (fun _ => Some 404) pull_ok map_to_list.

(** The layer is there and the image is not on the allowlist. *)
Definition evil_image_world : World :=
  sample_world found evil_manifest all_up pull_ok map_to_list.

(** The second image of [full_manifest] cannot be pulled. *)
Definition second_pull_fails : World :=
  sample_world found full_manifest all_up
    (fun i => if String.eqb i "ttl.sh/app:1h" then None else pull_ok i)
    map_to_list.

(** Everything works, [range] visiting the files in either order. *)
Definition calm_world : World :=
  sample_world found full_manifest all_up pull_ok map_to_list.

Definition calm_world_reversed : World :=
  sample_world found full_manifest all_up pull_ok
    (fun m => rev (map_to_list m)).

Definition sample_src : string -> LayerStream := fun _ => sample_layer.

Definition sample_pulled (image : string) : string := "archive of " +:+ image.

From Stdlib Require Import DecimalNat.

(** ** Further notions, for the properties of the rest of the handler *)

(** The errors logged, and the errors reported, in order. *)
Definition logs (tr : list Event) : list Failure :=
  omap (fun e => match e with EvLog f => Some f | _ => None end) tr.

Definition notifies (tr : list Event) : list Failure :=
  omap (fun e => match e with EvNotify f => Some f | _ => None end) tr.

(** The manifest lookup ends in an error: the request cannot be built, the
    call fails, the body cannot be read, or the body of an answer other than
    404 is not a manifest. *)
Definition lookup_fails (W : World) (r : Request) : Prop :=
  http_NewRequest W (installerURL_of r) = false
  \/ (http_NewRequest W (installerURL_of r) = true
      /\ (client_Do W (installerURL_of r) = DoFailed
          \/ (exists code,
                client_Do W (installerURL_of r) = BodyUnreadable code)
          \/ (exists code body,
                client_Do W (installerURL_of r) = Upstream code body
                /\ code <> StatusNotFound
                /\ json_Unmarshal W body = None))).

(** A header or a content written into the archive. *)
Definition is_entry (e : Event) : bool :=
  match e with EvTarHeader _ | EvTarWrite _ _ => true | _ => false end.

Definition is_tempdir (e : Event) : bool :=
  match e with EvTempDir _ => true | _ => false end.

(** An upstream service that is down. *)
Definition upstream_down_world : World :=
  sample_world DoFailed empty_manifest all_up pull_ok map_to_list.

(** The upstream service answers 500 with a JSON body that has none of the
    fields of a manifest. *)
Definition upstream_error_world : World :=
  sample_world (Upstream 500 "(error as JSON)") empty_manifest all_up pull_ok
    map_to_list.

(** Events of the lookup and of the probes. *)
Definition is_lookup (e : Event) : bool :=
  match e with EvPrintf _ _ | EvDo _ | EvHead _ => true | _ => false end.

(** The errors of the manifest lookup, and those of the checks. *)
Definition lookup_failure (e : Failure) : bool :=
  match e with
  | ErrBuildRequest _ | ErrFetch _ | ErrReadBody _ | ErrUnmarshal _ _ => true
  | _ => false
  end.

Definition check_failure (e : Failure) : bool :=
  match e with
  | ErrHead _ _ _ | ErrUnsupportedRegistry _ => true
  | _ => false
  end.

(** The elements of a path that [Clean] keeps when it has no [..]. *)
Definition kept_element (e : string) : bool :=
  negb (String.eqb e "") && negb (String.eqb e ".").

Definition no_dotdot (path : string) : bool :=
  forallb (fun e => negb (String.eqb e "..")) (GoStrings.elements path).

(** A layer that [pipe] can read to the end. *)
Definition readable (W : World) (srcURL : string) : Prop :=
  exists src,
    http_Get W srcURL = Got StatusOK (Some src)
    /\ stream_end src = EOF
    /\ Forall (fun e => entry_intact e = true) (entries src).

(** The errors of [pipe] that come before it reads the first entry. *)
Definition before_stream (c : PipeCause) : bool :=
  match c with
  | PipeGet | PipeStatus _ | PipeGunzip => true
  | _ => false
  end.

(** A layer that answers 200 with something that is not gzip. *)
Definition not_gzip_world : World := {|
  net := sample_net;
  http_NewRequest _ := true;
  client_Do _ := found;
  json_Unmarshal _ := Some full_manifest;
  http_Head := all_up;
  http_Get _ := Got 200 None;
  ParseImageName _ := true;
  TempDir n := Some ("/images/temp-image-pull" +:+ GoStrings.itoa n);
  NewPolicyFromBytes := true;
  NewPolicyContext := true;
  copy_Image _ image := pull_ok image;
  os_Open _ := true;
  file_Stat _ := true;
  sink_accepts _ := true;
  archive_Close _ := true;
  gzip_Close _ := true;
  time_Now n := Z.of_nat n;
  map_range := map_to_list
|}.

(** The three ways a request goes: it ends before any error, with no report
    ([settled]); it ends on the report of an error of the lookup or of the
    checks ([refused]); or it is a GET that passes the checks and streams
    ([streams]), to the end or up to an error of the loops. *)
Definition settled (tr : list Event) : Prop :=
  forallb (fun e => negb (is_report e)) tr = true
  /\ forallb is_preflight tr = true.

Definition refused (tr : list Event) : Prop :=
  exists q e,
    tr = q ++ report e
    /\ forallb is_lookup q = true
    /\ lookup_failure e || check_failure e = true.

Definition checks_done (r : Request) (m : BundleManifest) : list Event :=
  lookup_events r ++ map EvHead (Layers m) ++ success_headers.

Definition streams (W : World) (r : Request) (tr : list Event) : Prop :=
  exists m w fin,
    resolves W r m /\ Method r = "GET"
    /\ Forall (reachable W) (Layers m)
    /\ Forall (fun i => allowRegistry (net W) i = true) (Images m)
    /\ forallb is_work w = true
    /\ finalization (installerID_of r) fin
    /\ (tr = checks_done r m ++ w ++ fin
        \/ exists e, midstream_failure e = true
                     /\ tr = checks_done r m ++ w ++ report e ++ fin).

(** Work of the streaming: a scratch directory, a pull, a layer fetch, or
    anything done with the archive. *)
Definition is_streaming_work (e : Event) : bool :=
  is_tempdir e || is_pull e || is_layer_fetch e || is_archive_write e.

(** The log line of an error other than a failure to close the writers. *)
Definition is_primary_log (e : Event) : bool :=
  match e with EvLog f => negb (closing_failure f) | _ => false end.

(** A scratch directory made, an image pulled, a layer fetched, or an entry
    written into the archive. *)
Definition is_fetch_or_entry (e : Event) : bool :=
  is_tempdir e || is_pull e || is_layer_fetch e || is_entry e.

(** Every scratch directory made so far has its deferred removal, and a
    piece of the handler that keeps it so. *)
Definition tidy (s : State) : Prop :=
  forall d, In (EvTempDir d) (trace s) -> In (DeferRemoveAll d) (deferred s).

Definition Keeps {A} (m : Handler A) : Prop :=
  forall s, tidy s -> tidy (snd (m s)).

(** What the handler does after the request line of the log when the lookup
    gives no manifest, if that is the case. *)
Definition failed_lookup (W : World) (url : string) : option (list Event) :=
  if http_NewRequest W url then
    match client_Do W url with
    | DoFailed => Some (EvDo url :: report (ErrFetch url))
    | BodyUnreadable _ => Some (EvDo url :: report (ErrReadBody url))
    | Upstream code body =>
        if (code =? StatusNotFound)%nat then
          Some (EvDo url :: http_Error_events body StatusNotFound)
        else
          match json_Unmarshal W body with
          | None => Some (EvDo url :: report (ErrUnmarshal url body))
          | Some _ => None
          end
    end
  else Some (report (ErrBuildRequest url)).

(** An image pulled has passed the allowlist, and a layer fetched has
    answered its probe with 200. *)
Definition checked (W : World) (e : Event) : bool :=
  match e with
  | EvCopyImage image _ => allowRegistry (net W) image
  | EvGet srcURL =>
      match http_Head W srcURL with
      | Some code => (code =? StatusOK)%nat
      | None => false
      end
  | _ => true
  end.

(** The events so far are events that satisfy [p] followed by events that
    satisfy [q]. *)
Definition phases (p q : Event -> bool) (s : State) : Prop :=
  exists a b,
    trace s = a ++ b /\ forallb p a = true /\ forallb q b = true.

Definition nothing (e : Event) : bool := false.

(** A condition that only scratch directories, pulls and layer fetches can
    fail. *)
Definition harmless (q : Event -> bool) : Prop :=
  forall e, is_tempdir e || is_pull e || is_layer_fetch e = false ->
            q e = true.

(** The two phases of the streaming: nothing is fetched while the images
    are pulled, and nothing is pulled afterwards. *)
Definition no_fetch (e : Event) : bool := negb (is_layer_fetch e).

Definition no_pull (e : Event) : bool := negb (is_pull e || is_tempdir e).

(** A piece of the handler that, run in a state where [P] holds, ends in a
    state where [Q] holds, whether it goes on or returns. *)
Definition Triple {A} (P : State -> Prop) (m : Handler A) (Q : State -> Prop)
  : Prop :=
  forall s, P s -> Q (snd (m s)).

(** An answer made by [http.Error]: the status, and the two headers that
    mark the body as plain text. *)
Definition error_answer (a : Response) (code : nat) : Prop :=
  status a = code
  /\ headers a !! "Content-Type" = Some "text/plain; charset=utf-8"
  /\ headers a !! "X-Content-Type-Options" = Some "nosniff".

(** The answer [http.Error] makes when no header had been set before. *)
Definition plain_error (code : nat) : Response :=
  {| status := code;
     headers := <["X-Content-Type-Options" := "nosniff"]>
                  (<["Content-Type" := "text/plain; charset=utf-8"]> ∅) |}.

(** A request refused through [http.Error] before any header was set: the
    events of [http.Error] among events that leave the response alone. *)
Definition refused_with (tr : list Event) (msg : string) (code : nat) : Prop :=
  exists pre post,
    tr = pre ++ http_Error_events msg code ++ post
    /\ forallb is_silent pre = true
    /\ forallb is_silent post = true.

(** A registry from which no image can be pulled. *)
Definition no_pull_world : World :=
  sample_world found full_manifest all_up (fun _ => None) map_to_list.

(** * Properties *)

(** ** Paths *)

Section PathFacts.
Import GoStrings Filepath.

Lemma elements_no_slash (e : string) :
  has_slash e = false -> elements e = [e].
Proof.
  induction e as [|c e IH]; simpl; [reflexivity|].
  intros H. apply orb_false_iff in H as [Hc He].
  rewrite Hc, (IH He). reflexivity.
Qed.

Lemma elements_cons_slash (e rest : string) :
  has_slash e = false ->
  elements (e +:+ "/" +:+ rest) = e :: elements rest.
Proof.
  induction e as [|c e IH]; simpl; [reflexivity|].
  intros H. apply orb_false_iff in H as [Hc He].
  rewrite Hc, (IH He). reflexivity.
Qed.

Lemma plain_no_slash (e : string) : plain_element e = true -> has_slash e = false.
Proof.
  unfold plain_element. intros H.
  apply andb_true_iff in H as [_ H]. now apply negb_true_iff in H.
Qed.

Lemma join_slash_cons (e : string) (es : list string) :
  es <> [] -> join_slash (e :: es) = e +:+ "/" +:+ join_slash es.
Proof. destruct es; [congruence|reflexivity]. Qed.

Lemma elements_join (es : list string) :
  es <> [] -> forallb plain_element es = true ->
  elements (join_slash es) = es.
Proof.
  induction es as [|e es IH]; [congruence|].
  intros _ H. simpl in H. apply andb_true_iff in H as [He Hes].
  destruct es as [|e' es].
  - apply elements_no_slash, plain_no_slash, He.
  - rewrite join_slash_cons by congruence.
    rewrite elements_cons_slash by (apply plain_no_slash, He).
    rewrite IH; [reflexivity|congruence|exact Hes].
Qed.

Lemma clean_step_plain (rooted : bool) (out : list string) (e : string) :
  plain_element e = true -> clean_step rooted out e = e :: out.
Proof.
  unfold plain_element, clean_step. intros H.
  repeat (apply andb_true_iff in H as [H ?]).
  repeat match goal with
         | X : negb _ = true |- _ => apply negb_true_iff in X
         end.
  now rewrite H, H2, H1.
Qed.

Lemma clean_fold_plain (rooted : bool) (es out : list string) :
  forallb plain_element es = true ->
  fold_left (clean_step rooted) es out = rev es ++ out.
Proof.
  revert out. induction es as [|e es IH]; intros out H; [reflexivity|].
  simpl in H. apply andb_true_iff in H as [He Hes].
  simpl. rewrite clean_step_plain by exact He.
  rewrite IH by exact Hes. now rewrite <- app_assoc.
Qed.

(** A relative path made of names only is kept as it is under the prefix
    directory. *)
Lemma Join_kurl_plain (es : list string) :
  es <> [] -> forallb plain_element es = true ->
  Join ["kurl"; join_slash es] = "kurl/" +:+ join_slash es.
Proof.
  intros Hne Hes.
  change (Join ["kurl"; join_slash es])
    with (Clean (join_slash ["kurl"; join_slash es])).
  change (join_slash ["kurl"; join_slash es])
    with ("kurl" +:+ "/" +:+ join_slash es).
  unfold Clean.
  change (String.eqb ("kurl" +:+ "/" +:+ join_slash es) "") with false.
  change (String.prefix "/" ("kurl" +:+ "/" +:+ join_slash es)) with false.
  cbv iota.
  rewrite (elements_cons_slash "kurl") by reflexivity.
  rewrite elements_join by assumption.
  rewrite (clean_fold_plain false ("kurl" :: es)) by (simpl; exact Hes).
  rewrite app_nil_r, rev_involutive.
  rewrite join_slash_cons by assumption.
  reflexivity.
Qed.

End PathFacts.

(** *** Examples *)

Example join_ex1 : Filepath.Join ["kurl"; "foo/bar.txt"] = "kurl/foo/bar.txt".
Proof. reflexivity. Qed.
Example join_ex2 : Filepath.Join ["kurl"; "../x"] = "x".
Proof. reflexivity. Qed.
Example join_ex3 : Filepath.Join ["kurl"; "/abs//b/./c/"] = "kurl/abs/b/c".
Proof. reflexivity. Qed.
Example join_ex4 : Filepath.Join ["kurl"; "../../etc/passwd"] = "../etc/passwd".
Proof. reflexivity. Qed.
Example join_ex5 : Filepath.Join ["kurl"; ""] = "kurl".
Proof. reflexivity. Qed.
Example clean_ex : Filepath.Clean "/../a/b/../.." = "/".
Proof. reflexivity. Qed.
Example itoa_ex : GoStrings.itoa 12 = "12" /\ GoStrings.itoa 0 = "0".
Proof. split; reflexivity. Qed.
Example trim_ex : GoStrings.TrimSuffix "abc.tar.gz" ".tar.gz" = "abc"
                  /\ GoStrings.TrimSuffix "abc" ".tar.gz" = "abc".
Proof. split; reflexivity. Qed.

(** ** The registry allowlist *)

Lemma sample_net_error_is_empty : etld_error_is_empty sample_net.
Proof.
  intros domain host e. simpl.
  repeat (destruct (String.eqb domain _); [discriminate|]).
  congruence.
Qed.

(** C10. An image reference is denied when the URL made from it does not
    parse, and when its hostname has no apex domain: the error of the apex
    derivation is dropped, the host it leaves is the empty string, and the
    empty string is not on the allowlist. *)
Theorem allowRegistry_denies_without_apex (L : NetLib) (image : string) :
  etld_error_is_empty L ->
  (url_Parse L ("https://" +:+ image) = None
   \/ exists u e,
        url_Parse L ("https://" +:+ image) = Some u
        /\ snd (EffectiveTLDPlusOne L (Hostname u)) = Some e) ->
  allowRegistry L image = false
  /\ existsb (String.eqb "") allowed_hosts = false.
Proof.
  intros Hlib H. split; [|reflexivity].
  unfold allowRegistry.
  destruct H as [-> | (u & e & -> & He)]; [reflexivity|].
  destruct (EffectiveTLDPlusOne L (Hostname u)) as [host err] eqn:E.
  simpl in He. subst err.
  now rewrite (Hlib _ _ _ E).
Qed.

Lemma allowRegistry_denies_without_apex_witness :
  allowRegistry sample_net "nginx:latest" = false
  /\ allowRegistry sample_net "nginx" = false.
Proof.
  split.
  - apply (allowRegistry_denies_without_apex sample_net "nginx:latest").
    + exact sample_net_error_is_empty.
    + left. reflexivity.
  - apply (allowRegistry_denies_without_apex sample_net "nginx").
    + exact sample_net_error_is_empty.
    + right. exists {| Hostname := "nginx" |}, "publicsuffix: cannot derive eTLD+1".
      split; reflexivity.
Defined.

(** ** The layer relayer *)

Lemma relay_extends (W : World) (es : list LayerEntry) (fin : StreamEnd)
  (s : State) :
  exists post, trace (snd (relay W es fin s)) = trace s ++ post.
Proof.
  revert s. induction es as [|y es IH]; intros s.
  - exists []. simpl. destruct fin; simpl; now rewrite app_nil_r.
  - simpl.
    destruct (entry_intact y && sink_accepts W (S (length (trace s)))).
    + destruct (IH {| trace := trace s ++
                         [EvTarHeader (rename (entry_header y));
                          EvTarWrite (entry_data y) true];
                      deferred := deferred s |}) as [post Hp].
      eexists. rewrite Hp. simpl. rewrite <- app_assoc. reflexivity.
    + eexists. reflexivity.
Qed.

Lemma relay_reaches (W : World) (es1 : list LayerEntry) (e : LayerEntry)
  (es2 : list LayerEntry) (fin : StreamEnd) (s : State) :
  (forall n, sink_accepts W n = true) ->
  Forall (fun x => entry_intact x = true) (es1 ++ [e]) ->
  exists post,
    trace (snd (relay W (es1 ++ e :: es2) fin s))
    = trace s ++ flat_map relayed es1 ++ relayed e ++ post.
Proof.
  intros Hsink. revert s.
  induction es1 as [|x es1 IH]; intros s Hok.
  - apply Forall_inv in Hok. simpl.
    rewrite Hok, Hsink. simpl.
    destruct (relay_extends W es2 fin
                {| trace := trace s ++
                     [EvTarHeader (rename (entry_header e));
                      EvTarWrite (entry_data e) true];
                   deferred := deferred s |}) as [post Hp].
    exists post. rewrite Hp. simpl. now rewrite <- app_assoc.
  - inversion Hok as [|? ? Hx Hrest]; subst. simpl.
    rewrite Hx, Hsink. simpl.
    destruct (IH {| trace := trace s ++
                      [EvTarHeader (rename (entry_header x));
                       EvTarWrite (entry_data x) true];
                    deferred := deferred s |} Hrest) as [post Hp].
    exists post. rewrite Hp. simpl. now rewrite <- !app_assoc.
Qed.

(** C8. A layer entry whose path is relative and made of names only, such as
    [foo/bar.txt], is written to the output archive under the prefix
    directory ([kurl/foo/bar.txt]), the rest of its header and its bytes
    unchanged, when the layer is readable up to that entry and the client
    takes the bytes. *)
Theorem pipe_reroots_entry (W : World) (srcURL : string) (src : LayerStream)
  (es1 : list LayerEntry) (e : LayerEntry) (es2 : list LayerEntry)
  (names : list string) (s : State) :
  http_Get W srcURL = Got StatusOK (Some src) ->
  entries src = es1 ++ e :: es2 ->
  (forall n, sink_accepts W n = true) ->
  Forall (fun x => entry_intact x = true) (es1 ++ [e]) ->
  names <> [] ->
  forallb Filepath.plain_element names = true ->
  Name (entry_header e) = GoStrings.join_slash names ->
  exists pre post,
    trace (snd (pipe W srcURL s))
    = pre ++ [EvTarHeader {| Name := "kurl/" +:+ Name (entry_header e);
                             Size := Size (entry_header e);
                             Mode := Mode (entry_header e);
                             ModTime := ModTime (entry_header e) |};
              EvTarWrite (entry_data e) true] ++ post.
Proof.
  intros Hget Hsrc Hsink Hok Hne Hplain Hname.
  unfold pipe. rewrite Hget. simpl. rewrite Hsrc.
  destruct (relay_reaches W es1 e es2 (stream_end src)
              {| trace := trace s ++ [EvGet srcURL]; deferred := deferred s |}
              Hsink Hok) as [post Hp].
  exists (trace s ++ [EvGet srcURL] ++ flat_map relayed es1), post.
  rewrite Hp. simpl trace. unfold relayed at 2, rename.
  rewrite Hname, Join_kurl_plain by assumption.
  now rewrite <- !app_assoc.
Qed.

Lemma pipe_reroots_entry_witness :
  exists pre post,
    trace (snd (pipe (sample_world found empty_manifest all_up pull_ok
                                   map_to_list)
                     "http://s3/layer.tar.gz"
                     {| trace := []; deferred := [] |}))
    = pre ++ [EvTarHeader {| Name := "kurl/foo/bar.txt"; Size := 2;
                             Mode := 420; ModTime := 7 |};
              EvTarWrite "hi" true] ++ post.
Proof.
  apply (pipe_reroots_entry _ "http://s3/layer.tar.gz" sample_layer
           [] (sample_entry "foo/bar.txt" "hi") [sample_entry "../x" "out"]
           ["foo"; "bar.txt"]).
  - reflexivity.
  - reflexivity.
  - intros n. reflexivity.
  - repeat constructor.
  - discriminate.
  - reflexivity.
  - reflexivity.
Defined.

(** C9. The rewriting of a layer entry's path is not a guarantee that the
    result lies under the prefix directory: the entry [../x] is written to
    the output archive as [x]. *)
Theorem reroot_escapes_prefix :
  exists h : Header,
    Name h = "../x"
    /\ Name (rename h) = "x"
    /\ String.prefix "kurl/" (Name (rename h)) = false
    /\ forall (W : World) (e : LayerEntry) (fin : StreamEnd) (s : State),
         entry_header e = h ->
         exists ok,
           trace (snd (relay W [e] fin s))
           = trace s ++ [EvTarHeader {| Name := "x"; Size := Size h;
                                        Mode := Mode h; ModTime := ModTime h |};
                         EvTarWrite (entry_data e) ok].
Proof.
  exists {| Name := "../x"; Size := 3; Mode := 420; ModTime := 0 |}.
  repeat split.
  intros W e fin s He.
  exists (entry_intact e && sink_accepts W (S (length (trace s)))).
  simpl. rewrite He.
  destruct (entry_intact e && sink_accepts W (S (length (trace s))));
    [destruct fin|]; reflexivity.
Qed.

(** ** Running the handler monad *)

Lemma extend_nil (s : State) : extend s [] [] = s.
Proof. destruct s. unfold extend. simpl. now rewrite app_nil_r. Qed.

Lemma extend_extend (s : State) (w1 w2 : list Event) (d1 d2 : list Deferred) :
  extend (extend s w1 d1) w2 d2 = extend s (w1 ++ w2) (d2 ++ d1).
Proof. unfold extend. simpl. now rewrite !app_assoc. Qed.

Lemma trace_extend (s : State) w ds : trace (extend s w ds) = trace s ++ w.
Proof. reflexivity. Qed.

Lemma deferred_extend (s : State) w ds :
  deferred (extend s w ds) = ds ++ deferred s.
Proof. reflexivity. Qed.

Lemma bind_emit {B} (l : list Event) (k : unit -> Handler B) (s : State) :
  bind (emit l) k s = k tt (extend s l []).
Proof. reflexivity. Qed.

Lemma emit_run (l : list Event) (s : State) :
  emit l s = (Next tt, extend s l []).
Proof. reflexivity. Qed.

Lemma bind_moment {B} (k : nat -> Handler B) (s : State) :
  bind moment k s = k (length (trace s)) s.
Proof. reflexivity. Qed.

Lemma bind_defer {B} (d : Deferred) (k : unit -> Handler B) (s : State) :
  bind (defer d) k s = k tt (extend s [] [d]).
Proof. unfold bind, defer, extend. simpl. now rewrite app_nil_r. Qed.

Lemma bind_ret {A B} (a : A) (k : A -> Handler B) (s : State) :
  bind (ret a) k s = k a s.
Proof. reflexivity. Qed.

Lemma bind_bind {A B C} (m : Handler A) (k : A -> Handler B)
  (k' : B -> Handler C) (s : State) :
  bind (bind m k) k' s = bind m (fun a => bind (k a) k') s.
Proof. unfold bind. destruct (m s) as [[a|] s']; reflexivity. Qed.

Lemma bind_Next {A B} (m : Handler A) (k : A -> Handler B) (s s' : State)
  (a : A) :
  m s = (Next a, s') -> bind m k s = k a s'.
Proof. intros H. unfold bind. now rewrite H. Qed.

Lemma bind_Return {A B} (m : Handler A) (k : A -> Handler B) (s s' : State) :
  m s = (Return, s') -> bind m k s = (Return, s').
Proof. intros H. unfold bind. now rewrite H. Qed.

Lemma handleHttpError_leave {A} (e : Failure) (code : nat) (s : State) :
  http_code e = Some code ->
  (handleHttpError e code ;; @leave A) s = (Return, extend s (report e) []).
Proof.
  intros H. unfold handleHttpError, http_Error, report, aftermath.
  rewrite H. unfold bind, emit, leave, extend. simpl.
  now rewrite <- !app_assoc.
Qed.

Lemma handleError_run (e : Failure) (s : State) :
  http_code e = None ->
  handleError e s = (Next tt, extend s (report e) []).
Proof.
  intros H. unfold handleError, report, aftermath. rewrite H.
  unfold bind, emit, extend. simpl. now rewrite <- !app_assoc.
Qed.

Lemma handleError_leave {A} (e : Failure) (s : State) :
  http_code e = None ->
  (handleError e ;; @leave A) s = (Return, extend s (report e) []).
Proof.
  intros H. unfold bind at 1. now rewrite handleError_run.
Qed.

Lemma bind_must {B} (ok : bool) (e : Failure) (k : unit -> Handler B)
  (s : State) :
  http_code e = Some StatusInternalServerError ->
  bind (must ok e) k s
  = if ok then k tt s else (Return, extend s (report e) []).
Proof.
  intros H. unfold must. destruct ok; [reflexivity|].
  rewrite bind_bind. unfold bind at 1.
  pose proof (handleHttpError_leave (A:=B) e _ s H) as E.
  unfold bind at 1 in E.
  destruct (handleHttpError e StatusInternalServerError s) as [[[]|] s'];
    simpl in *; exact E.
Qed.

(** ** The checks before the streaming *)

Lemma probe_layers_spec (W : World) (id : string) (layers : list string)
  (s : State) :
  (Forall (reachable W) layers
   /\ probe_layers W id layers s = (Next tt, extend s (map EvHead layers) []))
  \/ (exists l1 u l2 cause,
        layers = l1 ++ u :: l2
        /\ Forall (reachable W) l1
        /\ ~ reachable W u
        /\ probe_layers W id layers s
           = (Return, extend s (map EvHead (l1 ++ [u])
                                ++ report (ErrHead u id cause)) [])).
Proof.
  revert s. induction layers as [|u layers IH]; intros s.
  - left. split; [constructor|]. simpl. now rewrite extend_nil.
  - simpl. rewrite bind_emit.
    destruct (http_Head W u) as [code|] eqn:Hu.
    + destruct (Nat.eqb_spec code StatusOK) as [->|Hne]; simpl.
      * destruct (IH (extend s [EvHead u] [])) as [[Hall E]|(l1&v&l2&c&E1&E2&E3&E4)].
        -- left. split; [constructor; assumption|].
           rewrite E, extend_extend. reflexivity.
        -- right. exists (u :: l1), v, l2, c.
           repeat split; [now rewrite E1|constructor; assumption|assumption|].
           rewrite E4, extend_extend. simpl. reflexivity.
      * right. exists [], u, layers, (HeadStatus code).
        repeat split; [constructor| |].
        -- unfold reachable. rewrite Hu. congruence.
        -- rewrite handleHttpError_leave by reflexivity.
           now rewrite extend_extend.
    + right. exists [], u, layers, HeadTransport.
      repeat split; [constructor| |].
      * unfold reachable. rewrite Hu. congruence.
      * rewrite handleHttpError_leave by reflexivity.
        now rewrite extend_extend.
Qed.

Lemma check_images_spec (W : World) (images : list string) (s : State) :
  (Forall (fun i => allowRegistry (net W) i = true) images
   /\ check_images W images s = (Next tt, s))
  \/ (exists image,
        In image images
        /\ allowRegistry (net W) image = false
        /\ check_images W images s
           = (Return, extend s (report (ErrUnsupportedRegistry image)) [])).
Proof.
  induction images as [|i images IH].
  - left. split; [constructor|reflexivity].
  - simpl. destruct (allowRegistry (net W) i) eqn:Hi; simpl.
    + destruct IH as [[Hall E]|(j & Hin & Hj & E)].
      * left. split; [constructor; assumption|exact E].
      * right. exists j. repeat split; [now right|assumption|exact E].
    + right. exists i. repeat split; [now left|assumption|].
      now rewrite handleHttpError_leave by reflexivity.
Qed.

(** ** The response writer *)

Lemma writer_after_app (a b : list Event) :
  writer_after (a ++ b) = fold_left writer_step b (writer_after a).
Proof. unfold writer_after. apply fold_left_app. Qed.

Lemma sent_stable (l : list Event) (w : Writer) (c : Response) :
  sent w = Some c -> sent (fold_left writer_step l w) = Some c.
Proof.
  revert w. induction l as [|e l IH]; intros w H; [exact H|].
  simpl. apply IH.
  destruct e; simpl; try exact H; unfold commit; now rewrite H.
Qed.


Lemma silent_writer (l : list Event) (w : Writer) :
  forallb is_silent l = true -> fold_left writer_step l w = w.
Proof.
  revert w. induction l as [|e l IH]; intros w H; [reflexivity|].
  simpl in H. apply andb_true_iff in H as [He Hl].
  simpl. rewrite <- (IH w Hl) at 2. f_equal.
  destruct e; simpl in He; try discriminate; reflexivity.
Qed.

Lemma writer_after_silent (a b : list Event) :
  forallb is_silent a = true -> writer_after (a ++ b) = writer_after b.
Proof.
  intros H. unfold writer_after. rewrite fold_left_app.
  now rewrite (silent_writer a) by exact H.
Qed.

Lemma forallb_map_head (l : list string) (p : Event -> bool) :
  (forall u, p (EvHead u) = true) -> forallb p (map EvHead l) = true.
Proof. intros H. induction l; simpl; [reflexivity|]. now rewrite H, IHl. Qed.

Lemma filter_none {A} (p q : A -> bool) (l : list A) :
  (forall x, q x = true -> p x = false) ->
  forallb q l = true -> List.filter p l = [].
Proof.
  intros Hpq. induction l as [|x l IH]; simpl; [reflexivity|].
  intros H. apply andb_true_iff in H as [Hx Hl].
  rewrite (Hpq x Hx). apply IH, Hl.
Qed.

Lemma preflight_no_streaming_work (tr : list Event) :
  forallb is_preflight tr = true -> no_streaming_work tr.
Proof.
  intros H. unfold no_streaming_work, archive.
  repeat split; apply (filter_none _ is_preflight); try exact H;
    intros [] Hx; try discriminate; reflexivity.
Qed.

Lemma report_preflight (e : Failure) : forallb is_preflight (report e) = true.
Proof. unfold report, aftermath. destruct (http_code e); reflexivity. Qed.

(** The answer when the first thing the handler says is an error over HTTP. *)
Lemma response_of_report (pre : list Event) (e : Failure) (code : nat)
  (post : list Event) :
  forallb is_silent pre = true ->
  http_code e = Some code ->
  status (handler_response (pre ++ report e ++ post)) = code
  /\ committed pre = None.
Proof.
  intros Hpre He. split.
  - unfold handler_response, committed.
    rewrite writer_after_silent by exact Hpre.
    rewrite writer_after_app.
    unfold report, aftermath. rewrite He. simpl.
    erewrite sent_stable by reflexivity. reflexivity.
  - unfold committed.
    rewrite <- (app_nil_r pre), writer_after_silent by exact Hpre.
    reflexivity.
Qed.

(** ** Manifest lookup *)

Lemma bundle_body_resolved (W : World) (r : Request) (m : BundleManifest) :
  resolves W r m ->
  bundle_body W r start = serve W r m (extend start (lookup_events r) []).
Proof.
  intros (Hm & Hreq & code & body & Hdo & Hcode & Hjson).
  unfold bundle_body.
  assert (String.eqb (Method r) "OPTIONS" = false) as ->
    by (destruct Hm as [-> | ->]; reflexivity).
  assert (negb (String.eqb (Method r) "GET")
          && negb (String.eqb (Method r) "HEAD") = false) as ->
    by (destruct Hm as [-> | ->]; reflexivity).
  rewrite bind_emit, bind_must by reflexivity.
  rewrite Hreq, bind_emit, Hdo.
  destruct (Nat.eqb_spec code StatusNotFound) as [|_]; [contradiction|].
  rewrite Hjson, extend_extend. reflexivity.
Qed.

Lemma not_all_and_some {A} (P : A -> Prop) (l : list A) :
  Forall P l -> Exists (fun x => ~ P x) l -> False.
Proof.
  intros Hall Hex. apply List.Exists_exists in Hex as (x & Hin & Hx).
  apply Hx. eapply List.Forall_forall; eassumption.
Qed.

Lemma allowed_or_denied (W : World) (images : list string) :
  Forall (fun i => allowRegistry (net W) i = true) images
  \/ Exists (denied W) images.
Proof.
  induction images as [|i l IH]; [left; constructor|].
  destruct (allowRegistry (net W) i) eqn:Hi.
  - destruct IH as [IH|IH]; [left|right]; constructor; assumption.
  - right. now constructor.
Qed.

Lemma reachable_or_not (W : World) (layers : list string) :
  Forall (reachable W) layers \/ Exists (fun u => ~ reachable W u) layers.
Proof.
  induction layers as [|u l IH]; [left; constructor|].
  unfold reachable in *.
  destruct (decide (http_Head W u = Some StatusOK)) as [Hu|Hu].
  - destruct IH as [IH|IH]; [left|right]; constructor; assumption.
  - right. now constructor.
Qed.

Lemma bundle_unreachable (W : World) (r : Request) (m : BundleManifest) :
  resolves W r m ->
  Exists (fun u => ~ reachable W u) (Layers m) ->
  exists l1 u l2 cause,
    Layers m = l1 ++ u :: l2
    /\ Forall (reachable W) l1
    /\ ~ reachable W u
    /\ bundle W r
       = lookup_events r ++ map EvHead (l1 ++ [u])
         ++ report (ErrHead u (installerID_of r) cause).
Proof.
  intros Hres Hex. unfold bundle.
  rewrite (bundle_body_resolved W r m Hres). unfold serve.
  destruct (probe_layers_spec W (installerID_of r) (Layers m)
              (extend start (lookup_events r) []))
    as [[Hall _]|(l1 & u & l2 & cause & E1 & E2 & E3 & E4)].
  - destruct (not_all_and_some _ _ Hall Hex).
  - exists l1, u, l2, cause. repeat split; try assumption.
    rewrite (bind_Return _ _ _ _ E4). reflexivity.
Qed.

Lemma bundle_denied (W : World) (r : Request) (m : BundleManifest) :
  resolves W r m ->
  Forall (reachable W) (Layers m) ->
  Exists (denied W) (Images m) ->
  exists image,
    In image (Images m)
    /\ denied W image
    /\ bundle W r
       = lookup_events r ++ map EvHead (Layers m)
         ++ report (ErrUnsupportedRegistry image).
Proof.
  intros Hres Hall Hex. unfold bundle.
  rewrite (bundle_body_resolved W r m Hres). unfold serve.
  destruct (probe_layers_spec W (installerID_of r) (Layers m)
              (extend start (lookup_events r) []))
    as [[_ E]|(l1 & u & l2 & cause & E1 & E2 & E3 & E4)].
  - rewrite (bind_Next _ _ _ _ _ E).
    destruct (check_images_spec W (Images m)
                (extend (extend start (lookup_events r) [])
                        (map EvHead (Layers m)) []))
      as [[Hok _]|(image & Hin & Hden & E')].
    + exfalso. apply (not_all_and_some _ _ Hok).
      eapply List.Exists_impl; [|exact Hex].
      unfold denied. intros a Ha. now rewrite Ha.
    + exists image. repeat split; try assumption.
      rewrite (bind_Return _ _ _ _ E'). reflexivity.
  - exfalso. apply E3. rewrite E1 in Hall.
    apply Forall_app in Hall as [_ Hall]. now apply Forall_inv in Hall.
Qed.

Lemma bundle_head_passes (W : World) (r : Request) (m : BundleManifest) :
  resolves W r m ->
  Method r = "HEAD" ->
  Forall (reachable W) (Layers m) ->
  Forall (fun i => allowRegistry (net W) i = true) (Images m) ->
  bundle W r = lookup_events r ++ map EvHead (Layers m) ++ success_headers.
Proof.
  intros Hres Hm Hall Hok. unfold bundle.
  rewrite (bundle_body_resolved W r m Hres). unfold serve.
  destruct (probe_layers_spec W (installerID_of r) (Layers m)
              (extend start (lookup_events r) []))
    as [[_ E]|(l1 & u & l2 & cause & E1 & E2 & E3 & E4)].
  - rewrite (bind_Next _ _ _ _ _ E).
    destruct (check_images_spec W (Images m)
                (extend (extend start (lookup_events r) [])
                        (map EvHead (Layers m)) []))
      as [[_ E']|(image & Hin & Hden & _)].
    + rewrite (bind_Next _ _ _ _ _ E'), bind_emit, Hm. reflexivity.
    + exfalso. unfold denied in Hden.
      rewrite (proj1 (List.Forall_forall _ _) Hok image Hin) in Hden.
      discriminate.
  - exfalso. apply E3. rewrite E1 in Hall.
    apply Forall_app in Hall as [_ Hall]. now apply Forall_inv in Hall.
Qed.

Lemma lookup_and_probes_silent (r : Request) (l : list string) :
  forallb is_silent (lookup_events r ++ map EvHead l) = true.
Proof.
  rewrite forallb_app. simpl. now apply forallb_map_head.
Qed.

Lemma lookup_and_probes_preflight (r : Request) (l : list string) (e : Failure) :
  forallb is_preflight (lookup_events r ++ map EvHead l ++ report e) = true.
Proof.
  rewrite !forallb_app. simpl.
  rewrite forallb_map_head by reflexivity. apply report_preflight.
Qed.

Lemma filter_probe_lookup (r : Request) (l : list string) (rest : list Event) :
  List.filter is_probe (lookup_events r ++ map EvHead l ++ rest)
  = map EvHead l ++ List.filter is_probe rest.
Proof.
  simpl. rewrite List.filter_app. f_equal.
  induction l; simpl; [reflexivity|]. now rewrite IHl.
Qed.

Lemma filter_probe_report (e : Failure) : List.filter is_probe (report e) = [].
Proof. unfold report, aftermath. destruct (http_code e); reflexivity. Qed.

Lemma plain_text_app (a b : list Event) :
  plain_text (a ++ b) = plain_text a ++ plain_text b.
Proof. unfold plain_text. apply omap_app. Qed.

Lemma plain_text_silent (a : list Event) :
  forallb is_silent a = true -> plain_text a = [].
Proof.
  induction a as [|e a IH]; [reflexivity|]. simpl.
  intros H. apply andb_true_iff in H as [He Ha].
  unfold plain_text in *. simpl.
  destruct e; try discriminate; simpl; now apply IH.
Qed.

(** ** The shape of the streaming *)

Lemma Shaped_ret : Shaped (ret tt).
Proof.
  intros s. exists (Next tt), [], []. rewrite extend_nil. now repeat split.
Qed.

Lemma Shaped_bind (m : Handler unit) (k : unit -> Handler unit) :
  Shaped m -> Shaped (k tt) -> Shaped (bind m k).
Proof.
  intros Hm Hk s.
  destruct (Hm s) as (out & w & ds & E & Hds & Hw).
  destruct out as [[]|].
  - destruct (Hk (extend s w ds)) as (out' & w' & ds' & E' & Hds' & Hw').
    exists out', (w ++ w'), (ds' ++ ds).
    rewrite (bind_Next _ _ _ _ _ E), E', extend_extend.
    repeat split.
    + rewrite forallb_app. now rewrite Hds, Hds'.
    + destruct out' as [[]|]; simpl in *.
      * rewrite forallb_app. now rewrite Hw, Hw'.
      * destruct Hw' as (w0 & e & -> & H0 & He).
        exists (w ++ w0), e. rewrite forallb_app, Hw, H0.
        repeat split; [now rewrite app_assoc|assumption].
  - exists Return, w, ds. rewrite (bind_Return _ _ _ _ E). now repeat split.
Qed.

Ltac shaped_return e :=
  do 3 eexists; split;
  [rewrite ?extend_extend; reflexivity
  |split; [reflexivity
          |eexists _, e; split;
           [first [reflexivity | symmetry; apply app_nil_l
                  | rewrite !app_assoc; reflexivity]
           |split; reflexivity]]].

Lemma stream_image_shaped (W : World) (i : nat) (image : string) :
  Shaped (stream_image W i image).
Proof.
  intros s. unfold stream_image.
  rewrite bind_must by reflexivity.
  destruct (ParseImageName W ("docker://" +:+ image));
    [|exists Return, (report (ErrParseOverride image)), []; repeat split;
      exists [], (ErrParseOverride image); now repeat split].
  rewrite bind_moment.
  destruct (TempDir W (length (trace s))) as [tempDir|];
    [|rewrite handleHttpError_leave by reflexivity;
      exists Return, (report ErrTempDir), []; repeat split;
      exists [], ErrTempDir; now repeat split].
  rewrite bind_emit, bind_defer, bind_must by reflexivity.
  destruct (ParseImageName W _); [|shaped_return (ErrParseLocal
    ("docker-archive:" +:+ Filepath.Join [tempDir; "temp-archive-image"]
       +:+ ":" +:+ image))].
  rewrite bind_must by reflexivity.
  destruct (NewPolicyFromBytes W); [|shaped_return ErrPolicy].
  rewrite bind_must by reflexivity.
  destruct (NewPolicyContext W); [|shaped_return ErrPolicyContext].
  rewrite bind_emit.
  destruct (copy_Image W _ image) as [content|];
    [|rewrite handleHttpError_leave by reflexivity;
      shaped_return (ErrSaveImage image)].
  rewrite bind_must by reflexivity.
  destruct (os_Open W _); [|shaped_return ErrOpenArchive].
  rewrite bind_must by reflexivity.
  destruct (file_Stat W _); [|shaped_return ErrStat].
  rewrite bind_moment, bind_emit, bind_moment, bind_emit.
  rewrite bind_must by reflexivity.
  destruct (sink_accepts W _);
    [|shaped_return (ErrCopyFile (image_entry_name i))].
  rewrite bind_emit, emit_run.
  do 3 eexists. split; [rewrite ?extend_extend; reflexivity|].
  split; reflexivity.
Qed.

Lemma stream_images_shaped (W : World) (images : list string) (i : nat) :
  Shaped (stream_images W i images).
Proof.
  revert i. induction images as [|image rest IH]; intros i; simpl.
  - apply Shaped_ret.
  - apply Shaped_bind; [apply stream_image_shaped|apply IH].
Qed.

Lemma relay_shape (W : World) (es : list LayerEntry) (fin : StreamEnd)
  (s : State) :
  exists c w, relay W es fin s = (c, extend s w [])
              /\ forallb is_work w = true.
Proof.
  revert s. induction es as [|e es IH]; intros s; simpl.
  - destruct fin; eexists _, []; rewrite extend_nil; now split.
  - change {| trace := trace s ++ ?w; deferred := deferred s |}
      with (extend s w []).
    destruct (entry_intact e && sink_accepts W (S (length (trace s)))).
    + destruct (IH (extend s [EvTarHeader (rename (entry_header e));
                              EvTarWrite (entry_data e) true] []))
        as (c & w & E & Hw).
      exists c, ([EvTarHeader (rename (entry_header e));
                  EvTarWrite (entry_data e) true] ++ w).
      rewrite E, extend_extend. now split.
    + eexists _, _. now split.
Qed.

Lemma pipe_shape (W : World) (srcURL : string) (s : State) :
  exists c w, pipe W srcURL s = (c, extend s w [])
              /\ forallb is_work w = true.
Proof.
  unfold pipe.
  change {| trace := trace s ++ ?w; deferred := deferred s |}
    with (extend s w []).
  destruct (http_Get W srcURL) as [|code body]; [eexists _, _; now split|].
  destruct (negb (code =? StatusOK)%nat); [eexists _, _; now split|].
  destruct body as [src|]; [|eexists _, _; now split].
  destruct (relay_shape W (entries src) (stream_end src)
              (extend s [EvGet srcURL] [])) as (c & w & E & Hw).
  exists c, ([EvGet srcURL] ++ w). rewrite E, extend_extend. now split.
Qed.

Lemma stream_layers_shaped (W : World) (id : string) (layers : list string) :
  Shaped (stream_layers W id layers).
Proof.
  induction layers as [|u rest IH]; simpl; [apply Shaped_ret|].
  intros s.
  destruct (pipe_shape W u s) as (c & w & E & Hw). rewrite E.
  destruct c as [cause|].
  - rewrite handleError_leave by reflexivity.
    exists Return, (w ++ report (ErrPipe u id cause)), [].
    rewrite extend_extend. repeat split.
    exists w, (ErrPipe u id cause). now repeat split.
  - destruct (IH (extend s w [])) as (out & w' & ds & E' & Hds & Hw').
    exists out, (w ++ w'), ds. rewrite E', extend_extend, app_nil_r.
    repeat split; [assumption|].
    destruct out as [[]|]; simpl in *.
    + rewrite forallb_app. now rewrite Hw, Hw'.
    + destruct Hw' as (w0 & e & -> & H0 & He).
      exists (w ++ w0), e. rewrite forallb_app, Hw, H0.
      repeat split; [now rewrite app_assoc|assumption].
Qed.

Lemma stream_files_shaped (W : World) (id : string)
  (files : list (string * string)) :
  Shaped (stream_files W id files).
Proof.
  induction files as [|[filepath contents] rest IH]; simpl;
    [apply Shaped_ret|].
  intros s. rewrite bind_moment, bind_emit, bind_moment, bind_emit.
  destruct (sink_accepts W _).
  - rewrite bind_ret.
    match goal with |- context [stream_files W id rest ?s'] =>
      destruct (IH s') as (out & w' & ds & E' & Hds & Hw') end.
    rewrite E', !extend_extend.
    eexists out, _, _. split; [reflexivity|].
    split; [rewrite !app_nil_r; exact Hds|].
    destruct out as [[]|]; simpl in *.
    + exact Hw'.
    + destruct Hw' as (w0 & e & -> & H0 & He).
      eexists (_ :: _ :: w0), e. split; [|split; [|exact He]].
      * reflexivity.
      * simpl. exact H0.
  - erewrite bind_Return by (apply handleError_leave; reflexivity).
    shaped_return (ErrWriteFile filepath id).
Qed.

Lemma stream_shaped (W : World) (id : string) (m : BundleManifest) (s : State) :
  exists out w ds,
    stream W id m s = (out, extend s w (ds ++ [DeferCloseWriters id]))
    /\ forallb is_remove_all ds = true
    /\ streamed out w.
Proof.
  unfold stream. rewrite bind_defer.
  assert (H : Shaped (stream_images W 0 (Images m) ;;
                      stream_layers W id (Layers m) ;;
                      stream_files W id (map_range W (Files m)))).
  { apply Shaped_bind; [apply stream_images_shaped|].
    apply Shaped_bind; [apply stream_layers_shaped|].
    apply stream_files_shaped. }
  destruct (H (extend s [] [DeferCloseWriters id]))
    as (out & w & ds & E & Hds & Hw).
  exists out, w, ds. rewrite E, extend_extend. now repeat split.
Qed.

(** ** The deferred calls *)

Lemma run_deferred_app (W : World) (a b : list Deferred) (tr : list Event) :
  run_deferred W (a ++ b) tr = run_deferred W b (run_deferred W a tr).
Proof.
  revert tr. induction a as [|d a IH]; intros tr; [reflexivity|].
  simpl. apply IH.
Qed.

Lemma run_deferred_removes (W : World) (ds : list Deferred) (tr : list Event) :
  forallb is_remove_all ds = true ->
  run_deferred W ds tr = tr ++ flat_map removed ds.
Proof.
  revert tr. induction ds as [|d ds IH]; intros tr H; simpl.
  - now rewrite app_nil_r.
  - simpl in H. apply andb_true_iff in H as [Hd Hds].
    destruct d; [discriminate|]. simpl.
    rewrite IH by exact Hds. now rewrite <- app_assoc.
Qed.

Lemma close_writers_run (W : World) (id : string) (tr : list Event) :
  exists a g,
    trace (snd (close_writers W id {| trace := tr; deferred := [] |}))
    = tr ++ EvTarClose a
         :: (if a then [] else report (ErrCloseArchive id))
         ++ EvGzipClose g
         :: (if g then [] else report (ErrCloseGzip id)).
Proof.
  unfold close_writers. rewrite bind_moment, bind_emit.
  simpl length.
  exists (archive_Close W (length tr)).
  destruct (archive_Close W (length tr)).
  - rewrite bind_ret, bind_moment, bind_emit.
    match goal with |- context [gzip_Close W ?n] =>
      exists (gzip_Close W n); destruct (gzip_Close W n) end.
    + simpl. rewrite <- app_assoc. reflexivity.
    + rewrite handleError_run by reflexivity. simpl.
      rewrite <- !app_assoc. reflexivity.
  - erewrite bind_Next by (apply handleError_run; reflexivity).
    rewrite bind_moment, bind_emit.
    match goal with |- context [gzip_Close W ?n] =>
      exists (gzip_Close W n); destruct (gzip_Close W n) end.
    + simpl. rewrite <- !app_assoc. reflexivity.
    + rewrite handleError_run by reflexivity. simpl.
      rewrite <- !app_assoc. reflexivity.
Qed.

Lemma run_deferred_finalization (W : World) (id : string)
  (ds : list Deferred) (tr : list Event) :
  forallb is_remove_all ds = true ->
  exists fin,
    run_deferred W (ds ++ [DeferCloseWriters id]) tr = tr ++ fin
    /\ finalization id fin.
Proof.
  intros Hds.
  rewrite run_deferred_app, (run_deferred_removes W ds tr Hds). simpl.
  destruct (close_writers_run W id (tr ++ flat_map removed ds))
    as (a & g & E).
  eexists. split.
  - rewrite E, <- app_assoc. reflexivity.
  - exists ds, a, g. now split.
Qed.

(** A GET that passes the checks: the headers are set, the loops run, and
    the deferred calls end the request, whether an error cut the loops short
    or not. *)
Lemma bundle_get_streams (W : World) (r : Request) (m : BundleManifest) :
  resolves W r m ->
  Method r = "GET" ->
  Forall (reachable W) (Layers m) ->
  Forall (fun i => allowRegistry (net W) i = true) (Images m) ->
  exists w fin,
    forallb is_work w = true
    /\ finalization (installerID_of r) fin
    /\ (bundle W r
        = (lookup_events r ++ map EvHead (Layers m) ++ success_headers)
          ++ w ++ fin
        \/ exists e,
             midstream_failure e = true
             /\ bundle W r
                = (lookup_events r ++ map EvHead (Layers m) ++ success_headers)
                  ++ w ++ report e ++ fin).
Proof.
  intros Hres Hm Hall Hok. unfold bundle.
  rewrite (bundle_body_resolved W r m Hres). unfold serve.
  destruct (probe_layers_spec W (installerID_of r) (Layers m)
              (extend start (lookup_events r) []))
    as [[_ E]|(l1 & u & l2 & cause & E1 & E2 & E3 & E4)].
  2:{ exfalso. apply E3. rewrite E1 in Hall.
      apply Forall_app in Hall as [_ Hall]. now apply Forall_inv in Hall. }
  rewrite (bind_Next _ _ _ _ _ E).
  destruct (check_images_spec W (Images m)
              (extend (extend start (lookup_events r) [])
                      (map EvHead (Layers m)) []))
    as [[_ E']|(image & Hin & Hden & _)].
  2:{ exfalso. unfold denied in Hden.
      rewrite (proj1 (List.Forall_forall _ _) Hok image Hin) in Hden.
      discriminate. }
  rewrite (bind_Next _ _ _ _ _ E'), bind_emit, Hm.
  change (String.eqb "GET" "HEAD") with false. cbv iota.
  match goal with |- context [stream W ?id m ?s] =>
    destruct (stream_shaped W id m s) as (out & w & ds & Es & Hds & Hw);
    rewrite Es
  end.
  cbn [snd]. rewrite !deferred_extend, !trace_extend.
  change (trace start) with (@nil Event).
  change (deferred start) with (@nil Deferred).
  rewrite !app_nil_r, app_nil_l.
  match goal with |- context [run_deferred W _ ?t] =>
    destruct (run_deferred_finalization W (installerID_of r) ds t Hds)
      as (fin & Ef & Hfin)
  end.
  rewrite Ef.
  destruct out as [[]|]; simpl in Hw.
  - exists w, fin. repeat split; try assumption. left.
    rewrite <- !app_assoc. reflexivity.
  - destruct Hw as (w0 & e & E0 & H0 & He).
    exists w0, fin. repeat split; try assumption. right.
    exists e. split; [assumption|].
    rewrite E0, <- !app_assoc. reflexivity.
Qed.

Lemma finalization_cleanup (id : string) (fin : list Event) :
  finalization id fin -> forallb is_cleanup fin = true.
Proof.
  intros (ds & a & g & Hds & ->).
  rewrite forallb_app. apply andb_true_iff. split.
  - induction ds as [|d ds IH]; [reflexivity|].
    simpl in Hds. apply andb_true_iff in Hds as [Hd Hds].
    destruct d; [discriminate|]. simpl. now apply IH.
  - destruct a, g; reflexivity.
Qed.

Lemma report_not_probe (e : Failure) : List.filter is_probe (report e) = [].
Proof. unfold report, aftermath. destruct (http_code e); reflexivity. Qed.

Lemma work_not_probe (w : list Event) :
  forallb is_work w = true -> List.filter is_probe w = [].
Proof.
  apply filter_none. intros [] H; try discriminate; reflexivity.
Qed.

Lemma cleanup_not_probe (w : list Event) :
  forallb is_cleanup w = true -> List.filter is_probe w = [].
Proof.
  apply filter_none. intros [] H; try discriminate; reflexivity.
Qed.

(** ** Every request either ends early or streams *)

Lemma early_preflight (tr : list Event) :
  forallb is_early tr = true -> forallb is_preflight tr = true.
Proof.
  induction tr as [|e tr IH]; [reflexivity|]. simpl.
  intros H. apply andb_true_iff in H as [He Ht].
  rewrite (IH Ht), andb_true_r. destruct e; try exact He; reflexivity.
Qed.


Lemma report_early (e : Failure) :
  midstream_failure e = false -> forallb is_early (report e) = true.
Proof.
  intros H. unfold report, aftermath. simpl. rewrite H. simpl.
  destruct (http_code e); simpl; now rewrite H.
Qed.

Lemma lookup_probes_report_early (r : Request) (l : list string) (e : Failure) :
  midstream_failure e = false ->
  forallb is_early (lookup_events r ++ map EvHead l ++ report e) = true.
Proof.
  intros H. rewrite !forallb_app. simpl.
  rewrite forallb_map_head by reflexivity. now apply report_early.
Qed.

(** A request that does not get a manifest ends early. *)
Lemma bundle_unresolved (W : World) (r : Request) :
  (exists m, resolves W r m) \/ forallb is_early (bundle W r) = true.
Proof.
  unfold bundle, bundle_body.
  destruct (String.eqb (Method r) "OPTIONS") eqn:Hopt; [right; reflexivity|].
  destruct (String.eqb_spec (Method r) "GET") as [Hget|Hget];
    destruct (String.eqb_spec (Method r) "HEAD") as [Hhead|Hhead];
    cbn [negb andb];
    try (rewrite Hget in Hhead; discriminate);
    try (right; reflexivity).
  all: rewrite bind_emit, bind_must by reflexivity.
  all: destruct (http_NewRequest W (installerURL_of r)) eqn:Hreq;
    [|right; reflexivity].
  all: rewrite bind_emit.
  all: destruct (client_Do W (installerURL_of r)) as [|code|code body] eqn:Hdo;
    try (right; rewrite handleHttpError_leave by reflexivity; reflexivity).
  all: destruct (Nat.eqb_spec code StatusNotFound) as [Hcode|Hcode];
    [right; reflexivity|].
  all: destruct (json_Unmarshal W body) as [m|] eqn:Hjson;
    [|right; rewrite handleHttpError_leave by reflexivity; reflexivity].
  all: left; exists m; unfold resolves; repeat split; eauto.
  all: exists code, body; repeat split; assumption.
Qed.

Lemma bundle_early_or_streams (W : World) (r : Request) :
  forallb is_early (bundle W r) = true
  \/ exists m,
       resolves W r m /\ Method r = "GET"
       /\ Forall (reachable W) (Layers m)
       /\ Forall (fun i => allowRegistry (net W) i = true) (Images m).
Proof.
  destruct (bundle_unresolved W r) as [[m Hres]|H]; [|now left].
  destruct (reachable_or_not W (Layers m)) as [Hall|Hex].
  2:{ left. destruct (bundle_unreachable W r m Hres Hex)
        as (l1 & u & l2 & cause & _ & _ & _ & ->).
      now apply lookup_probes_report_early. }
  destruct (allowed_or_denied W (Images m)) as [Hok|Hbad].
  2:{ left. destruct (bundle_denied W r m Hres Hall Hbad)
        as (image & _ & _ & ->).
      now apply lookup_probes_report_early. }
  destruct (proj1 Hres) as [Hget|Hhead].
  - right. exists m. split; [exact Hres|]. now repeat split.
  - left. rewrite (bundle_head_passes W r m Hres Hhead Hall Hok).
    rewrite !forallb_app. simpl.
    now rewrite forallb_map_head by reflexivity.
Qed.

(** ** The response of a request that streams *)

Lemma commit_idem (code : nat) (w : Writer) :
  commit code (commit code w) = commit code w.
Proof. unfold commit. destruct (sent w) eqn:E; simpl; now rewrite ?E. Qed.

Lemma work_writer (w : list Event) (wr : Writer) :
  forallb is_work w = true ->
  fold_left writer_step w wr = wr
  \/ fold_left writer_step w wr = commit StatusOK wr.
Proof.
  revert wr. induction w as [|e w IH]; intros wr H; [now left|].
  simpl in H. apply andb_true_iff in H as [He Hw]. simpl.
  destruct e; try discriminate; simpl; try (apply IH, Hw).
  all: destruct (IH (commit StatusOK wr) Hw) as [E|E]; rewrite E;
    rewrite ?commit_idem; now right.
Qed.

Lemma sent_commit (code : nat) (wr : Writer) :
  sent (commit code wr)
  = Some (match sent wr with
          | Some c => c
          | None => {| status := code; headers := header_map wr |}
          end).
Proof. unfold commit. destruct (sent wr) eqn:E; simpl; now rewrite ?E. Qed.

Lemma finalization_writer (id : string) (fin : list Event) (wr : Writer) :
  finalization id fin ->
  sent (fold_left writer_step fin wr) = sent (commit StatusOK wr).
Proof.
  intros (ds & a & g & Hds & ->).
  rewrite fold_left_app.
  assert (Hrm : forallb is_silent (flat_map removed ds) = true).
  { clear -Hds. induction ds as [|d ds IH]; [reflexivity|].
    simpl in Hds. apply andb_true_iff in Hds as [Hd Hds].
    destruct d; [discriminate|]. simpl. now apply IH. }
  rewrite (silent_writer _ wr Hrm). simpl.
  rewrite sent_commit. apply sent_stable. apply sent_commit.
Qed.

Lemma writer_after_checks (r : Request) (l : list string) :
  writer_after (lookup_events r ++ map EvHead l ++ success_headers)
  = {| header_map := success_header_map; sent := None |}.
Proof.
  rewrite app_assoc, writer_after_silent by apply lookup_and_probes_silent.
  reflexivity.
Qed.

Lemma response_committed (tr : list Event) (c : Response) :
  committed tr = Some c -> handler_response tr = c.
Proof. unfold handler_response. now intros ->. Qed.

(** After the checks and some work of the loops, either nothing has been
    sent or the success answer has. *)
Lemma committed_after_work (P w : list Event) :
  writer_after P = {| header_map := success_header_map; sent := None |} ->
  forallb is_work w = true ->
  writer_after (P ++ w)
  = {| header_map := success_header_map; sent := None |}
  \/ writer_after (P ++ w)
     = {| header_map := success_header_map; sent := Some success_response |}.
Proof.
  intros HP Hw. rewrite writer_after_app, HP.
  destruct (work_writer w {| header_map := success_header_map; sent := None |} Hw)
    as [-> | ->]; [now left|now right].
Qed.

(** A GET that streams to the end answers with the success response. *)
Lemma response_streamed (P w fin : list Event) (id : string) :
  writer_after P = {| header_map := success_header_map; sent := None |} ->
  forallb is_work w = true ->
  finalization id fin ->
  handler_response (P ++ w ++ fin) = success_response.
Proof.
  intros HP Hw Hfin. apply response_committed. unfold committed.
  rewrite app_assoc, writer_after_app.
  rewrite (finalization_writer id fin _ Hfin), sent_commit.
  destruct (committed_after_work P w HP Hw) as [-> | ->]; reflexivity.
Qed.

(** A GET whose loops are cut short by an error: the success response when
    something had been written into the archive or when the error is one of
    the layer and file loops, and 500 when an image fails first. *)
Lemma response_cut_short (P w fin : list Event) (e : Failure) (id : string) :
  writer_after P = {| header_map := success_header_map; sent := None |} ->
  forallb is_work w = true ->
  midstream_failure e = true ->
  finalization id fin ->
  handler_response (P ++ w ++ report e ++ fin) = success_response
  \/ (committed (P ++ w) = None
      /\ image_failure e = true
      /\ status (handler_response (P ++ w ++ report e ++ fin))
         = StatusInternalServerError).
Proof.
  intros HP Hw He Hfin.
  replace (P ++ w ++ report e ++ fin) with (((P ++ w) ++ report e) ++ fin)
    by now rewrite <- !app_assoc.
  unfold handler_response, committed.
  rewrite (writer_after_app _ fin), (writer_after_app _ (report e)).
  rewrite (finalization_writer id fin _ Hfin), sent_commit.
  destruct (committed_after_work P w HP Hw) as [E|E]; rewrite E.
  - destruct (image_failure e) eqn:Hi.
    + right. repeat split.
      destruct e; try discriminate; reflexivity.
    + left. destruct e; try discriminate; reflexivity.
  - left.
    erewrite (sent_stable (report e) _ success_response) by reflexivity.
    reflexivity.
Qed.

(** ** The first error of the loops in a trace *)

Lemma split_unique {A} (P : A -> bool) (q r p post : list A) (x y : A) :
  forallb (fun a => negb (P a)) q = true ->
  forallb (fun a => negb (P a)) r = true ->
  P x = true -> P y = true ->
  q ++ x :: r = p ++ y :: post ->
  p = q /\ y = x /\ post = r.
Proof.
  revert p. induction q as [|a q IH]; intros p Hq Hr Hx Hy E.
  - destruct p as [|b p]; simpl in E.
    + injection E as -> ->. now repeat split.
    + injection E as -> E. exfalso.
      assert (H : forallb (fun a => negb (P a)) (p ++ y :: post) = true)
        by now rewrite <- E.
      rewrite forallb_app in H. simpl in H. rewrite Hy in H.
      simpl in H. now rewrite andb_false_r in H.
  - simpl in Hq. apply andb_true_iff in Hq as [Ha Hq].
    destruct p as [|b p]; simpl in E.
    + injection E as -> _. rewrite Hy in Ha. discriminate.
    + injection E as -> E.
      destruct (IH p Hq Hr Hx Hy E) as (-> & -> & ->). now repeat split.
Qed.






(** ** A request that streams to the end *)

Lemma archive_app (a b : list Event) : archive (a ++ b) = archive a ++ archive b.
Proof. apply List.filter_app. Qed.

Lemma image_entries_cons (pulled : string -> string) (i : nat)
  (image : string) (rest : list string) :
  image_entries pulled i (image :: rest)
  = entry_events (image_entry_name i) (pulled image)
    ++ image_entries pulled (S i) rest.
Proof.
  unfold image_entries. rewrite imap_cons. cbn [concat].
  rewrite Nat.add_0_r. f_equal. f_equal.
  apply imap_ext. intros k x _. cbn [compose].
  now rewrite Nat.add_succ_r.
Qed.

Section Healthy.
Variables (W : World) (m : BundleManifest) (pulled : string -> string)
          (src : string -> LayerStream).
Hypothesis Hw : healthy W m pulled src.

Lemma stream_image_ok (i : nat) (image : string) (s : State) :
  In image (Images m) ->
  exists w d,
    stream_image W i image s = (Next tt, extend s w [DeferRemoveAll d])
    /\ map untimed (archive w)
       = entry_events (image_entry_name i) (pulled image).
Proof.
  intros Hin. unfold stream_image.
  rewrite bind_must, (names_parse _ _ _ _ Hw), bind_moment by reflexivity.
  destruct (scratch_available _ _ _ _ Hw (length (trace s))) as [dir ->].
  rewrite bind_emit, bind_defer.
  rewrite bind_must, (names_parse _ _ _ _ Hw) by reflexivity.
  destruct (policy_loads _ _ _ _ Hw) as [-> ->].
  rewrite !bind_must, bind_emit by reflexivity.
  rewrite (images_pull _ _ _ _ Hw _ _ Hin).
  rewrite bind_must, (proj1 (archives_open _ _ _ _ Hw _)) by reflexivity.
  rewrite bind_must, (proj2 (archives_open _ _ _ _ Hw _)) by reflexivity.
  rewrite bind_moment, bind_emit, bind_moment, bind_emit.
  rewrite bind_must, (client_listens _ _ _ _ Hw) by reflexivity.
  rewrite bind_emit, emit_run, !extend_extend.
  eexists _, dir. split; [reflexivity|reflexivity].
Qed.

Lemma stream_images_ok (images : list string) (i : nat) (s : State) :
  (forall image, In image images -> In image (Images m)) ->
  exists w ds,
    stream_images W i images s = (Next tt, extend s w ds)
    /\ forallb is_remove_all ds = true
    /\ map untimed (archive w) = image_entries pulled i images.
Proof.
  revert i s. induction images as [|image rest IH]; intros i s Hsub.
  - exists [], []. simpl. now rewrite extend_nil.
  - simpl.
    destruct (stream_image_ok i image s) as (w & d & E & Ha);
      [apply Hsub; now left|].
    rewrite (bind_Next _ _ _ _ _ E).
    destruct (IH (S i) (extend s w [DeferRemoveAll d])) as (w' & ds & E' & Hds & Ha');
      [intros x Hx; apply Hsub; now right|].
    exists (w ++ w'), (ds ++ [DeferRemoveAll d]).
    rewrite E', extend_extend. repeat split.
    + rewrite forallb_app, Hds. reflexivity.
    + rewrite archive_app, map_app, Ha, Ha'.
      now rewrite image_entries_cons.
Qed.

Lemma relay_ok (es : list LayerEntry) (s : State) :
  Forall (fun e => entry_intact e = true) es ->
  relay W es EOF s = (None, extend s (flat_map relayed es) []).
Proof.
  revert s. induction es as [|e es IH]; intros s Hes; simpl.
  - now rewrite extend_nil.
  - inversion Hes as [|? ? He Hrest]; subst.
    rewrite He, (client_listens _ _ _ _ Hw). simpl.
    change {| trace := trace s ++ ?w; deferred := deferred s |}
      with (extend s w []).
    rewrite (IH _ Hrest), extend_extend. reflexivity.
Qed.

Lemma stream_layers_ok (id : string) (layers : list string) (s : State) :
  (forall u, In u layers -> In u (Layers m)) ->
  exists w,
    stream_layers W id layers s = (Next tt, extend s w [])
    /\ map untimed (archive w) = layer_entries src layers.
Proof.
  revert s. induction layers as [|u rest IH]; intros s Hsub.
  - exists []. simpl. now rewrite extend_nil.
  - simpl. unfold pipe.
    destruct (layers_stream _ _ _ _ Hw u) as (-> & Hend & Hes);
      [apply Hsub; now left|].
    simpl. rewrite Hend.
    change {| trace := trace s ++ ?w; deferred := deferred s |}
      with (extend s w []).
    rewrite (relay_ok _ _ Hes).
    destruct (IH (extend (extend s [EvGet u] [])
                         (flat_map relayed (entries (src u))) []))
      as (w' & E' & Ha'); [intros x Hx; apply Hsub; now right|].
    exists (([EvGet u] ++ flat_map relayed (entries (src u))) ++ w').
    rewrite E', !extend_extend. split; [reflexivity|].
    rewrite !archive_app, !map_app, Ha'. simpl.
    f_equal.
    generalize (entries (src u)). intros es.
    induction es as [|e es IHes]; [reflexivity|].
    simpl. now rewrite IHes.
Qed.

Lemma stream_files_ok (id : string) (files : list (string * string))
  (s : State) :
  exists w,
    stream_files W id files s = (Next tt, extend s w [])
    /\ map untimed (archive w) = file_entries files.
Proof.
  revert s. induction files as [|[path contents] rest IH]; intros s.
  - exists []. simpl. now rewrite extend_nil.
  - simpl. rewrite bind_moment, bind_emit, bind_moment, bind_emit.
    rewrite (client_listens _ _ _ _ Hw), bind_ret.
    match goal with |- context [stream_files W id rest ?s'] =>
      destruct (IH s') as (w' & E' & Ha') end.
    rewrite E', !extend_extend.
    eexists. split; [reflexivity|].
    rewrite !archive_app, !map_app, Ha'. reflexivity.
Qed.

End Healthy.

Lemma archive_finalization (id : string) (fin : list Event) :
  finalization id fin ->
  exists a g, archive fin = [EvTarClose a; EvGzipClose g].
Proof.
  intros (ds & a & g & Hds & ->). exists a, g.
  rewrite archive_app.
  assert (archive (flat_map removed ds) = []) as ->.
  { induction ds as [|d ds IH]; [reflexivity|].
    simpl in Hds. apply andb_true_iff in Hds as [Hd Hds].
    destruct d; [discriminate|]. simpl. now apply IH. }
  destruct a, g; reflexivity.
Qed.

Lemma archive_checks (r : Request) (l : list string) :
  archive (lookup_events r ++ map EvHead l ++ success_headers) = [].
Proof.
  rewrite !archive_app. simpl.
  induction l; [reflexivity|]. simpl. exact IHl.
Qed.

(** The archive of a GET in a healthy world, times left out. *)
Lemma archive_of_healthy_get (W : World) (r : Request) (m : BundleManifest)
  (pulled : string -> string) (src : string -> LayerStream) :
  healthy W m pulled src ->
  resolves W r m ->
  Method r = "GET" ->
  exists a g,
    map untimed (archive (bundle W r))
    = image_entries pulled 0 (Images m)
      ++ layer_entries src (Layers m)
      ++ file_entries (map_range W (Files m))
      ++ [EvTarClose a; EvGzipClose g].
Proof.
  intros Hw Hres Hget. unfold bundle.
  rewrite (bundle_body_resolved W r m Hres). unfold serve.
  destruct (probe_layers_spec W (installerID_of r) (Layers m)
              (extend start (lookup_events r) []))
    as [[_ E]|(l1 & u & l2 & cause & E1 & E2 & E3 & E4)].
  2:{ exfalso. apply E3. pose proof (layers_up _ _ _ _ Hw) as Hall.
      rewrite E1 in Hall.
      apply Forall_app in Hall as [_ Hall]. now apply Forall_inv in Hall. }
  rewrite (bind_Next _ _ _ _ _ E).
  destruct (check_images_spec W (Images m)
              (extend (extend start (lookup_events r) [])
                      (map EvHead (Layers m)) []))
    as [[_ E']|(image & Hin & Hden & _)].
  2:{ exfalso. unfold denied in Hden.
      rewrite (proj1 (List.Forall_forall _ _) (images_allowed _ _ _ _ Hw)
                 image Hin) in Hden.
      discriminate. }
  rewrite (bind_Next _ _ _ _ _ E'), bind_emit, Hget.
  change (String.eqb "GET" "HEAD") with false. cbv iota.
  unfold stream. rewrite bind_defer.
  match goal with |- context [bind (stream_images W 0 (Images m)) _ ?s] =>
    destruct (stream_images_ok W m pulled src Hw (Images m) 0 s
                (fun _ H => H)) as (wi & ds & Ei & Hds & Hai)
  end.
  rewrite (bind_Next _ _ _ _ _ Ei).
  match goal with |- context [bind (stream_layers W ?id (Layers m)) _ ?s] =>
    destruct (stream_layers_ok W m pulled src Hw id (Layers m) s
                (fun _ H => H)) as (wl & El & Hal)
  end.
  rewrite (bind_Next _ _ _ _ _ El).
  match goal with |- context [stream_files W ?id ?fs ?s] =>
    destruct (stream_files_ok W m pulled src Hw id fs s) as (wf & Ef & Haf)
  end.
  rewrite Ef. cbn [snd]. rewrite !deferred_extend, !trace_extend.
  change (trace start) with (@nil Event).
  change (deferred start) with (@nil Deferred).
  rewrite ?app_nil_r. cbn [app].
  match goal with |- context [run_deferred W _ ?t] =>
    destruct (run_deferred_finalization W (installerID_of r) ds t Hds)
      as (fin & Efin & Hfin)
  end.
  rewrite Efin.
  destruct (archive_finalization _ _ Hfin) as (a & g & Hafin).
  exists a, g.
  rewrite !archive_app, Hafin, !map_app, Hai, Hal, Haf.
  rewrite <- !app_assoc.
  pose proof (archive_checks r (Layers m)) as Hc.
  rewrite !archive_app in Hc.
  apply app_eq_nil in Hc as [Hc1 Hc2]. apply app_eq_nil in Hc2 as [Hc2 Hc3].
  rewrite Hc1, Hc2, Hc3. reflexivity.
Qed.

(** ** What the server sends *)

Lemma status_response (r : Request) (tr : list Event) :
  status (response r tr) = status (handler_response tr).
Proof.
  unfold response.
  destruct (String.eqb (Method r) "HEAD"
            || negb (bodyAllowedForStatus (status (handler_response tr))));
    reflexivity.
Qed.

Lemma response_with_body (r : Request) (tr : list Event) :
  Method r <> "HEAD" ->
  bodyAllowedForStatus (status (handler_response tr)) = true ->
  response r tr = handler_response tr.
Proof.
  intros Hm Hb. unfold response.
  apply String.eqb_neq in Hm. now rewrite Hm, Hb.
Qed.

Lemma response_of_head (r : Request) (tr : list Event) :
  Method r = "HEAD" ->
  response r tr
  = {| status := status (handler_response tr);
       headers := delete "Transfer-Encoding" (headers (handler_response tr)) |}.
Proof. intros Hm. unfold response. now rewrite Hm. Qed.

Lemma response_of_get (r : Request) (tr : list Event) (a : Response) :
  Method r = "GET" ->
  handler_response tr = a ->
  bodyAllowedForStatus (status a) = true ->
  response r tr = a.
Proof.
  intros Hm <- Hb. apply response_with_body; [|exact Hb].
  rewrite Hm. discriminate.
Qed.

Lemma handler_response_refused (tr : list Event) (msg : string) (code : nat) :
  refused_with tr msg code -> handler_response tr = plain_error code.
Proof.
  intros (pre & post & -> & Hpre & _).
  unfold handler_response, committed.
  rewrite writer_after_silent by exact Hpre.
  rewrite writer_after_app.
  change (writer_after (http_Error_events msg code))
    with {| header_map := headers (plain_error code);
            sent := Some (plain_error code) |}.
  now erewrite sent_stable by reflexivity.
Qed.

Lemma response_refused (r : Request) (tr : list Event) (msg : string)
  (code : nat) :
  refused_with tr msg code ->
  bodyAllowedForStatus code = true ->
  response r tr = plain_error code.
Proof.
  intros H Hb. unfold response.
  rewrite (handler_response_refused tr msg code H). cbn [status plain_error].
  rewrite Hb, orb_false_r.
  destruct (String.eqb (Method r) "HEAD"); [|reflexivity].
  unfold plain_error. f_equal.
Qed.

Lemma plain_text_refused (tr : list Event) (msg : string) (code : nat) :
  refused_with tr msg code -> plain_text tr = [msg +:+ newline].
Proof.
  intros (pre & post & -> & Hpre & Hpost).
  rewrite !plain_text_app, (plain_text_silent pre Hpre),
    (plain_text_silent post Hpost).
  reflexivity.
Qed.

Lemma refused_with_report (pre : list Event) (e : Failure) (code : nat) :
  forallb is_silent pre = true ->
  http_code e = Some code ->
  refused_with (pre ++ report e) (StatusText code) code.
Proof.
  intros Hpre He. exists (pre ++ [EvLog e]), [EvNotify e].
  split; [|split; [|reflexivity]].
  - unfold report, aftermath. rewrite He, <- !app_assoc. reflexivity.
  - now rewrite forallb_app, Hpre.
Qed.

(** A GET or a HEAD is refused through [http.Error], with 404, 422 or 500,
    or its manifest is found and passes the checks. *)
Lemma bundle_refused_or_passes (W : World) (r : Request) :
  (Method r = "GET" \/ Method r = "HEAD") ->
  (exists msg code,
     refused_with (bundle W r) msg code
     /\ (code = StatusNotFound \/ code = StatusUnprocessableEntity
         \/ code = StatusInternalServerError))
  \/ exists m,
       resolves W r m
       /\ Forall (reachable W) (Layers m)
       /\ Forall (fun i => allowRegistry (net W) i = true) (Images m).
Proof.
  intros Hm.
  assert (fail : forall pre e,
             forallb is_silent pre = true ->
             http_code e = Some StatusInternalServerError ->
             exists msg code,
               refused_with (pre ++ report e) msg code
               /\ (code = StatusNotFound \/ code = StatusUnprocessableEntity
                   \/ code = StatusInternalServerError)).
  { intros pre e Hpre He.
    exists (StatusText StatusInternalServerError), StatusInternalServerError.
    split; [now apply refused_with_report|]. now right; right. }
  assert (Hcases : (exists m, resolves W r m)
                   \/ exists msg code,
                        refused_with (bundle W r) msg code
                        /\ (code = StatusNotFound
                            \/ code = StatusUnprocessableEntity
                            \/ code = StatusInternalServerError)).
  { unfold bundle, bundle_body.
    assert (String.eqb (Method r) "OPTIONS" = false) as ->
      by (destruct Hm as [-> | ->]; reflexivity).
    assert (negb (String.eqb (Method r) "GET")
            && negb (String.eqb (Method r) "HEAD") = false) as ->
      by (destruct Hm as [-> | ->]; reflexivity).
    rewrite bind_emit, bind_must by reflexivity.
    destruct (http_NewRequest W (installerURL_of r)) eqn:Hreq;
      [|right; now apply (fail [EvPrintf (Method r) (Path r)])].
    rewrite bind_emit.
    destruct (client_Do W (installerURL_of r)) as [|code|code body] eqn:Hdo;
      try (right; rewrite handleHttpError_leave by reflexivity;
           now apply (fail (lookup_events r))).
    destruct (Nat.eqb_spec code StatusNotFound) as [Hcode|Hcode].
    { right. exists body, StatusNotFound. split; [|now left].
      now exists (lookup_events r), []. }
    destruct (json_Unmarshal W body) as [m|] eqn:Hjson;
      [|right; rewrite handleHttpError_leave by reflexivity;
        now apply (fail (lookup_events r))].
    left. exists m. split; [exact Hm|]. split; [exact Hreq|].
    now exists code, body. }
  destruct Hcases as [[m Hres]|H]; [|now left].
  destruct (reachable_or_not W (Layers m)) as [Hall|Hex].
  2:{ left. destruct (bundle_unreachable W r m Hres Hex)
        as (l1 & u & l2 & cause & _ & _ & _ & ->).
      rewrite app_assoc. apply fail; [|reflexivity].
      apply lookup_and_probes_silent. }
  destruct (allowed_or_denied W (Images m)) as [Hok|Hbad].
  2:{ left. destruct (bundle_denied W r m Hres Hall Hbad)
        as (image & _ & _ & ->).
      rewrite app_assoc.
      exists (StatusText StatusUnprocessableEntity), StatusUnprocessableEntity.
      split; [|now right; left].
      apply refused_with_report; [apply lookup_and_probes_silent|reflexivity]. }
  right. now exists m.
Qed.

Lemma head_passes_response (r : Request) (layers : list string) :
  Method r = "HEAD" ->
  response r (lookup_events r ++ map EvHead layers ++ success_headers)
  = head_success_response.
Proof.
  intros Hm. rewrite (response_of_head r _ Hm).
  unfold handler_response, committed. now rewrite writer_after_checks.
Qed.




(** ** Answers before the streaming *)

(** C5 (as amended). When the upstream lookup answers 404, the handler
    answers 404 with the upstream body followed by a newline, as
    [http.Error] writes it; it logs and reports no error and does no
    streaming work. *)
Theorem upstream_404_passes_through (W : World) (r : Request) (body : string) :
  (Method r = "GET" \/ Method r = "HEAD") ->
  http_NewRequest W (installerURL_of r) = true ->
  client_Do W (installerURL_of r) = Upstream StatusNotFound body ->
  status (response r (bundle W r)) = StatusNotFound
  /\ plain_text (bundle W r) = [body +:+ newline]
  /\ List.filter is_report (bundle W r) = []
  /\ no_streaming_work (bundle W r).
Proof.
  intros Hm Hreq Hdo.
  assert (E : bundle W r
              = lookup_events r ++ http_Error_events body StatusNotFound).
  { unfold bundle, bundle_body.
    assert (String.eqb (Method r) "OPTIONS" = false) as ->
      by (destruct Hm as [-> | ->]; reflexivity).
    assert (negb (String.eqb (Method r) "GET")
            && negb (String.eqb (Method r) "HEAD") = false) as ->
      by (destruct Hm as [-> | ->]; reflexivity).
    rewrite bind_emit, bind_must by reflexivity.
    rewrite Hreq, bind_emit, Hdo. reflexivity. }
  rewrite E. split; [now rewrite status_response|]. repeat split.
Qed.

Lemma upstream_404_passes_through_witness :
  status (response (sample_request "GET")
            (bundle (sample_world (Upstream 404 "installer not found")
                       empty_manifest all_up pull_ok map_to_list)
                    (sample_request "GET"))) = 404
  /\ plain_text (bundle (sample_world (Upstream 404 "installer not found")
                           empty_manifest all_up pull_ok map_to_list)
                        (sample_request "GET"))
     = ["installer not found" +:+ newline].
Proof.
  pose proof (upstream_404_passes_through
                (sample_world (Upstream 404 "installer not found")
                   empty_manifest all_up pull_ok map_to_list)
                (sample_request "GET") "installer not found"
                (or_introl eq_refl) eq_refl eq_refl) as (H1 & H2 & _).
  split; [exact H1|exact H2].
Defined.

(** C5, as stated, fails: the body the client gets is not the upstream body,
    it has one more byte. *)
Lemma upstream_404_body_not_identical :
  plain_text (bundle (sample_world (Upstream 404 "installer not found")
                        empty_manifest all_up pull_ok map_to_list)
                     (sample_request "GET"))
  <> ["installer not found"].
Proof. vm_compute. discriminate. Qed.

(** C6. With the manifest in hand, the handler probes the layers in order
    with HEAD requests, each of which must answer 200.  When all do, every
    layer has been probed; when one does not (any other status, or a
    transport error), the handler has probed the layers up to that one,
    answers 500 with nothing sent before, and does no streaming work. *)
Theorem failed_probe_answers_500 (W : World) (r : Request) (m : BundleManifest) :
  resolves W r m ->
  (Forall (reachable W) (Layers m) ->
   List.filter is_probe (bundle W r) = map EvHead (Layers m))
  /\ (Exists (fun u => ~ reachable W u) (Layers m) ->
      status (response r (bundle W r)) = StatusInternalServerError
      /\ no_streaming_work (bundle W r)
      /\ plain_text (bundle W r) = ["Internal Server Error" +:+ newline]
      /\ exists probed dead rest e,
           Layers m = probed ++ dead :: rest
           /\ ~ reachable W dead
           /\ List.filter is_probe (bundle W r) = map EvHead (probed ++ [dead])
           /\ bundle W r
              = lookup_events r ++ map EvHead (probed ++ [dead]) ++ report e
           /\ committed (lookup_events r ++ map EvHead (probed ++ [dead]))
              = None).
Proof.
  intros Hres. split.
  - intros Hall.
    destruct (allowed_or_denied W (Images m)) as [Hok|Hbad].
    + destruct (proj1 Hres) as [Hget|Hhead].
      * destruct (bundle_get_streams W r m Hres Hget Hall Hok)
          as (w & fin & Hw & Hfin & [E|(e & _ & E)]); rewrite E;
          rewrite <- !app_assoc, filter_probe_lookup;
          rewrite !List.filter_app, ?report_not_probe,
            (work_not_probe w Hw),
            (cleanup_not_probe fin (finalization_cleanup _ _ Hfin));
          change (List.filter is_probe success_headers) with (@nil Event);
          now rewrite ?app_nil_r.
      * rewrite (bundle_head_passes W r m Hres Hhead Hall Hok).
        rewrite filter_probe_lookup. simpl. apply app_nil_r.
    + destruct (bundle_denied W r m Hres Hall Hbad) as (image & _ & _ & E).
      rewrite E, filter_probe_lookup, filter_probe_report. apply app_nil_r.
  - intros Hex.
    destruct (bundle_unreachable W r m Hres Hex)
      as (l1 & u & l2 & cause & E1 & E2 & E3 & E).
    pose proof (response_of_report
                  (lookup_events r ++ map EvHead (l1 ++ [u]))
                  (ErrHead u (installerID_of r) cause) _ []
                  (lookup_and_probes_silent r _) eq_refl) as [Hst Hno].
    rewrite app_nil_r, <- app_assoc in Hst.
    rewrite E. repeat split.
    + rewrite status_response. exact Hst.
    + apply preflight_no_streaming_work, lookup_and_probes_preflight.
    + apply preflight_no_streaming_work, lookup_and_probes_preflight.
    + apply preflight_no_streaming_work, lookup_and_probes_preflight.
    + rewrite app_assoc, plain_text_app.
      rewrite plain_text_silent by apply lookup_and_probes_silent.
      reflexivity.
    + exists l1, u, l2, (ErrHead u (installerID_of r) cause).
      repeat split; try assumption.
      rewrite filter_probe_lookup, filter_probe_report. apply app_nil_r.
Qed.


Lemma sample_resolves (m : BundleManifest) head pull range (method : string) :
  method = "GET" \/ method = "HEAD" ->
  resolves (sample_world found m head pull range) (sample_request method) m.
Proof.
  intros Hm. split; [exact Hm|]. split; [reflexivity|].
  exists 200, "(manifest)". repeat split. discriminate.
Qed.

Lemma failed_probe_answers_500_witness :
  status (response (sample_request "GET")
            (bundle dead_layer_world (sample_request "GET")))
  = StatusInternalServerError
  /\ no_streaming_work (bundle dead_layer_world (sample_request "GET")).
Proof.
  destruct (failed_probe_answers_500 dead_layer_world (sample_request "GET")
              evil_manifest
              (sample_resolves evil_manifest _ _ _ "GET" (or_introl eq_refl)))
    as [_ H].
  destruct H as (H1 & H2 & _).
  - apply Exists_cons_hd. unfold reachable. simpl. discriminate.
  - split; [exact H1|exact H2].
Defined.

(** C1 (as amended). When the manifest has an image that the allowlist
    denies, the handler pulls no image, fetches no layer and writes nothing
    into the archive; it answers 422 when every layer has passed its probe
    (a layer that fails its probe is answered first, with 500). *)
Theorem denied_image_answers_422 (W : World) (r : Request) (m : BundleManifest) :
  resolves W r m ->
  Exists (denied W) (Images m) ->
  no_streaming_work (bundle W r)
  /\ (Exists (fun u => ~ reachable W u) (Layers m) ->
      status (response r (bundle W r)) = StatusInternalServerError)
  /\ (Forall (reachable W) (Layers m) ->
      status (response r (bundle W r)) = StatusUnprocessableEntity
      /\ plain_text (bundle W r) = ["Unprocessable Entity" +:+ newline]).
Proof.
  intros Hres Hbad. split; [|split].
  - destruct (reachable_or_not W (Layers m)) as [Hall|Hex].
    + destruct (bundle_denied W r m Hres Hall Hbad) as (image & _ & _ & ->).
      apply preflight_no_streaming_work, lookup_and_probes_preflight.
    + destruct (bundle_unreachable W r m Hres Hex)
        as (l1 & u & l2 & cause & _ & _ & _ & ->).
      apply preflight_no_streaming_work, lookup_and_probes_preflight.
  - intros Hex.
    destruct (bundle_unreachable W r m Hres Hex)
      as (l1 & u & l2 & cause & _ & _ & _ & ->).
    pose proof (response_of_report
                  (lookup_events r ++ map EvHead (l1 ++ [u]))
                  (ErrHead u (installerID_of r) cause) _ []
                  (lookup_and_probes_silent r _) eq_refl) as [Hst _].
    rewrite status_response.
    now rewrite app_nil_r, <- app_assoc in Hst.
  - intros Hall.
    destruct (bundle_denied W r m Hres Hall Hbad) as (image & _ & _ & ->).
    pose proof (response_of_report
                  (lookup_events r ++ map EvHead (Layers m))
                  (ErrUnsupportedRegistry image) _ []
                  (lookup_and_probes_silent r _) eq_refl) as [Hst _].
    rewrite app_nil_r, <- app_assoc in Hst.
    split; [now rewrite status_response|].
    rewrite app_assoc, plain_text_app.
    rewrite plain_text_silent by apply lookup_and_probes_silent.
    reflexivity.
Qed.

Lemma denied_image_answers_422_witness :
  no_streaming_work (bundle evil_image_world (sample_request "GET"))
  /\ status (response (sample_request "GET")
               (bundle evil_image_world (sample_request "GET")))
     = StatusUnprocessableEntity.
Proof.
  destruct (denied_image_answers_422 evil_image_world (sample_request "GET")
              evil_manifest
              (sample_resolves evil_manifest _ _ _ "GET" (or_introl eq_refl)))
    as (H1 & _ & H2).
  - apply Exists_cons_hd. reflexivity.
  - split; [exact H1|]. apply H2.
    repeat constructor.
Defined.

(** C1, as stated, fails: a manifest with a denied image and a layer that is
    gone is answered with 500. *)
Lemma denied_image_with_dead_layer :
  resolves dead_layer_world (sample_request "GET") evil_manifest
  /\ Exists (denied dead_layer_world) (Images evil_manifest)
  /\ status (response (sample_request "GET")
               (bundle dead_layer_world (sample_request "GET")))
     = StatusInternalServerError
  /\ status (response (sample_request "GET")
               (bundle dead_layer_world (sample_request "GET")))
     <> StatusUnprocessableEntity.
Proof.
  split; [apply sample_resolves; now left|].
  split; [apply Exists_cons_hd; reflexivity|].
  split; [reflexivity|]. vm_compute. discriminate.
Qed.

(** C7 (as amended). For a HEAD request the handler pulls no image, fetches
    no layer and writes nothing into the archive.  It writes to the response
    only when it refuses the request, and then the one line of [http.Error]
    (which the server does not send in answer to a HEAD); a HEAD that is
    answered 200 was written nothing.  The handler does look the manifest up
    and probe the layers; when the layers pass, it checks the images: a
    denied image is answered with 422, and when all are allowed the answer
    is 200 under the headers of a GET that answers 200 less
    [Transfer-Encoding], which that GET carries and the answer to a HEAD
    does not. *)
Theorem head_runs_checks_only (W : World) (r : Request) :
  Method r = "HEAD" ->
  no_streaming_work (bundle W r)
  /\ ((status (response r (bundle W r)) = StatusOK
       /\ List.filter
            (fun e => match e with
                      | EvWrite _ => true
                      | _ => is_archive_write e
                      end) (bundle W r) = [])
      \/ (status (response r (bundle W r)) <> StatusOK
          /\ exists msg, plain_text (bundle W r) = [msg +:+ newline]))
  /\ forall m,
       resolves W r m ->
       In (EvDo (installerURL_of r)) (bundle W r)
       /\ (Forall (reachable W) (Layers m) ->
           List.filter is_probe (bundle W r) = map EvHead (Layers m)
           /\ (Exists (denied W) (Images m) ->
               status (response r (bundle W r)) = StatusUnprocessableEntity)
           /\ (Forall (fun i => allowRegistry (net W) i = true) (Images m) ->
               response r (bundle W r) = head_success_response
               /\ plain_text (bundle W r) = []
               /\ forall r',
                    Method r' = "GET" ->
                    resolves W r' m ->
                    status (response r' (bundle W r')) = StatusOK ->
                    headers (response r (bundle W r))
                    = delete "Transfer-Encoding"
                        (headers (response r' (bundle W r')))
                    /\ headers (response r' (bundle W r'))
                         !! "Transfer-Encoding" = Some "chunked"
                    /\ headers (response r (bundle W r))
                         !! "Transfer-Encoding" = None)).
Proof.
  intros Hm. split; [|split].
  - destruct (bundle_early_or_streams W r) as [H|(m & _ & Hget & _)].
    + apply preflight_no_streaming_work, early_preflight, H.
    + rewrite Hm in Hget. discriminate.
  - destruct (bundle_refused_or_passes W r (or_intror Hm))
      as [(msg & code & H & Hcode)|(m & Hres & Hall & Hok)].
    + right. split; [|exists msg; now apply (plain_text_refused _ _ code)].
      rewrite status_response, (handler_response_refused _ msg code H).
      destruct Hcode as [-> |[-> | ->]]; discriminate.
    + left. rewrite (bundle_head_passes W r m Hres Hm Hall Hok).
      split; [now rewrite (head_passes_response r _ Hm)|].
      rewrite app_assoc, List.filter_app.
      rewrite (filter_none _ is_silent
                 (lookup_events r ++ map EvHead (Layers m)));
        [reflexivity| |apply lookup_and_probes_silent].
      intros [] Hx; try discriminate; reflexivity.
  - intros m Hres. split.
    + destruct (reachable_or_not W (Layers m)) as [Hall|Hex].
      * destruct (allowed_or_denied W (Images m)) as [Hok|Hbad].
        -- rewrite (bundle_head_passes W r m Hres Hm Hall Hok).
           right. now left.
        -- destruct (bundle_denied W r m Hres Hall Hbad)
             as (image & _ & _ & ->).
           right. now left.
      * destruct (bundle_unreachable W r m Hres Hex)
          as (l1 & u & l2 & cause & _ & _ & _ & ->).
        right. now left.
    + intros Hall. split; [|split].
      * destruct (allowed_or_denied W (Images m)) as [Hok|Hbad].
        -- rewrite (bundle_head_passes W r m Hres Hm Hall Hok).
           rewrite filter_probe_lookup. simpl. apply app_nil_r.
        -- destruct (bundle_denied W r m Hres Hall Hbad)
             as (image & _ & _ & ->).
           rewrite filter_probe_lookup, filter_probe_report. apply app_nil_r.
      * intros Hbad.
        destruct (bundle_denied W r m Hres Hall Hbad) as (image & _ & _ & ->).
        pose proof (response_of_report
                      (lookup_events r ++ map EvHead (Layers m))
                      (ErrUnsupportedRegistry image) _ []
                      (lookup_and_probes_silent r _) eq_refl) as [Hst _].
        rewrite status_response.
        now rewrite app_nil_r, <- app_assoc in Hst.
      * intros Hok.
        rewrite (bundle_head_passes W r m Hres Hm Hall Hok).
        rewrite (head_passes_response r _ Hm).
        split; [reflexivity|]. split.
        -- rewrite app_assoc, plain_text_app.
           rewrite plain_text_silent by apply lookup_and_probes_silent.
           reflexivity.
        -- intros r' Hget Hres' Hst.
           assert (Hr : response r' (bundle W r') = success_response).
           { rewrite status_response in Hst.
             apply (response_of_get r' _ _ Hget); [|reflexivity].
             destruct (bundle_get_streams W r' m Hres' Hget Hall Hok)
               as (w & fin & Hw & Hfin & [E|(e & He & E)]).
             - rewrite E.
               exact (response_streamed _ w fin _
                        (writer_after_checks r' (Layers m)) Hw Hfin).
             - rewrite E in Hst |- *.
               destruct (response_cut_short _ w fin e _
                           (writer_after_checks r' (Layers m)) Hw He Hfin)
                 as [H | (_ & _ & H500)]; [exact H|].
               rewrite H500 in Hst. discriminate. }
           rewrite Hr. split; [reflexivity|]. split; [reflexivity|].
           apply lookup_delete_eq.
Qed.

Lemma head_runs_checks_only_witness :
  no_streaming_work (bundle evil_image_world (sample_request "HEAD"))
  /\ status (response (sample_request "HEAD")
               (bundle evil_image_world (sample_request "HEAD")))
     = StatusUnprocessableEntity.
Proof.
  destruct (head_runs_checks_only evil_image_world (sample_request "HEAD")
              eq_refl) as (H1 & _ & H3).
  split; [exact H1|].
  destruct (H3 evil_manifest
              (sample_resolves evil_manifest _ _ _ "HEAD" (or_intror eq_refl)))
    as (_ & H4).
  destruct H4 as (_ & H5 & _); [repeat constructor|].
  apply H5. apply Exists_cons_hd. reflexivity.
Defined.

(** C7, as stated, fails: a HEAD for a manifest with a denied image is
    answered with 500 when a layer of the manifest is gone. *)
Lemma head_with_dead_layer :
  resolves dead_layer_world (sample_request "HEAD") evil_manifest
  /\ Exists (denied dead_layer_world) (Images evil_manifest)
  /\ status (response (sample_request "HEAD")
               (bundle dead_layer_world (sample_request "HEAD")))
     = StatusInternalServerError
  /\ status (response (sample_request "HEAD")
               (bundle dead_layer_world (sample_request "HEAD")))
     <> StatusUnprocessableEntity.
Proof.
  split; [apply sample_resolves; now right|].
  split; [apply Exists_cons_hd; reflexivity|].
  split; [reflexivity|]. vm_compute. discriminate.
Qed.

(** C7, as stated, fails a second time: the answer to a passing HEAD does
    not have the headers of the GET, which carries [Transfer-Encoding]. *)
Lemma passing_head_lacks_transfer_encoding :
  status (response (sample_request "HEAD")
            (bundle calm_world (sample_request "HEAD"))) = StatusOK
  /\ status (response (sample_request "GET")
               (bundle calm_world (sample_request "GET"))) = StatusOK
  /\ headers (response (sample_request "GET")
                (bundle calm_world (sample_request "GET")))
       !! "Transfer-Encoding" = Some "chunked"
  /\ headers (response (sample_request "HEAD")
                (bundle calm_world (sample_request "HEAD")))
       !! "Transfer-Encoding" = None.
Proof. repeat split; vm_compute; reflexivity. Qed.

(** ** Errors after the response has started *)




(** ** The archive of a request that streams to the end *)

Lemma sample_healthy range :
  healthy (sample_world found full_manifest all_up pull_ok range)
          full_manifest sample_pulled sample_src.
Proof.
  constructor.
  - repeat constructor.
  - repeat constructor.
  - intros s. reflexivity.
  - intros n. eexists. reflexivity.
  - split; reflexivity.
  - intros dest image _. reflexivity.
  - intros p. split; reflexivity.
  - intros n. reflexivity.
  - intros u _. split; [reflexivity|]. split; [reflexivity|].
    repeat constructor.
Qed.

Lemma calm_range : range_visits_all calm_world.
Proof. intros m. reflexivity. Qed.

Lemma reversed_range : range_visits_all calm_world_reversed.
Proof. intros m. simpl. symmetry. apply Permutation_rev. Qed.

Example calm_archive :
  map untimed (archive (bundle calm_world (sample_request "GET")))
  = entry_events "kurl/image-overrides/0.tar"
                 "archive of docker.io/library/nginx:1.21"
    ++ entry_events "kurl/image-overrides/1.tar" "archive of ttl.sh/app:1h"
    ++ [EvTarHeader {| Name := "kurl/foo/bar.txt"; Size := 2; Mode := 420;
                       ModTime := 0 |};
        EvTarWrite "hi" true;
        EvTarHeader {| Name := "x"; Size := 3; Mode := 420; ModTime := 0 |};
        EvTarWrite "out" true]
    ++ file_entries (map_to_list (Files full_manifest))
    ++ [EvTarClose true; EvGzipClose true].
Proof. vm_compute. reflexivity. Qed.

(** C3 (as amended). When a GET streams to the end, the archive holds, in
    this order: one entry for each image, in the order of [images] and named
    by the position of the image; the entries of each layer, in the order of
    [layers] and in the order they have in the layer, each renamed by
    joining its path to the prefix directory as [filepath.Join] does; one
    entry for each file of the manifest; the archive is then closed, and the
    compression stream. *)
Theorem archive_entry_order (W : World) (r : Request) (m : BundleManifest)
  (pulled : string -> string) (src : string -> LayerStream) :
  healthy W m pulled src ->
  range_visits_all W ->
  resolves W r m ->
  Method r = "GET" ->
  exists files a g,
    files ≡ₚ map_to_list (Files m)
    /\ map untimed (archive (bundle W r))
       = image_entries pulled 0 (Images m)
         ++ layer_entries src (Layers m)
         ++ file_entries files
         ++ [EvTarClose a; EvGzipClose g].
Proof.
  intros Hw Hrange Hres Hget.
  destruct (archive_of_healthy_get W r m pulled src Hw Hres Hget)
    as (a & g & E).
  exists (map_range W (Files m)), a, g. split; [apply Hrange|exact E].
Qed.

Lemma archive_entry_order_witness :
  exists files a g,
    files ≡ₚ map_to_list (Files full_manifest)
    /\ map untimed (archive (bundle calm_world (sample_request "GET")))
       = image_entries sample_pulled 0 (Images full_manifest)
         ++ layer_entries sample_src (Layers full_manifest)
         ++ file_entries files
         ++ [EvTarClose a; EvGzipClose g].
Proof.
  apply (archive_entry_order calm_world (sample_request "GET") full_manifest
           sample_pulled sample_src).
  - apply sample_healthy.
  - exact calm_range.
  - apply sample_resolves. now left.
  - reflexivity.
Defined.

(** C3, as stated, fails: in a GET that streams to the end, the entry [../x]
    of a layer of the manifest is in the archive as [x], which is not under
    the prefix directory. *)
Lemma layer_entry_outside_prefix :
  In "http://s3/layer.tar.gz" (Layers full_manifest)
  /\ http_Get calm_world "http://s3/layer.tar.gz"
     = Got StatusOK (Some sample_layer)
  /\ In (sample_entry "../x" "out") (entries sample_layer)
  /\ In (EvTarHeader {| Name := "x"; Size := 3; Mode := 420; ModTime := 7 |})
        (archive (bundle calm_world (sample_request "GET")))
  /\ String.prefix "kurl/" "x" = false.
Proof.
  split; [now left|]. split; [reflexivity|].
  split; [right; now left|]. split; [|reflexivity].
  vm_compute. do 6 right. now left.
Qed.

(** C4 (as amended). Two runs of the same GET against the same manifest and
    the same remote sources, each streaming to the end, write the same image
    entries and the same layer entries in the same order, and the same file
    entries, times left out; the file entries come in the order in which
    each run visits the map of files, which need not be the same. *)
Theorem same_archive_up_to_file_order (W1 W2 : World) (r : Request)
  (m : BundleManifest) (pulled : string -> string)
  (src : string -> LayerStream) :
  healthy W1 m pulled src ->
  healthy W2 m pulled src ->
  range_visits_all W1 ->
  range_visits_all W2 ->
  resolves W1 r m ->
  resolves W2 r m ->
  Method r = "GET" ->
  exists common a1 g1 a2 g2,
    map_range W1 (Files m) ≡ₚ map_range W2 (Files m)
    /\ map untimed (archive (bundle W1 r))
       = common ++ file_entries (map_range W1 (Files m))
         ++ [EvTarClose a1; EvGzipClose g1]
    /\ map untimed (archive (bundle W2 r))
       = common ++ file_entries (map_range W2 (Files m))
         ++ [EvTarClose a2; EvGzipClose g2]
    /\ common = image_entries pulled 0 (Images m)
                ++ layer_entries src (Layers m).
Proof.
  intros H1 H2 R1 R2 Res1 Res2 Hget.
  destruct (archive_of_healthy_get W1 r m pulled src H1 Res1 Hget)
    as (a1 & g1 & E1).
  destruct (archive_of_healthy_get W2 r m pulled src H2 Res2 Hget)
    as (a2 & g2 & E2).
  exists (image_entries pulled 0 (Images m) ++ layer_entries src (Layers m)),
         a1, g1, a2, g2.
  split; [now rewrite (R1 (Files m)), (R2 (Files m))|].
  rewrite E1, E2, <- !app_assoc. now repeat split.
Qed.

Lemma same_archive_up_to_file_order_witness :
  exists common a1 g1 a2 g2,
    map_range calm_world (Files full_manifest)
    ≡ₚ map_range calm_world_reversed (Files full_manifest)
    /\ map untimed (archive (bundle calm_world (sample_request "GET")))
       = common ++ file_entries (map_range calm_world (Files full_manifest))
         ++ [EvTarClose a1; EvGzipClose g1]
    /\ map untimed (archive (bundle calm_world_reversed (sample_request "GET")))
       = common
         ++ file_entries (map_range calm_world_reversed (Files full_manifest))
         ++ [EvTarClose a2; EvGzipClose g2]
    /\ common = image_entries sample_pulled 0 (Images full_manifest)
                ++ layer_entries sample_src (Layers full_manifest).
Proof.
  apply (same_archive_up_to_file_order calm_world calm_world_reversed
           (sample_request "GET") full_manifest sample_pulled sample_src).
  - apply sample_healthy.
  - apply sample_healthy.
  - exact calm_range.
  - exact reversed_range.
  - apply sample_resolves. now left.
  - apply sample_resolves. now left.
  - reflexivity.
Defined.

(** C4, as stated, fails: the same GET, against the same manifest and the
    same remote sources, gives two archives that differ when the two runs
    visit the map of files in different orders. *)
Lemma file_order_differs :
  map untimed (archive (bundle calm_world (sample_request "GET")))
  <> map untimed (archive (bundle calm_world_reversed (sample_request "GET"))).
Proof. vm_compute. discriminate. Qed.

(** * Further properties of the handler *)

(** ** Methods *)

(** X1. An OPTIONS request is answered 204 with the four CORS headers and no
    body, whatever the world: the handler does not look the manifest up,
    logs nothing and reports nothing. *)
Theorem options_answers_204 (W : World) (r : Request) :
  Method r = "OPTIONS" ->
  status (response r (bundle W r)) = StatusNoContent
  /\ headers (response r (bundle W r))
     = {[ "Access-Control-Allow-Origin" := "*";
          "Access-Control-Allow-Methods" := "GET";
          "Access-Control-Allow-Headers"
            := "Access-Control-Allow-Origin, Content-Type";
          "Access-Control-Max-Age" := "86400" ]}
  /\ plain_text (bundle W r) = []
  /\ List.filter (fun e => match e with
                           | EvHeaderSet _ _ | EvWriteHeader _ => false
                           | _ => true
                           end) (bundle W r) = [].
Proof.
  intros Hm. unfold response, bundle, bundle_body. rewrite Hm.
  repeat split.
Qed.

Lemma options_answers_204_witness :
  status (response (sample_request "OPTIONS")
            (bundle upstream_down_world (sample_request "OPTIONS")))
  = StatusNoContent.
Proof.
  apply (options_answers_204 upstream_down_world (sample_request "OPTIONS")).
  reflexivity.
Defined.

(** X2. A request whose method is none of OPTIONS, GET and HEAD is answered
    405 with the line [Method Not Allowed]; the handler does nothing else. *)
Theorem other_method_answers_405 (W : World) (r : Request) :
  Method r <> "OPTIONS" -> Method r <> "GET" -> Method r <> "HEAD" ->
  bundle W r = http_Error_events "Method Not Allowed" StatusMethodNotAllowed
  /\ status (response r (bundle W r)) = StatusMethodNotAllowed
  /\ plain_text (bundle W r) = ["Method Not Allowed" +:+ newline].
Proof.
  intros Ho Hg Hh.
  assert (E : bundle W r
              = http_Error_events "Method Not Allowed" StatusMethodNotAllowed).
  { unfold bundle, bundle_body.
    destruct (String.eqb_spec (Method r) "OPTIONS"); [contradiction|].
    destruct (String.eqb_spec (Method r) "GET"); [contradiction|].
    destruct (String.eqb_spec (Method r) "HEAD"); [contradiction|].
    reflexivity. }
  rewrite E. split; [reflexivity|]. split; [|reflexivity].
  now rewrite status_response.
Qed.

Lemma other_method_answers_405_witness :
  status (response (sample_request "POST")
            (bundle calm_world (sample_request "POST")))
  = StatusMethodNotAllowed.
Proof.
  apply (other_method_answers_405 calm_world (sample_request "POST"));
    discriminate.
Defined.

(** ** Lists of events *)

Lemma logs_app (a b : list Event) : logs (a ++ b) = logs a ++ logs b.
Proof. apply omap_app. Qed.

Lemma notifies_app (a b : list Event) :
  notifies (a ++ b) = notifies a ++ notifies b.
Proof. apply omap_app. Qed.

Lemma logs_report (e : Failure) : logs (report e) = [e].
Proof. unfold report, aftermath. destruct (http_code e); reflexivity. Qed.

Lemma notifies_report (e : Failure) : notifies (report e) = [e].
Proof. unfold report, aftermath. destruct (http_code e); reflexivity. Qed.

Lemma omap_none {A B} (f : A -> option B) (p : A -> bool) (l : list A) :
  (forall x, p x = true -> f x = None) ->
  forallb p l = true -> omap f l = [].
Proof.
  intros Hp. induction l as [|x l IH]; [reflexivity|]. simpl.
  intros H. apply andb_true_iff in H as [Hx Hl].
  rewrite (Hp x Hx). now apply IH.
Qed.

Lemma forallb_weaken {A} (p q : A -> bool) (l : list A) :
  (forall x, p x = true -> q x = true) ->
  forallb p l = true -> forallb q l = true.
Proof.
  intros Hpq. induction l as [|x l IH]; [reflexivity|]. simpl.
  intros H. apply andb_true_iff in H as [Hx Hl].
  now rewrite (Hpq x Hx), IH.
Qed.

Lemma logs_quiet (l : list Event) :
  forallb (fun e => negb (is_report e)) l = true ->
  logs l = [] /\ notifies l = [].
Proof.
  intros H. split; apply (omap_none _ (fun e => negb (is_report e))); auto;
    intros [] Hx; try discriminate; reflexivity.
Qed.

Lemma lookup_quiet (q : list Event) :
  forallb is_lookup q = true ->
  forallb (fun e => negb (is_report e)) q = true.
Proof. apply forallb_weaken. intros [] H; try discriminate; reflexivity. Qed.

Lemma lookup_silent (q : list Event) :
  forallb is_lookup q = true -> forallb is_silent q = true.
Proof. apply forallb_weaken. intros [] H; try discriminate; reflexivity. Qed.

Lemma lookup_preflight (q : list Event) :
  forallb is_lookup q = true -> forallb is_preflight q = true.
Proof. apply forallb_weaken. intros [] H; try discriminate; reflexivity. Qed.

(** ** The manifest lookup *)

Lemma bundle_lookup_fails (W : World) (r : Request) :
  (Method r = "GET" \/ Method r = "HEAD") ->
  lookup_fails W r ->
  exists q e,
    bundle W r = q ++ report e
    /\ forallb is_lookup q = true
    /\ List.filter is_probe q = []
    /\ lookup_failure e = true.
Proof.
  intros Hm Hf. unfold bundle, bundle_body.
  assert (String.eqb (Method r) "OPTIONS" = false) as ->
    by (destruct Hm as [-> | ->]; reflexivity).
  assert (negb (String.eqb (Method r) "GET")
          && negb (String.eqb (Method r) "HEAD") = false) as ->
    by (destruct Hm as [-> | ->]; reflexivity).
  rewrite bind_emit, bind_must by reflexivity.
  destruct Hf as [-> | (-> & Hf)].
  { exists [EvPrintf (Method r) (Path r)],
           (ErrBuildRequest (installerURL_of r)). now repeat split. }
  rewrite bind_emit.
  destruct Hf as [-> | [(code & ->) | (code & body & -> & Hc & Hj)]].
  - rewrite handleHttpError_leave by reflexivity.
    exists (lookup_events r), (ErrFetch (installerURL_of r)).
    now repeat split.
  - rewrite handleHttpError_leave by reflexivity.
    exists (lookup_events r), (ErrReadBody (installerURL_of r)).
    now repeat split.
  - destruct (Nat.eqb_spec code StatusNotFound); [contradiction|].
    rewrite Hj, handleHttpError_leave by reflexivity.
    exists (lookup_events r), (ErrUnmarshal (installerURL_of r) body).
    now repeat split.
Qed.

(** X3. When the manifest lookup of a GET or a HEAD ends in an error, the
    handler answers 500 with the line [Internal Server Error] and nothing
    of the error; it logs and reports that one error, probes no layer and
    does no streaming work. *)
Theorem lookup_failure_answers_500 (W : World) (r : Request) :
  (Method r = "GET" \/ Method r = "HEAD") ->
  lookup_fails W r ->
  status (response r (bundle W r)) = StatusInternalServerError
  /\ plain_text (bundle W r) = ["Internal Server Error" +:+ newline]
  /\ (exists e, lookup_failure e = true
                /\ logs (bundle W r) = [e] /\ notifies (bundle W r) = [e])
  /\ List.filter is_probe (bundle W r) = []
  /\ no_streaming_work (bundle W r).
Proof.
  intros Hm Hf.
  destruct (bundle_lookup_fails W r Hm Hf) as (q & e & E & Hq & Hp & He).
  assert (Hc : http_code e = Some StatusInternalServerError)
    by (destruct e; try discriminate; reflexivity).
  pose proof (response_of_report q e _ [] (lookup_silent q Hq) Hc) as [Hst _].
  rewrite app_nil_r in Hst. rewrite E.
  split; [now rewrite status_response|]. split; [|split; [|split]].
  - rewrite plain_text_app, (plain_text_silent q (lookup_silent q Hq)).
    unfold report, aftermath. rewrite Hc. reflexivity.
  - exists e. split; [exact He|].
    rewrite logs_app, notifies_app, logs_report, notifies_report.
    destruct (logs_quiet q (lookup_quiet q Hq)) as [-> ->]. now split.
  - rewrite List.filter_app, Hp, filter_probe_report. reflexivity.
  - apply preflight_no_streaming_work. rewrite forallb_app.
    now rewrite (lookup_preflight q Hq), report_preflight.
Qed.

Lemma lookup_failure_answers_500_witness :
  status (response (sample_request "GET")
            (bundle upstream_down_world (sample_request "GET")))
  = StatusInternalServerError.
Proof.
  apply (lookup_failure_answers_500 upstream_down_world (sample_request "GET")).
  - now left.
  - right. split; [reflexivity|]. now left.
Defined.

(** X4. The handler looks at the status of the upstream answer only to tell
    404 from the rest: with any other status, a 500 as well, a body that
    decodes to a manifest with no layers, images and files makes a GET
    answer 200 with the success headers and an archive of no entries, only
    closed. *)
Theorem manifest_without_content_gives_empty_archive (W : World) (r : Request)
  (code : nat) (body : string) (m : BundleManifest) :
  Method r = "GET" ->
  http_NewRequest W (installerURL_of r) = true ->
  client_Do W (installerURL_of r) = Upstream code body ->
  code <> StatusNotFound ->
  json_Unmarshal W body = Some m ->
  Layers m = [] -> Images m = [] -> Files m = ∅ ->
  range_visits_all W ->
  response r (bundle W r) = success_response
  /\ (exists a g, archive (bundle W r) = [EvTarClose a; EvGzipClose g])
  /\ List.filter is_probe (bundle W r) = []
  /\ List.filter is_pull (bundle W r) = []
  /\ List.filter is_layer_fetch (bundle W r) = [].
Proof.
  intros Hm Hreq Hdo Hcode Hjson HL HI HF Hrange.
  assert (Hres : resolves W r m).
  { split; [now left|]. split; [exact Hreq|]. now exists code, body. }
  assert (Hfiles : map_range W (Files m) = []).
  { apply Permutation_nil_r. rewrite (Hrange (Files m)), HF.
    now rewrite map_to_list_empty. }
  assert (E : exists a g,
             bundle W r
             = lookup_events r ++ success_headers
               ++ EvTarClose a
                  :: (if a then [] else report (ErrCloseArchive (installerID_of r)))
               ++ EvGzipClose g
                  :: (if g then [] else report (ErrCloseGzip (installerID_of r)))).
  { unfold bundle. rewrite (bundle_body_resolved W r m Hres).
    unfold serve, stream. rewrite HL, HI, Hfiles, Hm. simpl.
    match goal with |- context [close_writers W ?id ?s] =>
      destruct (close_writers_run W id (trace s)) as (a & g & E) end.
    exists a, g. simpl in E. exact E. }
  destruct E as (a & g & E). rewrite E.
  split; [apply (response_of_get r _ _ Hm); [|reflexivity]
         |split; [exists a, g|]]; destruct a, g; repeat split.
Qed.

Lemma manifest_without_content_gives_empty_archive_witness :
  response (sample_request "GET")
    (bundle upstream_error_world (sample_request "GET"))
  = success_response.
Proof.
  apply (manifest_without_content_gives_empty_archive upstream_error_world
           (sample_request "GET") 500 "(error as JSON)" empty_manifest);
    try reflexivity.
  - discriminate.
  - intros m. reflexivity.
Defined.

(** ** The installer identifier *)

Lemma length_append (s t : string) :
  String.length (s +:+ t) = String.length s + String.length t.
Proof. induction s as [|c s IH]; simpl; [reflexivity|now rewrite IH]. Qed.

Lemma substring_whole (s : string) : substring 0 (String.length s) s = s.
Proof. induction s as [|c s IH]; simpl; [reflexivity|now rewrite IH]. Qed.

Lemma substring_head (s t : string) :
  substring 0 (String.length s) (s +:+ t) = s.
Proof.
  induction s as [|c s IH]; simpl; [now destruct t|now rewrite IH].
Qed.

Lemma substring_tail (s t : string) :
  substring (String.length s) (String.length t) (s +:+ t) = t.
Proof.
  induction s as [|c s IH]; simpl; [apply substring_whole|exact IH].
Qed.

(** [strings.TrimSuffix] takes the suffix off once. *)
Lemma TrimSuffix_app (s suffix : string) :
  GoStrings.TrimSuffix (s +:+ suffix) suffix = s.
Proof.
  unfold GoStrings.TrimSuffix, GoStrings.HasSuffix.
  rewrite length_append.
  replace (String.length s + String.length suffix - String.length suffix)
    with (String.length s) by lia.
  rewrite substring_tail, substring_head, String.eqb_refl.
  destruct (Nat.leb_spec (String.length suffix)
              (String.length s + String.length suffix)); [reflexivity|lia].
Qed.

(** X5. The installer may be asked for with or without the ending
    [.tar.gz]: the ending is taken off once before the lookup, so both
    requests look up the same upstream URL, with the version in it when the
    route has one. *)
Theorem archive_suffix_is_dropped (r1 r2 : Request) (id : string) :
  var_installerID r1 = id ->
  var_installerID r2 = id +:+ ".tar.gz" ->
  var_kurlVersion r1 = var_kurlVersion r2 ->
  GoStrings.HasSuffix id ".tar.gz" = false ->
  installerID_of r2 = id
  /\ installerURL_of r1 = installerURL_of r2
  /\ installerURL_of r2
     = (if String.eqb (var_kurlVersion r2) ""
        then upstream +:+ "/bundle/" +:+ id
        else upstream +:+ "/bundle/version/" +:+ var_kurlVersion r2
                      +:+ "/" +:+ id).
Proof.
  intros H1 H2 Hv Hs.
  assert (E2 : installerID_of r2 = id)
    by (unfold installerID_of; rewrite H2; apply TrimSuffix_app).
  assert (E1 : installerID_of r1 = id)
    by (unfold installerID_of, GoStrings.TrimSuffix; now rewrite H1, Hs).
  split; [exact E2|]. unfold installerURL_of. rewrite E1, E2, Hv.
  split; [reflexivity|].
  destruct (String.eqb (var_kurlVersion r2) ""); reflexivity.
Qed.

Lemma archive_suffix_is_dropped_witness :
  installerURL_of (sample_request "GET") = "http://localhost:3000/bundle/abc".
Proof.
  destruct (archive_suffix_is_dropped
              {| Method := "GET"; Path := "/bundle/abc";
                 var_kurlVersion := ""; var_installerID := "abc" |}
              (sample_request "GET") "abc" eq_refl eq_refl eq_refl eq_refl)
    as (_ & _ & H).
  exact H.
Defined.

(** ** Renaming of layer entries *)

Lemma clean_fold_no_dotdot (rooted : bool) (es out : list string) :
  forallb (fun e => negb (String.eqb e "..")) es = true ->
  fold_left (Filepath.clean_step rooted) es out
  = rev (List.filter kept_element es) ++ out.
Proof.
  revert out. induction es as [|e es IH]; intros out H; [reflexivity|].
  simpl in H. apply andb_true_iff in H as [He Hes]. simpl.
  rewrite IH by exact Hes.
  unfold Filepath.clean_step, kept_element.
  apply negb_true_iff in He. rewrite He.
  destruct (String.eqb e ""), (String.eqb e "."); simpl;
    try reflexivity.
  rewrite <- app_assoc. reflexivity.
Qed.

(** X6. A layer entry whose path has no [..] element is written under the
    prefix directory, whatever else the path is made of (a leading [/],
    empty elements, [.]): its name is [kurl] followed by the elements that
    are names. *)
Theorem entry_without_dotdot_stays_under_prefix (h : Header) :
  no_dotdot (Name h) = true ->
  Name (rename h)
  = GoStrings.join_slash
      ("kurl" :: List.filter kept_element (GoStrings.elements (Name h)))
  /\ (Name (rename h) = "kurl"
      \/ String.prefix "kurl/" (Name (rename h)) = true).
Proof.
  intros H. unfold no_dotdot in H.
  assert (E : Name (rename h)
              = GoStrings.join_slash
                  ("kurl" :: List.filter kept_element
                               (GoStrings.elements (Name h)))).
  { unfold rename. cbn [Name].
    change (Filepath.Join ["kurl"; Name h])
      with (Filepath.Clean ("kurl" +:+ "/" +:+ Name h)).
    unfold Filepath.Clean.
    change (String.eqb ("kurl" +:+ "/" +:+ Name h) "") with false.
    change (String.prefix "/" ("kurl" +:+ "/" +:+ Name h)) with false.
    cbv iota.
    rewrite (elements_cons_slash "kurl") by reflexivity.
    rewrite (clean_fold_no_dotdot false ("kurl" :: _)) by exact H.
    rewrite app_nil_r, rev_involutive.
    change (List.filter kept_element ("kurl" :: ?l))
      with ("kurl" :: List.filter kept_element l).
    destruct (List.filter kept_element (GoStrings.elements (Name h)));
      reflexivity. }
  split; [exact E|]. rewrite E.
  destruct (List.filter kept_element (GoStrings.elements (Name h)));
    [left; reflexivity|right].
  unfold GoStrings.join_slash. simpl.
  match goal with |- String.prefix "" ?x = true => destruct x; reflexivity end.
Qed.

Lemma entry_without_dotdot_stays_under_prefix_witness :
  Name (rename {| Name := "/etc//./passwd"; Size := 0; Mode := 420;
                  ModTime := 0 |})
  = "kurl/etc/passwd".
Proof.
  destruct (entry_without_dotdot_stays_under_prefix
              {| Name := "/etc//./passwd"; Size := 0; Mode := 420;
                 ModTime := 0 |} eq_refl) as [H _].
  exact H.
Defined.

(** ** Names of the image entries *)

Lemma to_uint_not_nil (n : nat) : Nat.to_uint n <> Decimal.Nil.
Proof.
  intros H. pose proof (DecimalNat.Unsigned.of_to n) as E.
  rewrite H in E. simpl in E. subst n. discriminate.
Qed.

Lemma itoa_inj (i j : nat) : GoStrings.itoa i = GoStrings.itoa j -> i = j.
Proof.
  unfold GoStrings.itoa. intros H.
  apply DecimalNat.Unsigned.to_uint_inj.
  pose proof (NilZero.usu _ (to_uint_not_nil i)) as Ei.
  pose proof (NilZero.usu _ (to_uint_not_nil j)) as Ej.
  rewrite H in Ei. congruence.
Qed.

Lemma append_cancel_r (s s' t : string) : s +:+ t = s' +:+ t -> s = s'.
Proof.
  revert s'. induction s as [|c s IH]; intros [|c' s'] H.
  - reflexivity.
  - exfalso. apply (f_equal String.length) in H.
    rewrite !length_append in H. simpl in H. lia.
  - exfalso. apply (f_equal String.length) in H.
    rewrite !length_append in H. simpl in H. lia.
  - change (String c (s +:+ t) = String c' (s' +:+ t)) in H.
    injection H as -> H. f_equal. now apply IH.
Qed.

(** X7. The name of an image entry is made from the position of the image
    alone, and two positions never give the same name: no image entry of a
    manifest overwrites another, also when the manifest lists one image
    twice. *)
Theorem image_entry_names_differ (i j : nat) :
  i <> j -> image_entry_name i <> image_entry_name j.
Proof.
  intros Hij H. apply Hij. unfold image_entry_name in H.
  simpl in H. injection H as H.
  change (GoStrings.itoa i +:+ ".tar" = GoStrings.itoa j +:+ ".tar") in H.
  apply append_cancel_r in H. now apply itoa_inj.
Qed.

Lemma image_entry_names_differ_witness :
  image_entry_name 1 <> image_entry_name 10.
Proof. apply image_entry_names_differ. lia. Defined.

(** ** The layer relayer *)

Lemma relay_result (W : World) (es : list LayerEntry) (fin : StreamEnd)
  (s : State) :
  (forall n, sink_accepts W n = true) ->
  (fst (relay W es fin s) = None
   <-> fin = EOF /\ Forall (fun e => entry_intact e = true) es)
  /\ (forall c, fst (relay W es fin s) = Some c -> before_stream c = false).
Proof.
  intros Hsink. revert s. induction es as [|e es IH]; intros s; simpl.
  - split.
    + destruct fin; simpl; split; try discriminate; try (intros [[=] _]);
        now repeat split.
    + intros c. destruct fin; simpl; [discriminate|]. now intros [= <-].
  - rewrite Hsink, andb_true_r.
    destruct (entry_intact e) eqn:He.
    + destruct (IH {| trace := trace s ++
                         [EvTarHeader (rename (entry_header e));
                          EvTarWrite (entry_data e) true];
                      deferred := deferred s |}) as [IH1 IH2].
      split; [|exact IH2].
      rewrite IH1. split.
      * intros [Hf Hes]. split; [exact Hf|]. now constructor.
      * intros [Hf Hes]. split; [exact Hf|]. now inversion Hes.
    + simpl. split.
      * split; [discriminate|]. intros [_ Hes].
        inversion Hes; subst. congruence.
      * now intros c [= <-].
Qed.

(** X8. As long as the client takes what is written, [pipe] succeeds exactly
    when the layer answers 200 with a gzip stream whose entries can all be
    read and that ends where it should.  When it fails before the stream
    starts (the fetch fails, the status is not 200, the body is not gzip),
    it has written nothing into the archive. *)
Theorem pipe_succeeds_iff_readable (W : World) (srcURL : string) (s : State) :
  (forall n, sink_accepts W n = true) ->
  (fst (pipe W srcURL s) = None <-> readable W srcURL)
  /\ (forall c, fst (pipe W srcURL s) = Some c ->
                before_stream c = true ->
                trace (snd (pipe W srcURL s)) = trace s ++ [EvGet srcURL]).
Proof.
  intros Hsink. unfold pipe, readable.
  destruct (http_Get W srcURL) as [|code body] eqn:Hget; simpl.
  - split; [|reflexivity]. split; [discriminate|].
    intros (src & [=] & _).
  - destruct (Nat.eqb_spec code StatusOK) as [->|Hcode]; simpl.
    + destruct body as [src|]; simpl.
      * destruct (relay_result W (entries src) (stream_end src)
                    {| trace := trace s ++ [EvGet srcURL];
                       deferred := deferred s |} Hsink) as [H1 H2].
        split.
        -- rewrite H1. split.
           ++ intros [Hf Hes]. now exists src.
           ++ intros (src' & [= <-] & Hf & Hes). now split.
        -- intros c Hc Hb. rewrite (H2 c Hc) in Hb. discriminate.
      * split; [|reflexivity]. split; [discriminate|].
        intros (src & [=] & _).
    + split; [|reflexivity]. split; [discriminate|].
      intros (src & [= E _] & _). congruence.
Qed.

Lemma pipe_succeeds_iff_readable_witness :
  (fst (pipe not_gzip_world "http://s3/layer.tar.gz" start) = None
   <-> readable not_gzip_world "http://s3/layer.tar.gz")
  /\ trace (snd (pipe not_gzip_world "http://s3/layer.tar.gz" start))
     = [EvGet "http://s3/layer.tar.gz"].
Proof.
  destruct (pipe_succeeds_iff_readable not_gzip_world
              "http://s3/layer.tar.gz" start (fun _ => eq_refl)) as [H1 H2].
  split; [exact H1|].
  apply (H2 PipeGunzip); reflexivity.
Defined.

(** ** The three ways a request goes *)

Lemma bundle_without_manifest (W : World) (r : Request) :
  (exists m, resolves W r m)
  \/ settled (bundle W r) \/ refused (bundle W r).
Proof.
  unfold bundle, bundle_body.
  destruct (String.eqb (Method r) "OPTIONS") eqn:Hopt;
    [right; left; split; reflexivity|].
  destruct (String.eqb_spec (Method r) "GET") as [Hget|Hget];
    destruct (String.eqb_spec (Method r) "HEAD") as [Hhead|Hhead];
    cbn [negb andb];
    try (rewrite Hget in Hhead; discriminate);
    try (right; left; split; reflexivity).
  all: rewrite bind_emit, bind_must by reflexivity.
  all: destruct (http_NewRequest W (installerURL_of r)) eqn:Hreq;
    [|right; right;
      exists [EvPrintf (Method r) (Path r)],
             (ErrBuildRequest (installerURL_of r)); now repeat split].
  all: rewrite bind_emit.
  all: destruct (client_Do W (installerURL_of r)) as [|code|code body] eqn:Hdo;
    try (right; right; rewrite handleHttpError_leave by reflexivity;
         eexists (lookup_events r), _; split; [reflexivity|];
         split; reflexivity).
  all: destruct (Nat.eqb_spec code StatusNotFound) as [Hcode|Hcode];
    [right; left; split; reflexivity|].
  all: destruct (json_Unmarshal W body) as [m|] eqn:Hjson;
    [|right; right; rewrite handleHttpError_leave by reflexivity;
      eexists (lookup_events r), _; split; [reflexivity|];
      split; reflexivity].
  all: left; exists m; unfold resolves; repeat split; eauto.
  all: exists code, body; repeat split; assumption.
Qed.

Lemma bundle_three_ways (W : World) (r : Request) :
  settled (bundle W r) \/ refused (bundle W r) \/ streams W r (bundle W r).
Proof.
  destruct (bundle_without_manifest W r) as [[m Hres]|[H|H]];
    [|now left|now right; left].
  destruct (reachable_or_not W (Layers m)) as [Hall|Hex].
  2:{ right. left.
      destruct (bundle_unreachable W r m Hres Hex)
        as (l1 & u & l2 & cause & _ & _ & _ & ->).
      exists (lookup_events r ++ map EvHead (l1 ++ [u])),
             (ErrHead u (installerID_of r) cause).
      rewrite <- app_assoc. split; [reflexivity|]. split; [|reflexivity].
      rewrite forallb_app. simpl. now apply forallb_map_head. }
  destruct (allowed_or_denied W (Images m)) as [Hok|Hbad].
  2:{ right. left.
      destruct (bundle_denied W r m Hres Hall Hbad) as (image & _ & _ & ->).
      exists (lookup_events r ++ map EvHead (Layers m)),
             (ErrUnsupportedRegistry image).
      rewrite <- app_assoc. split; [reflexivity|]. split; [|reflexivity].
      rewrite forallb_app. simpl. now apply forallb_map_head. }
  destruct (proj1 Hres) as [Hget|Hhead].
  - right. right.
    destruct (bundle_get_streams W r m Hres Hget Hall Hok)
      as (w & fin & Hw & Hfin & Hcases).
    exists m, w, fin. unfold checks_done.
    split; [exact Hres|]. split; [exact Hget|]. split; [exact Hall|].
    split; [exact Hok|]. split; [exact Hw|]. split; [exact Hfin|].
    exact Hcases.
  - left. rewrite (bundle_head_passes W r m Hres Hhead Hall Hok).
    split; rewrite !forallb_app; simpl;
      now rewrite forallb_map_head by reflexivity.
Qed.

Lemma forallb_In {A} (p : A -> bool) (l : list A) (x : A) :
  forallb p l = true -> In x l -> p x = true.
Proof. intros H. now apply List.forallb_forall. Qed.

Lemma checks_done_preflight (r : Request) (m : BundleManifest) :
  forallb is_preflight (checks_done r m) = true.
Proof.
  unfold checks_done. rewrite !forallb_app. simpl.
  now rewrite forallb_map_head by reflexivity.
Qed.

Lemma refused_preflight (tr : list Event) :
  refused tr -> forallb is_preflight tr = true.
Proof.
  intros (q & e & -> & Hq & _). rewrite forallb_app.
  now rewrite (lookup_preflight q Hq), report_preflight.
Qed.

(** ** What streaming presupposes *)

(** X9. The handler makes a scratch directory, pulls an image, fetches a
    layer or touches the archive only for a GET whose manifest was found,
    whose layers all passed the probe and whose images are all allowed. *)
Theorem streaming_work_needs_checks (W : World) (r : Request) (ev : Event) :
  In ev (bundle W r) ->
  is_streaming_work ev = true ->
  Method r = "GET"
  /\ exists m,
       resolves W r m
       /\ Forall (reachable W) (Layers m)
       /\ Forall (fun i => allowRegistry (net W) i = true) (Images m).
Proof.
  intros Hin Hev.
  assert (Hno : forallb is_preflight (bundle W r) = true -> False).
  { intros H. pose proof (forallb_In _ _ _ H Hin) as Hp.
    destruct ev; discriminate. }
  destruct (bundle_three_ways W r)
    as [[_ H]|[H|(m & w & fin & Hres & Hget & Hall & Hok & _)]].
  - destruct (Hno H).
  - destruct (Hno (refused_preflight _ H)).
  - split; [exact Hget|]. now exists m.
Qed.

Lemma streaming_work_needs_checks_witness :
  Method (sample_request "GET") = "GET"
  /\ exists m,
       resolves calm_world (sample_request "GET") m
       /\ Forall (reachable calm_world) (Layers m)
       /\ Forall (fun i => allowRegistry (net calm_world) i = true) (Images m).
Proof.
  apply (streaming_work_needs_checks calm_world (sample_request "GET")
           (EvGet "http://s3/layer.tar.gz")).
  - vm_compute. do 19 right. now left.
  - reflexivity.
Defined.

(** ** The closing of the writers *)

Lemma work_archive_entries (w : list Event) :
  forallb is_work w = true -> forallb is_entry (archive w) = true.
Proof.
  induction w as [|e w IH]; [reflexivity|]. simpl.
  intros H. apply andb_true_iff in H as [He Hw].
  destruct e; try discriminate; simpl; auto.
Qed.

Lemma archive_report (e : Failure) : archive (report e) = [].
Proof. unfold report, aftermath. destruct (http_code e); reflexivity. Qed.

Lemma archive_checks_done (r : Request) (m : BundleManifest) :
  archive (checks_done r m) = [].
Proof. apply archive_checks. Qed.

(** X10. Either the handler never touches the archive, or it closes the
    archive writer once and then the compression writer once, as the last
    two things done with them, after entries only: this is so on every way
    out of a GET that has started to stream, with or without an error. *)
Theorem writers_closed_once_and_last (W : World) (r : Request) :
  (archive (bundle W r) = []
   \/ exists written a g,
        archive (bundle W r) = written ++ [EvTarClose a; EvGzipClose g]
        /\ forallb is_entry written = true)
  /\ forall m,
       resolves W r m -> Method r = "GET" ->
       Forall (reachable W) (Layers m) ->
       Forall (fun i => allowRegistry (net W) i = true) (Images m) ->
       exists written a g,
         archive (bundle W r) = written ++ [EvTarClose a; EvGzipClose g]
         /\ forallb is_entry written = true.
Proof.
  assert (Hs : forall m w fin,
             forallb is_work w = true ->
             finalization (installerID_of r) fin ->
             bundle W r = checks_done r m ++ w ++ fin
             \/ (exists e, midstream_failure e = true
                           /\ bundle W r
                              = checks_done r m ++ w ++ report e ++ fin) ->
             exists written a g,
               archive (bundle W r) = written ++ [EvTarClose a; EvGzipClose g]
               /\ forallb is_entry written = true).
  { intros m w fin Hw Hfin Hcases.
    destruct (archive_finalization _ _ Hfin) as (a & g & Ha).
    exists (archive w), a, g. split; [|now apply work_archive_entries].
    destruct Hcases as [-> | (e & _ & ->)];
      rewrite !archive_app, archive_checks_done, Ha, ?archive_report;
      reflexivity. }
  split.
  - destruct (bundle_three_ways W r)
      as [[_ H]|[H|(m & w & fin & _ & _ & _ & _ & Hw & Hfin & Hcases)]].
    + left. now apply preflight_no_streaming_work.
    + left. now apply preflight_no_streaming_work, refused_preflight.
    + right. exact (Hs m w fin Hw Hfin Hcases).
  - intros m Hres Hget Hall Hok.
    destruct (bundle_get_streams W r m Hres Hget Hall Hok)
      as (w & fin & Hw & Hfin & Hcases).
    exact (Hs m w fin Hw Hfin Hcases).
Qed.

Lemma writers_closed_once_and_last_witness :
  exists written a g,
    archive (bundle second_pull_fails (sample_request "GET"))
    = written ++ [EvTarClose a; EvGzipClose g]
    /\ forallb is_entry written = true.
Proof.
  destruct (writers_closed_once_and_last second_pull_fails
              (sample_request "GET")) as [_ H].
  apply (H full_manifest).
  - apply sample_resolves. now left.
  - reflexivity.
  - repeat constructor.
  - repeat constructor.
Defined.

(** ** The status of a GET that streams *)

Lemma uncommitted_work (w : list Event) (wr : Writer) :
  forallb is_work w = true ->
  sent (fold_left writer_step w wr) = None ->
  List.filter is_entry w = [].
Proof.
  revert wr. induction w as [|e w IH]; intros wr Hw Hs; [reflexivity|].
  simpl in Hw. apply andb_true_iff in Hw as [He Hw]. simpl in Hs.
  destruct e; try discriminate; simpl; try (eapply IH; eassumption).
  all: exfalso; erewrite sent_stable in Hs by apply sent_commit;
    discriminate.
Qed.

Lemma plain_text_none (p : Event -> bool) (l : list Event) :
  (forall t, p (EvWrite t) = false) ->
  forallb p l = true -> plain_text l = [].
Proof.
  intros Hp. apply omap_none. intros [] H; try reflexivity.
  rewrite Hp in H. discriminate.
Qed.

Lemma plain_text_checks_done (r : Request) (m : BundleManifest) :
  plain_text (checks_done r m) = [].
Proof.
  unfold checks_done. rewrite !plain_text_app. simpl.
  rewrite (plain_text_none is_probe); [reflexivity|reflexivity|].
  now apply forallb_map_head.
Qed.

Lemma filter_entry_none (p : Event -> bool) (l : list Event) :
  (forall h, p (EvTarHeader h) = false) ->
  (forall d ok, p (EvTarWrite d ok) = false) ->
  forallb p l = true -> List.filter is_entry l = [].
Proof.
  intros H1 H2. apply filter_none. intros [] H; try reflexivity.
  - rewrite H1 in H. discriminate.
  - rewrite H2 in H. discriminate.
Qed.

(** ** Errors: logged, reported, and final *)

Lemma checks_done_quiet (r : Request) (m : BundleManifest) :
  forallb (fun e => negb (is_report e)) (checks_done r m) = true.
Proof.
  unfold checks_done. rewrite !forallb_app. simpl.
  now rewrite forallb_map_head by reflexivity.
Qed.

Lemma work_quiet (w : list Event) :
  forallb is_work w = true ->
  forallb (fun e => negb (is_report e)) w = true.
Proof. apply forallb_weaken. intros [] H; try discriminate; reflexivity. Qed.

Lemma removed_quiet (ds : list Deferred) :
  forallb (fun e => negb (is_report e)) (flat_map removed ds) = true.
Proof.
  induction ds as [|[] ds IH]; [reflexivity|exact IH|exact IH].
Qed.

Lemma logs_finalization (installerID : string) (fin : list Event) :
  finalization installerID fin ->
  logs fin = notifies fin.
Proof.
  intros (ds & a & g & _ & ->).
  rewrite logs_app, notifies_app.
  destruct (logs_quiet _ (removed_quiet ds)) as [-> ->].
  destruct a, g; reflexivity.
Qed.

(** X12. Over a whole request, the errors written to the log are the errors
    reported to the error tracker, in the same order: no error path of the
    handler does one without the other (the 404 passed through, the 405 and
    the answer to OPTIONS do neither). *)
Theorem errors_logged_are_reported (W : World) (r : Request) :
  logs (bundle W r) = notifies (bundle W r).
Proof.
  destruct (bundle_three_ways W r)
    as [[Hq _]|[(q & e & -> & Hq & _)
               |(m & w & fin & _ & _ & _ & _ & Hw & Hfin & E)]].
  - now destruct (logs_quiet _ Hq) as [-> ->].
  - rewrite logs_app, notifies_app, logs_report, notifies_report.
    now destruct (logs_quiet _ (lookup_quiet _ Hq)) as [-> ->].
  - destruct (logs_quiet _ (checks_done_quiet r m)) as [Hc1 Hc2].
    destruct (logs_quiet _ (work_quiet _ Hw)) as [Hw1 Hw2].
    pose proof (logs_finalization _ _ Hfin) as Hf.
    destruct E as [->|(e & _ & ->)];
      rewrite ?logs_app, ?notifies_app, ?logs_report, ?notifies_report,
        Hc1, Hc2, Hw1, Hw2, Hf; reflexivity.
Qed.

Lemma aftermath_calm (e : Failure) :
  forallb (fun ev => negb (is_primary_log ev)) (aftermath e) = true
  /\ forallb (fun ev => negb (is_fetch_or_entry ev)) (aftermath e) = true.
Proof. unfold aftermath. destruct (http_code e); split; reflexivity. Qed.

Lemma cleanup_calm (fin : list Event) :
  forallb is_cleanup fin = true ->
  forallb (fun ev => negb (is_primary_log ev)) fin = true
  /\ forallb (fun ev => negb (is_fetch_or_entry ev)) fin = true.
Proof.
  intros H. split; revert H; apply forallb_weaken;
    intros [] H; try discriminate; try reflexivity.
  simpl in *. now rewrite H.
Qed.

Lemma quiet_no_primary_log (l : list Event) :
  forallb (fun e => negb (is_report e)) l = true ->
  forallb (fun ev => negb (is_primary_log ev)) l = true.
Proof. apply forallb_weaken. intros [] H; try discriminate; reflexivity. Qed.

Lemma bundle_first_error (W : World) (r : Request) :
  forallb (fun ev => negb (is_primary_log ev)) (bundle W r) = true
  \/ exists q e rest,
       bundle W r = q ++ EvLog e :: rest
       /\ closing_failure e = false
       /\ forallb (fun ev => negb (is_primary_log ev)) q = true
       /\ forallb (fun ev => negb (is_primary_log ev)) rest = true
       /\ forallb (fun ev => negb (is_fetch_or_entry ev)) rest = true.
Proof.
  destruct (bundle_three_ways W r)
    as [[Hq _]|[(q & e & -> & Hq & He)
               |(m & w & fin & _ & _ & _ & _ & Hw & Hfin & E)]].
  - left. now apply quiet_no_primary_log.
  - right. exists q, e, (aftermath e).
    destruct (aftermath_calm e) as [H1 H2].
    split; [reflexivity|].
    split; [destruct e; try discriminate; reflexivity|].
    split; [now apply quiet_no_primary_log, lookup_quiet|].
    now split.
  - pose proof (quiet_no_primary_log _ (checks_done_quiet r m)) as Hc.
    pose proof (quiet_no_primary_log _ (work_quiet _ Hw)) as Hw'.
    destruct (cleanup_calm _ (finalization_cleanup _ _ Hfin)) as [Hf1 Hf2].
    destruct E as [->|(e & He & ->)].
    + left. now rewrite !forallb_app, Hc, Hw', Hf1.
    + right. exists (checks_done r m ++ w), e, (aftermath e ++ fin).
      destruct (aftermath_calm e) as [H1 H2].
      split; [unfold report; now rewrite <- app_assoc|].
      split; [destruct e; try discriminate; reflexivity|].
      rewrite !forallb_app, Hc, Hw', H1, H2, Hf1, Hf2. now repeat split.
Qed.

(** X13. A request logs at most one error other than a failure to close the
    writers, and that error ends the work: after its log line the handler
    makes no scratch directory, pulls no image, fetches no layer and writes
    no entry into the archive (what follows is the answer or the report, and
    the deferred calls). *)
Theorem first_error_ends_the_work (W : World) (r : Request)
  (pre post : list Event) (e : Failure) :
  bundle W r = pre ++ EvLog e :: post ->
  closing_failure e = false ->
  forallb (fun ev => negb (is_fetch_or_entry ev)) post = true
  /\ forallb (fun ev => negb (is_primary_log ev)) pre = true
  /\ forallb (fun ev => negb (is_primary_log ev)) post = true.
Proof.
  intros E He.
  assert (Hp : is_primary_log (EvLog e) = true) by (simpl; now rewrite He).
  destruct (bundle_first_error W r)
    as [H|(q & e' & rest & E' & He' & Hq & Hr1 & Hr2)].
  - rewrite E, forallb_app in H. simpl in H. rewrite He in H.
    simpl in H. now rewrite andb_false_r in H.
  - assert (Hp' : is_primary_log (EvLog e') = true)
      by (simpl; now rewrite He').
    rewrite E in E'. symmetry in E'.
    destruct (split_unique is_primary_log q rest pre post
                (EvLog e') (EvLog e) Hq Hr1 Hp' Hp E') as (-> & _ & ->).
    now repeat split.
Qed.

Lemma first_error_ends_the_work_witness :
  exists pre post,
    bundle second_pull_fails (sample_request "GET")
    = pre ++ EvLog (ErrSaveImage "ttl.sh/app:1h") :: post
    /\ forallb (fun ev => negb (is_fetch_or_entry ev)) post = true.
Proof.
  exists (firstn 15 (bundle second_pull_fails (sample_request "GET"))),
         (skipn 16 (bundle second_pull_fails (sample_request "GET"))).
  assert (E : bundle second_pull_fails (sample_request "GET")
              = firstn 15 (bundle second_pull_fails (sample_request "GET"))
                ++ EvLog (ErrSaveImage "ttl.sh/app:1h")
                   :: skipn 16 (bundle second_pull_fails (sample_request "GET")))
    by (vm_compute; reflexivity).
  split; [exact E|].
  exact (proj1 (first_error_ends_the_work _ _ _ _ _ E eq_refl)).
Defined.

(** ** Scratch directories *)

Lemma no_tempdir_in (l : list Event) (d : string) :
  forallb (fun e => negb (is_tempdir e)) l = true ->
  In (EvTempDir d) l -> False.
Proof.
  intros H Hin. rewrite forallb_forall in H.
  specialize (H _ Hin). discriminate.
Qed.

Lemma keeps_ret {A} (a : A) : Keeps (ret a).
Proof. intros s H. exact H. Qed.

Lemma keeps_leave {A} : Keeps (@leave A).
Proof. intros s H. exact H. Qed.

Lemma keeps_moment : Keeps moment.
Proof. intros s H. exact H. Qed.

Lemma keeps_defer (d : Deferred) : Keeps (defer d).
Proof. intros s H x Hx. right. now apply H. Qed.

Lemma keeps_emit (l : list Event) :
  forallb (fun e => negb (is_tempdir e)) l = true -> Keeps (emit l).
Proof.
  intros Hl s H d Hd. simpl in *. apply in_app_or in Hd as [Hd|Hd].
  - now apply H.
  - destruct (no_tempdir_in l d Hl Hd).
Qed.

Lemma keeps_bind {A B} (m : Handler A) (k : A -> Handler B) :
  Keeps m -> (forall a, Keeps (k a)) -> Keeps (bind m k).
Proof.
  intros Hm Hk s H. unfold bind. specialize (Hm s H).
  destruct (m s) as [[a|] s']; [apply Hk|]; exact Hm.
Qed.

Lemma keeps_tempdir {A} (d : string) (k : Handler A) :
  Keeps k -> Keeps (emit [EvTempDir d] ;; defer (DeferRemoveAll d) ;; k).
Proof.
  intros Hk s H. rewrite bind_emit, bind_defer. apply Hk.
  intros x Hx. simpl in *. rewrite app_nil_r in Hx.
  apply in_app_or in Hx as [Hx|[Hx|[]]].
  - right. now apply H.
  - left. now injection Hx as ->.
Qed.

Create HintDb keeps.

Ltac keeps :=
  repeat first
    [ assumption | solve [auto with keeps]
    | apply keeps_ret | apply keeps_leave | apply keeps_moment
    | apply keeps_defer | apply keeps_tempdir
    | apply keeps_emit; reflexivity
    | apply keeps_bind; [|intro]
    | match goal with
      | |- Keeps (match ?x with _ => _ end) => destruct x
      end ].

Lemma keeps_handleHttpError (e : Failure) (code : nat) :
  Keeps (handleHttpError e code).
Proof. unfold handleHttpError, http_Error. keeps. Qed.

Lemma keeps_handleError (e : Failure) : Keeps (handleError e).
Proof. unfold handleError. keeps. Qed.

Lemma keeps_must (ok : bool) (e : Failure) : Keeps (must ok e).
Proof. unfold must. destruct ok; keeps. Qed.

#[local] Hint Resolve keeps_handleHttpError keeps_handleError keeps_must
  : keeps.

Lemma keeps_probe_layers (W : World) (id : string) (layers : list string) :
  Keeps (probe_layers W id layers).
Proof.
  induction layers as [|u rest IH]; simpl; keeps; auto with keeps.
Qed.

Lemma keeps_check_images (W : World) (images : list string) :
  Keeps (check_images W images).
Proof.
  induction images as [|i rest IH]; simpl; keeps; auto with keeps.
Qed.

Lemma keeps_stream_image (W : World) (i : nat) (image : string) :
  Keeps (stream_image W i image).
Proof. unfold stream_image. keeps; auto with keeps. Qed.

Lemma keeps_stream_images (W : World) (i : nat) (images : list string) :
  Keeps (stream_images W i images).
Proof.
  revert i. induction images as [|x rest IH]; intros i; simpl; keeps.
Qed.

Lemma relay_tidy (W : World) (es : list LayerEntry) (fin : StreamEnd)
  (s : State) :
  tidy s -> tidy (snd (relay W es fin s)).
Proof.
  revert s. induction es as [|e es IH]; intros s H; simpl.
  - destruct fin; exact H.
  - match goal with |- context [if ?b then _ else _] => destruct b end;
      [apply IH|]; intros d Hd; simpl in *;
      apply in_app_or in Hd as [Hd|[Hd|[Hd|[]]]];
      try discriminate; now apply H.
Qed.

Lemma pipe_tidy (W : World) (srcURL : string) (s : State) :
  tidy s -> tidy (snd (pipe W srcURL s)).
Proof.
  intros H. unfold pipe.
  assert (H' : tidy {| trace := trace s ++ [EvGet srcURL];
                       deferred := deferred s |}).
  { intros d Hd. simpl in *. apply in_app_or in Hd as [Hd|[Hd|[]]];
      [now apply H|discriminate]. }
  destruct (http_Get W srcURL) as [|code [src|]]; simpl;
    try exact H'; destruct (negb _); try exact H'.
  now apply relay_tidy.
Qed.

Lemma keeps_stream_layers (W : World) (id : string) (layers : list string) :
  Keeps (stream_layers W id layers).
Proof.
  induction layers as [|u rest IH]; simpl; [apply keeps_ret|].
  intros s H. pose proof (pipe_tidy W u s H) as Hp.
  destruct (pipe W u s) as [[c|] s']; simpl in Hp.
  - exact (keeps_bind (handleError (ErrPipe u id c)) (fun _ => @leave unit)
             (keeps_handleError _) (fun _ => keeps_leave) s' Hp).
  - now apply IH.
Qed.

Lemma keeps_stream_files (W : World) (id : string)
  (files : list (string * string)) :
  Keeps (stream_files W id files).
Proof.
  induction files as [|[p c] rest IH]; simpl; keeps.
Qed.

Lemma keeps_bundle_body (W : World) (r : Request) : Keeps (bundle_body W r).
Proof.
  pose proof keeps_probe_layers. pose proof keeps_check_images.
  pose proof keeps_stream_images. pose proof keeps_stream_layers.
  pose proof keeps_stream_files.
  unfold bundle_body, serve, stream, http_Error. keeps.
Qed.

Lemma run_deferred_removes_all (W : World) (ds : list Deferred)
  (tr : list Event) :
  exists cl,
    run_deferred W ds tr = tr ++ cl
    /\ forallb (fun e => negb (is_tempdir e)) cl = true
    /\ forall d, In (DeferRemoveAll d) ds -> In (EvRemoveAll d) cl.
Proof.
  revert tr. induction ds as [|x ds IH]; intros tr; simpl.
  - exists []. rewrite app_nil_r. now repeat split.
  - destruct x as [id|dir]; simpl.
    + destruct (close_writers_run W id tr) as (a & g & ->).
      match goal with |- context [run_deferred W ds (tr ++ ?c)] =>
        destruct (IH (tr ++ c)) as (cl & -> & Hcl & Hin); exists (c ++ cl)
      end.
      rewrite <- app_assoc. split; [reflexivity|]. split.
      * rewrite forallb_app, Hcl. destruct a, g; reflexivity.
      * intros d [Hd|Hd]; [discriminate|].
        apply in_or_app. right. now apply Hin.
    + destruct (IH (tr ++ [EvRemoveAll dir])) as (cl & -> & Hcl & Hin).
      exists (EvRemoveAll dir :: cl). rewrite <- app_assoc.
      split; [reflexivity|]. split; [exact Hcl|].
      intros d [Hd|Hd]; [left; now injection Hd as ->|right; now apply Hin].
Qed.

Lemma split_before (a b pre post : list Event) (x : Event) :
  is_tempdir x = true ->
  forallb (fun e => negb (is_tempdir e)) b = true ->
  a ++ b = pre ++ x :: post ->
  In x a /\ exists post', post = post' ++ b.
Proof.
  intros Hx Hb. revert pre. induction a as [|y a IH]; intros pre E.
  - exfalso. simpl in E. rewrite E, forallb_app in Hb. simpl in Hb.
    rewrite Hx in Hb. simpl in Hb. now rewrite andb_false_r in Hb.
  - destruct pre as [|z pre]; simpl in E; injection E as -> E.
    + split; [now left|]. now exists a.
    + destruct (IH pre E) as [Hin Hpost]. split; [now right|exact Hpost].
Qed.

(** X14. Every scratch directory the handler makes for an image is removed
    before the request ends, however the request ends: after each
    [ioutil.TempDir] the trace has the [os.RemoveAll] of that directory
    (the deferred one at the latest). *)
Theorem scratch_directories_are_removed (W : World) (r : Request)
  (pre post : list Event) (d : string) :
  bundle W r = pre ++ EvTempDir d :: post ->
  In (EvRemoveAll d) post.
Proof.
  intros E. unfold bundle in E.
  pose proof (keeps_bundle_body W r start) as Ht.
  assert (H0 : tidy start) by (intros x []).
  specialize (Ht H0).
  destruct (run_deferred_removes_all W
              (deferred (snd (bundle_body W r start)))
              (trace (snd (bundle_body W r start))))
    as (cl & Hrun & Hcl & Hin).
  rewrite Hrun in E.
  destruct (split_before _ _ _ _ (EvTempDir d) eq_refl Hcl E)
    as [Hd (post' & ->)].
  apply in_or_app. right. apply Hin, Ht, Hd.
Qed.

Lemma scratch_directories_are_removed_witness :
  exists pre post,
    bundle second_pull_fails (sample_request "GET")
    = pre ++ EvTempDir "/images/temp-image-pull13" :: post
    /\ In (EvRemoveAll "/images/temp-image-pull13") post.
Proof.
  exists (firstn 13 (bundle second_pull_fails (sample_request "GET"))),
         (skipn 14 (bundle second_pull_fails (sample_request "GET"))).
  assert (E : bundle second_pull_fails (sample_request "GET")
              = firstn 13 (bundle second_pull_fails (sample_request "GET"))
                ++ EvTempDir "/images/temp-image-pull13"
                   :: skipn 14 (bundle second_pull_fails (sample_request "GET")))
    by (vm_compute; reflexivity).
  split; [exact E|].
  exact (scratch_directories_are_removed _ _ _ _ _ E).
Defined.

(** ** HEAD and GET *)

Lemma probe_layers_frame (W : World) (id : string) (layers : list string)
  (s s' : State) :
  exists o w,
    probe_layers W id layers s = (o, extend s w [])
    /\ probe_layers W id layers s' = (o, extend s' w [])
    /\ match o with
       | Next _ => w = map EvHead layers /\ Forall (reachable W) layers
       | Return =>
           exists pre e,
             w = pre ++ report e
             /\ forallb is_lookup pre = true
             /\ http_code e = Some StatusInternalServerError
       end.
Proof.
  revert s s'. induction layers as [|u rest IH]; intros s s'.
  - exists (Next tt), []. simpl. rewrite !extend_nil. now repeat split.
  - simpl. rewrite !bind_emit.
    destruct (http_Head W u) as [code|] eqn:Hu.
    + destruct (Nat.eqb_spec code StatusOK) as [->|Hcode]; cbn [negb].
      * destruct (IH (extend s [EvHead u] []) (extend s' [EvHead u] []))
          as (o & w & E1 & E2 & Ho).
        rewrite extend_extend in E1, E2.
        exists o, ([EvHead u] ++ w). split; [exact E1|]. split; [exact E2|].
        destruct o as [[]|].
        -- destruct Ho as [-> Hall]. split; [reflexivity|].
           constructor; [exact Hu|exact Hall].
        -- destruct Ho as (pre & e & -> & Hpre & He).
           exists (EvHead u :: pre), e. now repeat split.
      * rewrite !handleHttpError_leave by reflexivity.
        rewrite !extend_extend.
        exists Return, ([EvHead u] ++ report (ErrHead u id (HeadStatus code))).
        split; [reflexivity|]. split; [reflexivity|].
        exists [EvHead u], (ErrHead u id (HeadStatus code)). now repeat split.
    + rewrite !handleHttpError_leave by reflexivity.
      rewrite !extend_extend.
      exists Return, ([EvHead u] ++ report (ErrHead u id HeadTransport)).
      split; [reflexivity|]. split; [reflexivity|].
      exists [EvHead u], (ErrHead u id HeadTransport). now repeat split.
Qed.

Lemma check_images_frame (W : World) (images : list string) (s s' : State) :
  (Forall (fun i => allowRegistry (net W) i = true) images
   /\ check_images W images s = (Next tt, s)
   /\ check_images W images s' = (Next tt, s'))
  \/ exists image,
       check_images W images s
       = (Return, extend s (report (ErrUnsupportedRegistry image)) [])
       /\ check_images W images s'
          = (Return, extend s' (report (ErrUnsupportedRegistry image)) []).
Proof.
  induction images as [|i rest IH]; simpl.
  - left. now repeat split.
  - destruct (allowRegistry (net W) i) eqn:Hi; cbn [negb].
    + destruct IH as [(Hall & E1 & E2)|IH]; [left|now right].
      split; [|now split]. now constructor.
    + right. exists i. now rewrite !handleHttpError_leave by reflexivity.
Qed.

Lemma refused_with_printf (method path method' path' : string)
  (tr : list Event) (msg : string) (code : nat) :
  refused_with (EvPrintf method path :: tr) msg code ->
  refused_with (EvPrintf method' path' :: tr) msg code.
Proof.
  intros (pre & post & E & Hpre & Hpost).
  destruct pre as [|x pre]; [discriminate|].
  simpl in E. injection E as <- ->.
  now exists (EvPrintf method' path' :: pre), post.
Qed.

Lemma failed_lookup_refused (W : World) (url method path : string)
  (evs : list Event) :
  failed_lookup W url = Some evs ->
  exists msg code,
    refused_with (EvPrintf method path :: evs) msg code
    /\ (code = StatusNotFound \/ code = StatusInternalServerError).
Proof.
  unfold failed_lookup.
  assert (fail : forall pre e,
             forallb is_silent pre = true ->
             http_code e = Some StatusInternalServerError ->
             exists msg code,
               refused_with (pre ++ report e) msg code
               /\ (code = StatusNotFound
                   \/ code = StatusInternalServerError)).
  { intros pre e Hpre He.
    exists (StatusText StatusInternalServerError), StatusInternalServerError.
    split; [now apply refused_with_report|now right]. }
  destruct (http_NewRequest W url).
  2:{ intros [= <-]. now apply (fail [EvPrintf method path]). }
  destruct (client_Do W url) as [|code|code body].
  1,2: intros [= <-]; now apply (fail [EvPrintf method path; EvDo url]).
  destruct (code =? StatusNotFound)%nat.
  { intros [= <-]. exists body, StatusNotFound. split; [|now left].
    now exists [EvPrintf method path; EvDo url], []. }
  destruct (json_Unmarshal W body); [discriminate|].
  intros [= <-]. now apply (fail [EvPrintf method path; EvDo url]).
Qed.

Lemma bundle_failed_lookup (W : World) (r : Request) (evs : list Event) :
  (Method r = "GET" \/ Method r = "HEAD") ->
  failed_lookup W (installerURL_of r) = Some evs ->
  bundle W r = EvPrintf (Method r) (Path r) :: evs.
Proof.
  intros Hm. unfold failed_lookup, bundle, bundle_body.
  assert (String.eqb (Method r) "OPTIONS" = false) as ->
    by (destruct Hm as [-> | ->]; reflexivity).
  assert (negb (String.eqb (Method r) "GET")
          && negb (String.eqb (Method r) "HEAD") = false) as ->
    by (destruct Hm as [-> | ->]; reflexivity).
  rewrite bind_emit, bind_must by reflexivity.
  destruct (http_NewRequest W (installerURL_of r));
    [|now intros [= <-]].
  rewrite bind_emit.
  destruct (client_Do W (installerURL_of r)) as [|code|code body].
  1,2: rewrite handleHttpError_leave by reflexivity; now intros [= <-].
  destruct (code =? StatusNotFound)%nat; [now intros [= <-]|].
  destruct (json_Unmarshal W body); [discriminate|].
  rewrite handleHttpError_leave by reflexivity. now intros [= <-].
Qed.

Lemma lookup_gives_manifest (W : World) (r : Request) :
  (Method r = "GET" \/ Method r = "HEAD") ->
  failed_lookup W (installerURL_of r) = None ->
  exists m, resolves W r m.
Proof.
  intros Hm. unfold failed_lookup, resolves.
  destruct (http_NewRequest W (installerURL_of r)); [|discriminate].
  destruct (client_Do W (installerURL_of r)) as [|code|code body];
    try discriminate.
  destruct (Nat.eqb_spec code StatusNotFound) as [|Hcode]; [discriminate|].
  destruct (json_Unmarshal W body) as [m|] eqn:Hj; [|discriminate].
  intros _. exists m. split; [exact Hm|]. split; [reflexivity|].
  now exists code, body.
Qed.

Lemma serve_refused (W : World) (r : Request) (m : BundleManifest)
  (s : State) (w : list Event) :
  (probe_layers W (installerID_of r) (Layers m) s = (Return, extend s w [])
   \/ exists w1 w2,
        w = w1 ++ w2
        /\ probe_layers W (installerID_of r) (Layers m) s
           = (Next tt, extend s w1 [])
        /\ check_images W (Images m) (extend s w1 [])
           = (Return, extend (extend s w1 []) w2 [])) ->
  serve W r m s = (Return, extend s w []).
Proof.
  unfold serve. intros [E|(w1 & w2 & -> & E1 & E2)].
  - now rewrite (bind_Return _ _ _ _ E).
  - rewrite (bind_Next _ _ _ _ _ E1), (bind_Return _ _ _ _ E2).
    now rewrite extend_extend.
Qed.

(** X15. With the upstream service, the layers and the allowlist answering
    the same, a HEAD is a dry run of the GET for the same installer: the GET
    starts with exactly what the HEAD does (the method in the request line
    of the log apart).  When the HEAD is answered with anything but 200,
    the GET does nothing more and is answered the same, status and headers;
    otherwise the HEAD is answered 200 with the success headers less
    [Transfer-Encoding], and the GET goes on to stream. *)
Theorem head_is_dry_run_of_get (W : World) (rh rg : Request) :
  Method rh = "HEAD" ->
  Method rg = "GET" ->
  var_kurlVersion rg = var_kurlVersion rh ->
  var_installerID rg = var_installerID rh ->
  exists checks rest,
    bundle W rh = EvPrintf "HEAD" (Path rh) :: checks
    /\ bundle W rg = EvPrintf "GET" (Path rg) :: checks ++ rest
    /\ ((rest = []
         /\ status (response rh (bundle W rh)) <> StatusOK
         /\ response rg (bundle W rg) = response rh (bundle W rh))
        \/ (rest <> []
            /\ response rh (bundle W rh) = head_success_response
            /\ headers (response rh (bundle W rh)) !! "Transfer-Encoding"
               = None)).
Proof.
  intros Hh Hg Hv Hi.
  assert (Hid : installerID_of rg = installerID_of rh)
    by (unfold installerID_of; now rewrite Hi).
  assert (Hurl : installerURL_of rg = installerURL_of rh)
    by (unfold installerURL_of; now rewrite Hv, Hid).
  assert (early : forall checks msg code,
             bundle W rh = EvPrintf "HEAD" (Path rh) :: checks ->
             bundle W rg = EvPrintf "GET" (Path rg) :: checks ->
             refused_with (EvPrintf "HEAD" (Path rh) :: checks) msg code ->
             (code = StatusNotFound \/ code = StatusUnprocessableEntity
              \/ code = StatusInternalServerError) ->
             exists checks rest,
               bundle W rh = EvPrintf "HEAD" (Path rh) :: checks
               /\ bundle W rg = EvPrintf "GET" (Path rg) :: checks ++ rest
               /\ ((rest = []
                    /\ status (response rh (bundle W rh)) <> StatusOK
                    /\ response rg (bundle W rg) = response rh (bundle W rh))
                   \/ (rest <> []
                       /\ response rh (bundle W rh) = head_success_response
                       /\ headers (response rh (bundle W rh))
                            !! "Transfer-Encoding" = None))).
  { intros checks msg code E1 E2 Hr Hcode. exists checks, [].
    rewrite app_nil_r. split; [exact E1|]. split; [exact E2|]. left.
    assert (Hb : bodyAllowedForStatus code = true)
      by (destruct Hcode as [-> |[-> | ->]]; reflexivity).
    pose proof (refused_with_printf _ _ "GET" (Path rg) _ _ _ Hr) as Hr'.
    rewrite E1, E2.
    rewrite (response_refused rh _ msg code Hr Hb),
      (response_refused rg _ msg code Hr' Hb).
    split; [reflexivity|]. split; [|reflexivity].
    destruct Hcode as [-> |[-> | ->]]; discriminate. }
  destruct (failed_lookup W (installerURL_of rh)) as [evs|] eqn:Hl.
  { pose proof (bundle_failed_lookup W rh evs (or_intror Hh) Hl) as E1.
    destruct (failed_lookup_refused W _ "HEAD" (Path rh) evs Hl)
      as (msg & code & Hr & Hcode).
    rewrite <- Hurl in Hl.
    pose proof (bundle_failed_lookup W rg evs (or_introl Hg) Hl) as E2.
    rewrite Hh in E1. rewrite Hg in E2.
    apply (early evs msg code E1 E2 Hr). tauto. }
  destruct (lookup_gives_manifest W rh (or_intror Hh) Hl) as [m Hres].
  assert (Hres' : resolves W rg m).
  { destruct Hres as (_ & H1 & H2). unfold resolves. rewrite Hurl.
    split; [now left|]. now split. }
  assert (refusal : forall w e code,
             serve W rh m (extend start (lookup_events rh) [])
             = (Return, extend (extend start (lookup_events rh) [])
                          (w ++ report e) []) ->
             serve W rg m (extend start (lookup_events rg) [])
             = (Return, extend (extend start (lookup_events rg) [])
                          (w ++ report e) []) ->
             forallb is_lookup w = true ->
             http_code e = Some code ->
             (code = StatusUnprocessableEntity
              \/ code = StatusInternalServerError) ->
             exists checks rest,
               bundle W rh = EvPrintf "HEAD" (Path rh) :: checks
               /\ bundle W rg = EvPrintf "GET" (Path rg) :: checks ++ rest
               /\ ((rest = []
                    /\ status (response rh (bundle W rh)) <> StatusOK
                    /\ response rg (bundle W rg) = response rh (bundle W rh))
                   \/ (rest <> []
                       /\ response rh (bundle W rh) = head_success_response
                       /\ headers (response rh (bundle W rh))
                            !! "Transfer-Encoding" = None))).
  { intros w e code E1 E2 Hw He Hcode.
    assert (B1 : bundle W rh
                 = EvPrintf "HEAD" (Path rh)
                   :: EvDo (installerURL_of rh) :: w ++ report e).
    { unfold bundle. rewrite (bundle_body_resolved W rh m Hres), E1.
      unfold lookup_events. now rewrite Hh. }
    assert (B2 : bundle W rg
                 = EvPrintf "GET" (Path rg)
                   :: EvDo (installerURL_of rh) :: w ++ report e).
    { unfold bundle. rewrite (bundle_body_resolved W rg m Hres'), E2.
      unfold lookup_events. now rewrite Hg, Hurl. }
    apply (early _ (StatusText code) code B1 B2); [|tauto].
    apply (refused_with_report
             (EvPrintf "HEAD" (Path rh) :: EvDo (installerURL_of rh) :: w)
             e code); [|exact He].
    exact (lookup_silent _ Hw). }
  destruct (probe_layers_frame W (installerID_of rh) (Layers m)
              (extend start (lookup_events rh) [])
              (extend start (lookup_events rg) []))
    as (o & w & E1 & E2 & Ho).
  destruct o as [[]|].
  2:{ destruct Ho as (pre & e & -> & Hpre & He).
      apply (refusal pre e StatusInternalServerError); try assumption;
        try (now right).
      - apply serve_refused. now left.
      - apply serve_refused. left. now rewrite Hid. }
  destruct Ho as [-> Hreach].
  destruct (check_images_frame W (Images m)
              (extend (extend start (lookup_events rh) [])
                      (map EvHead (Layers m)) [])
              (extend (extend start (lookup_events rg) [])
                      (map EvHead (Layers m)) []))
    as [(Hall & _ & _)|(image & C1 & C2)].
  2:{ apply (refusal (map EvHead (Layers m)) (ErrUnsupportedRegistry image)
               StatusUnprocessableEntity);
        try reflexivity; try (now left).
      - apply serve_refused. right.
        now exists (map EvHead (Layers m)), (report (ErrUnsupportedRegistry image)).
      - apply serve_refused. right. rewrite Hid.
        now exists (map EvHead (Layers m)), (report (ErrUnsupportedRegistry image)).
      - now apply forallb_map_head. }
  pose proof (bundle_head_passes W rh m Hres Hh Hreach Hall) as B1.
  destruct (bundle_get_streams W rg m Hres' Hg Hreach Hall)
    as (wk & fin & Hwk & Hfin & B2).
  assert (Hne : forall x, wk ++ x ++ fin <> []).
  { intros x E. destruct Hfin as (ds & a & g & _ & ->).
    apply app_eq_nil in E as [_ E]. apply app_eq_nil in E as [_ E].
    apply app_eq_nil in E as [_ E]. discriminate. }
  exists (EvDo (installerURL_of rh) :: map EvHead (Layers m) ++ success_headers).
  assert (T : response rh (bundle W rh) = head_success_response).
  { rewrite B1. now apply head_passes_response. }
  assert (T' : headers (response rh (bundle W rh)) !! "Transfer-Encoding"
               = None).
  { rewrite T. apply lookup_delete_eq. }
  destruct B2 as [B2|(e & _ & B2)].
  - exists (wk ++ fin).
    split; [rewrite B1; unfold lookup_events; now rewrite Hh|].
    split; [rewrite B2; unfold lookup_events; rewrite Hg, Hurl; simpl;
            now rewrite <- !app_assoc|].
    right. split; [exact (Hne [])|now split].
  - exists (wk ++ report e ++ fin).
    split; [rewrite B1; unfold lookup_events; now rewrite Hh|].
    split; [rewrite B2; unfold lookup_events; rewrite Hg, Hurl; simpl;
            now rewrite <- !app_assoc|].
    right. split; [exact (Hne (report e))|now split].
Qed.

Lemma head_is_dry_run_of_get_witness :
  exists checks rest,
    bundle dead_layer_world (sample_request "HEAD")
    = EvPrintf "HEAD" (Path (sample_request "HEAD")) :: checks
    /\ bundle dead_layer_world (sample_request "GET")
       = EvPrintf "GET" (Path (sample_request "GET")) :: checks ++ rest.
Proof.
  destruct (head_is_dry_run_of_get dead_layer_world (sample_request "HEAD")
              (sample_request "GET") eq_refl eq_refl eq_refl eq_refl)
    as (c & t & H1 & H2 & _).
  now exists c, t.
Defined.

(** ** What the handler reads *)

Lemma triple_ret {A} (P : State -> Prop) (a : A) : Triple P (ret a) P.
Proof. intros s H. exact H. Qed.

Lemma triple_leave {A} (P : State -> Prop) : Triple P (@leave A) P.
Proof. intros s H. exact H. Qed.

Lemma triple_moment (P : State -> Prop) : Triple P moment P.
Proof. intros s H. exact H. Qed.

Lemma triple_bind {A B} (P R Q : State -> Prop) (m : Handler A)
  (k : A -> Handler B) :
  Triple P m R -> (forall s, R s -> Q s) -> (forall a, Triple R (k a) Q) ->
  Triple P (bind m k) Q.
Proof.
  intros Hm HRQ Hk s H. unfold bind. specialize (Hm s H).
  destruct (m s) as [[a|] s']; [now apply Hk|now apply HRQ].
Qed.

Lemma inv_bind {A B} (P : State -> Prop) (m : Handler A)
  (k : A -> Handler B) :
  Triple P m P -> (forall a, Triple P (k a) P) -> Triple P (bind m k) P.
Proof. intros Hm Hk. apply (triple_bind P P P); auto. Qed.

Lemma run_deferred_cleanup (W : World) (ds : list Deferred)
  (tr : list Event) :
  exists cl,
    run_deferred W ds tr = tr ++ cl /\ forallb is_cleanup cl = true.
Proof.
  revert tr. induction ds as [|x ds IH]; intros tr; simpl.
  - exists []. now rewrite app_nil_r.
  - destruct x as [id|dir]; simpl.
    + destruct (close_writers_run W id tr) as (a & g & ->).
      match goal with |- context [run_deferred W ds (tr ++ ?c)] =>
        destruct (IH (tr ++ c)) as (cl & -> & Hcl); exists (c ++ cl)
      end.
      rewrite <- app_assoc. split; [reflexivity|].
      rewrite forallb_app, Hcl. destruct a, g; reflexivity.
    + destruct (IH (tr ++ [EvRemoveAll dir])) as (cl & -> & Hcl).
      exists (EvRemoveAll dir :: cl). rewrite <- app_assoc.
      now split.
Qed.

Section Phases.

Variables p q : Event -> bool.
Hypothesis Hq : harmless q.

Lemma phases_extend (s : State) (w : list Event) (ds : list Deferred) :
  phases p q s -> forallb q w = true -> phases p q (extend s w ds).
Proof.
  intros (a & b & E & Ha & Hb) Hw. exists a, (b ++ w). simpl.
  rewrite E, <- app_assoc, forallb_app, Hb, Hw. now repeat split.
Qed.

Lemma phases_emit (l : list Event) :
  forallb q l = true -> Triple (phases p q) (emit l) (phases p q).
Proof. intros Hl s H. now apply (phases_extend s l []). Qed.

Lemma phases_calm (l : list Event) :
  forallb (fun e => negb (is_tempdir e || is_pull e || is_layer_fetch e)) l
  = true ->
  Triple (phases p q) (emit l) (phases p q).
Proof.
  intros Hl. apply phases_emit. revert Hl. apply forallb_weaken.
  intros e He. apply Hq. now apply negb_true_iff.
Qed.

Lemma phases_defer (d : Deferred) :
  Triple (phases p q) (defer d) (phases p q).
Proof. intros s H. exact H. Qed.

Lemma phases_handleHttpError (e : Failure) (code : nat) :
  Triple (phases p q) (handleHttpError e code) (phases p q).
Proof.
  unfold handleHttpError, http_Error.
  repeat (apply inv_bind; [|intro]); now apply phases_calm.
Qed.

Lemma phases_handleError (e : Failure) :
  Triple (phases p q) (handleError e) (phases p q).
Proof.
  unfold handleError.
  repeat (apply inv_bind; [|intro]); now apply phases_calm.
Qed.

Lemma phases_must (ok : bool) (e : Failure) :
  Triple (phases p q) (must ok e) (phases p q).
Proof.
  unfold must. destruct ok; [apply triple_ret|].
  apply inv_bind; [apply phases_handleHttpError|intro; apply triple_leave].
Qed.

Lemma phases_report (e : Failure) : forallb q (report e) = true.
Proof.
  apply (forallb_weaken
           (fun e => negb (is_tempdir e || is_pull e || is_layer_fetch e))).
  - intros x Hx. apply Hq. now apply negb_true_iff.
  - unfold report, aftermath. destruct (http_code e); reflexivity.
Qed.

Lemma phases_probes (l : list string) : forallb q (map EvHead l) = true.
Proof.
  apply forallb_map_head. intros u. now apply Hq.
Qed.

Lemma phases_after_probes {B} (W : World) (id : string)
  (layers : list string) (k : Handler B) (Q : State -> Prop) :
  (forall s, phases p q s -> Q s) ->
  (Forall (reachable W) layers -> Triple (phases p q) k Q) ->
  Triple (phases p q) (probe_layers W id layers ;; k) Q.
Proof.
  intros HQ Hk s H.
  destruct (probe_layers_spec W id layers s)
    as [[Hall E]|(l1 & u & l2 & cause & _ & _ & _ & E)].
  - rewrite (bind_Next _ _ _ _ _ E). apply (Hk Hall).
    apply phases_extend; [exact H|apply phases_probes].
  - rewrite (bind_Return _ _ _ _ E). simpl snd. apply HQ.
    apply phases_extend; [exact H|].
    now rewrite forallb_app, phases_report, phases_probes.
Qed.

Lemma phases_after_allowlist {B} (W : World) (images : list string)
  (k : Handler B) (Q : State -> Prop) :
  (forall s, phases p q s -> Q s) ->
  (Forall (fun i => allowRegistry (net W) i = true) images ->
   Triple (phases p q) k Q) ->
  Triple (phases p q) (check_images W images ;; k) Q.
Proof.
  intros HQ Hk s H.
  destruct (check_images_spec W images s) as [[Hall E]|(image & _ & _ & E)].
  - rewrite (bind_Next _ _ _ _ _ E). now apply (Hk Hall).
  - rewrite (bind_Return _ _ _ _ E). simpl snd. apply HQ.
    apply phases_extend; [exact H|apply phases_report].
Qed.

Lemma phases_stream_image (W : World) (i : nat) (image : string) :
  (forall d, q (EvTempDir d) = true) ->
  (forall dest, q (EvCopyImage image dest) = true) ->
  Triple (phases p q) (stream_image W i image) (phases p q).
Proof.
  intros Hd Hi. unfold stream_image.
  repeat first
    [ apply triple_ret | apply triple_leave | apply triple_moment
    | apply phases_defer | apply phases_must | apply phases_handleHttpError
    | apply phases_calm; reflexivity
    | apply phases_emit; simpl; rewrite ?Hd, ?Hi; reflexivity
    | apply inv_bind; [|intro]
    | match goal with
      | |- Triple _ (match ?x with _ => _ end) _ => destruct x
      end ].
Qed.

Lemma phases_stream_images (W : World) (i : nat) (images : list string) :
  (forall d, q (EvTempDir d) = true) ->
  Forall (fun image => forall dest, q (EvCopyImage image dest) = true)
         images ->
  Triple (phases p q) (stream_images W i images) (phases p q).
Proof.
  intros Hd H. revert i.
  induction H as [|x rest Hx Hrest IH]; intros i; simpl.
  - apply triple_ret.
  - apply inv_bind; [now apply phases_stream_image|intro; apply IH].
Qed.

Lemma phases_relay (W : World) (es : list LayerEntry) (fin : StreamEnd)
  (s : State) :
  phases p q s -> phases p q (snd (relay W es fin s)).
Proof.
  revert s. induction es as [|e es IH]; intros s H; simpl.
  - destruct fin; exact H.
  - match goal with |- context [if ?b then _ else _] => destruct b end;
      [apply IH|];
      match goal with |- context [trace s ++ ?w] =>
        apply (phases_extend s w []); [exact H|];
        simpl; now rewrite !Hq
      end.
Qed.

Lemma phases_pipe (W : World) (srcURL : string) (s : State) :
  q (EvGet srcURL) = true ->
  phases p q s -> phases p q (snd (pipe W srcURL s)).
Proof.
  intros Hu H. unfold pipe.
  assert (H' : phases p q {| trace := trace s ++ [EvGet srcURL];
                             deferred := deferred s |}).
  { apply (phases_extend s [EvGet srcURL] []); [exact H|].
    simpl. now rewrite Hu. }
  destruct (http_Get W srcURL) as [|code [src|]]; simpl;
    try exact H'; destruct (negb _); try exact H'.
  now apply phases_relay.
Qed.

Lemma phases_stream_layers (W : World) (id : string) (layers : list string) :
  Forall (fun u => q (EvGet u) = true) layers ->
  Triple (phases p q) (stream_layers W id layers) (phases p q).
Proof.
  induction 1 as [|u rest Hu Hrest IH]; simpl; [apply triple_ret|].
  intros s H. pose proof (phases_pipe W u s Hu H) as Hp.
  destruct (pipe W u s) as [[c|] s']; simpl in Hp.
  - exact (inv_bind _ (handleError (ErrPipe u id c)) (fun _ => @leave unit)
             (phases_handleError _) (fun _ => triple_leave _) s' Hp).
  - now apply IH.
Qed.

Lemma phases_stream_files (W : World) (id : string)
  (files : list (string * string)) :
  Triple (phases p q) (stream_files W id files) (phases p q).
Proof.
  induction files as [|[f c] rest IH]; simpl.
  - apply triple_ret.
  - repeat first
      [ assumption
      | apply triple_ret | apply triple_leave | apply triple_moment
      | apply phases_handleError
      | apply phases_calm; reflexivity
      | apply inv_bind; [|intro]
      | match goal with
        | |- Triple _ (match ?x with _ => _ end) _ => destruct x
        end ].
Qed.

Lemma phases_run_deferred (W : World) (s : State) :
  phases p q s ->
  exists a b,
    run_deferred W (deferred s) (trace s) = a ++ b
    /\ forallb p a = true /\ forallb q b = true.
Proof.
  intros (a & b & E & Ha & Hb).
  destruct (run_deferred_cleanup W (deferred s) (trace s)) as (cl & -> & Hcl).
  exists a, (b ++ cl). rewrite E, <- app_assoc, forallb_app, Hb.
  split; [reflexivity|]. split; [exact Ha|].
  revert Hcl. apply forallb_weaken.
  intros [] Hx; try discriminate; now apply Hq.
Qed.

End Phases.

Lemma bundle_phases (W : World) (r : Request) (p1 q1 p2 q2 : Event -> bool) :
  harmless q1 -> harmless q2 ->
  (forall s, phases p1 q1 s -> phases p2 q2 s) ->
  (forall d, q1 (EvTempDir d) = true) ->
  (forall image dest,
     allowRegistry (net W) image = true ->
     q1 (EvCopyImage image dest) = true) ->
  (forall u, reachable W u -> q2 (EvGet u) = true) ->
  exists a b,
    bundle W r = a ++ b /\ forallb p2 a = true /\ forallb q2 b = true.
Proof.
  intros H1 H2 H12 Hd Hi Hu.
  apply (phases_run_deferred p2 q2 H2 W).
  assert (H0 : phases p1 q1 start) by (now exists [], []).
  revert H0. generalize start.
  change (Triple (phases p1 q1) (bundle_body W r) (phases p2 q2)).
  assert (go : forall (A : Type) (m : Handler A),
             Triple (phases p1 q1) m (phases p1 q1) ->
             Triple (phases p1 q1) m (phases p2 q2)).
  { intros A m Hm s Hs. apply H12, Hm, Hs. }
  assert (step : forall (A B : Type) (m : Handler A) (k : A -> Handler B),
             Triple (phases p1 q1) m (phases p1 q1) ->
             (forall a, Triple (phases p1 q1) (k a) (phases p2 q2)) ->
             Triple (phases p1 q1) (bind m k) (phases p2 q2)).
  { intros A B m k Hm Hk. now apply (triple_bind _ (phases p1 q1)). }
  assert (fail : forall e code,
             Triple (phases p1 q1) (handleHttpError e code ;; @leave unit)
                    (phases p2 q2)).
  { intros e code. apply go. apply inv_bind; [|intro; apply triple_leave].
    now apply phases_handleHttpError. }
  unfold bundle_body, http_Error.
  destruct (String.eqb (Method r) "OPTIONS").
  { apply go. apply inv_bind; [|intro; apply triple_leave].
    now apply phases_calm. }
  destruct (negb (String.eqb (Method r) "GET")
            && negb (String.eqb (Method r) "HEAD")).
  { apply go. apply inv_bind; [|intro; apply triple_leave].
    now apply phases_calm. }
  apply step; [now apply phases_calm|intro].
  apply step; [now apply phases_must|intro].
  apply step; [now apply phases_calm|intro].
  destruct (client_Do W (installerURL_of r)) as [|code|code body];
    [apply fail|apply fail|].
  destruct (code =? StatusNotFound)%nat.
  { apply go. apply inv_bind; [|intro; apply triple_leave].
    now apply phases_calm. }
  destruct (json_Unmarshal W body) as [m|]; [|apply fail].
  unfold serve, stream.
  apply (phases_after_probes p1 q1 H1); [exact H12|]. intros Hreach.
  apply (phases_after_allowlist p1 q1 H1); [exact H12|]. intros Hall.
  apply step; [now apply phases_calm|intro].
  destruct (String.eqb (Method r) "HEAD"); [apply go, triple_leave|].
  apply step; [apply phases_defer|intro].
  apply step.
  { apply (phases_stream_images p1 q1 H1); [exact Hd|].
    refine (List.Forall_impl _ _ Hall). intros image Ha dest.
    now apply Hi. }
  intro. intros s Hs. apply H12 in Hs. revert s Hs.
  apply inv_bind.
  - apply (phases_stream_layers p2 q2 H2).
    exact (List.Forall_impl _ Hu Hreach).
  - intro. now apply phases_stream_files.
Qed.

Lemma checked_harmless (W : World) : harmless (checked W).
Proof. intros [] H; try discriminate; reflexivity. Qed.

(** X16. The handler reads only from sources that passed its checks in the
    same request: every image it pulls is accepted by the registry
    allowlist, and every layer it fetches answered its probe with 200. *)
Theorem only_checked_sources_are_read (W : World) (r : Request) :
  (forall image dest,
     In (EvCopyImage image dest) (bundle W r) ->
     allowRegistry (net W) image = true)
  /\ (forall srcURL, In (EvGet srcURL) (bundle W r) -> reachable W srcURL).
Proof.
  destruct (bundle_phases W r nothing (checked W) nothing (checked W))
    as (a & b & E & Ha & H); auto using checked_harmless.
  { intros u Hu. simpl. unfold reachable in Hu. now rewrite Hu. }
  destruct a; [|discriminate]. simpl in E. rewrite E.
  rewrite forallb_forall in H.
  split.
  - intros image dest Hin. exact (H _ Hin).
  - intros u Hin. specialize (H _ Hin). unfold reachable. simpl in H.
    destruct (http_Head W u) as [code|]; [|discriminate].
    now apply Nat.eqb_eq in H as ->.
Qed.

Lemma only_checked_sources_are_read_witness :
  allowRegistry (net calm_world) "ttl.sh/app:1h" = true.
Proof.
  apply (proj1 (only_checked_sources_are_read calm_world
                  (sample_request "GET"))
           "ttl.sh/app:1h" "/images/temp-image-pull13/temp-archive-image").
  vm_compute. repeat (first [left; reflexivity | right]).
Defined.

Lemma split_after {A} (P : A -> bool) (a b pre post : list A) (x : A) :
  P x = false ->
  forallb P a = true ->
  a ++ b = pre ++ x :: post ->
  exists b1, b = b1 ++ x :: post.
Proof.
  intros Hx. revert pre. induction a as [|y a IH]; intros pre Ha E.
  - now exists pre.
  - simpl in Ha. apply andb_true_iff in Ha as [Hy Ha].
    destruct pre as [|z pre]; simpl in E; injection E as -> E.
    + rewrite Hx in Hy. discriminate.
    + exact (IH pre Ha E).
Qed.

(** X17. The layers are fetched only once the loop over the images is over:
    after a layer fetch, the handler pulls no image and makes no scratch
    directory, whatever fails. *)
Theorem no_pull_after_a_fetch (W : World) (r : Request)
  (pre post : list Event) (srcURL : string) :
  bundle W r = pre ++ EvGet srcURL :: post ->
  forallb (fun e => negb (is_pull e || is_tempdir e)) post = true.
Proof.
  intros E.
  destruct (bundle_phases W r nothing no_fetch no_fetch no_pull)
    as (a & b & E' & Ha & Hb); try reflexivity.
  - intros [] H; try discriminate; reflexivity.
  - intros [] H; try discriminate; reflexivity.
  - intros s (a & b & Es & Ha & Hb). destruct a; [|discriminate].
    exists b, []. rewrite app_nil_r. now repeat split.
  - rewrite E in E'. symmetry in E'.
    destruct (split_after no_fetch a b pre post (EvGet srcURL) eq_refl Ha E')
      as (b1 & ->).
    rewrite forallb_app in Hb. apply andb_true_iff in Hb as [_ Hb].
    simpl in Hb. exact Hb.
Qed.

Lemma no_pull_after_a_fetch_witness :
  exists pre post,
    bundle calm_world (sample_request "GET")
    = pre ++ EvGet "http://s3/layer.tar.gz" :: post
    /\ forallb (fun e => negb (is_pull e || is_tempdir e)) post = true.
Proof.
  exists (firstn 19 (bundle calm_world (sample_request "GET"))),
         (skipn 20 (bundle calm_world (sample_request "GET"))).
  assert (E : bundle calm_world (sample_request "GET")
              = firstn 19 (bundle calm_world (sample_request "GET"))
                ++ EvGet "http://s3/layer.tar.gz"
                   :: skipn 20 (bundle calm_world (sample_request "GET")))
    by (vm_compute; reflexivity).
  split; [exact E|].
  exact (no_pull_after_a_fetch _ _ _ _ _ E).
Defined.

(** ** The answers of the handler *)

Lemma handler_response_of_http_Error (pre post : list Event) (msg : string)
  (code : nat) :
  committed pre = None ->
  error_answer
    (handler_response (pre ++ http_Error_events msg code ++ post)) code.
Proof.
  unfold handler_response, committed. intros Hpre.
  rewrite writer_after_app, fold_left_app.
  destruct (writer_after pre) as [hm snt]. simpl in Hpre. subst snt.
  cbn [http_Error_events fold_left writer_step commit sent header_map].
  erewrite sent_stable by reflexivity.
  split; [reflexivity|]. cbn [headers]. split.
  - rewrite lookup_insert_ne by discriminate. apply lookup_insert_eq.
  - apply lookup_insert_eq.
Qed.

Lemma handler_response_of_refusal (pre post : list Event) (e : Failure)
  (code : nat) :
  committed pre = None ->
  http_code e = Some code ->
  error_answer (handler_response (pre ++ report e ++ post)) code.
Proof.
  intros Hpre He. unfold report, aftermath. rewrite He.
  replace (pre ++ (EvLog e :: http_Error_events (StatusText code) code
                               ++ [EvNotify e]) ++ post)
    with ((pre ++ [EvLog e])
          ++ http_Error_events (StatusText code) code
          ++ ([EvNotify e] ++ post))
    by (rewrite <- !app_assoc; reflexivity).
  apply handler_response_of_http_Error.
  unfold committed in *. rewrite writer_after_app. exact Hpre.
Qed.

Lemma error_answer_response (r : Request) (tr : list Event) (code : nat) :
  error_answer (handler_response tr) code ->
  error_answer (response r tr) code.
Proof.
  intros (Hst & Hct & Hno). split; [now rewrite status_response|].
  unfold response.
  destruct (String.eqb (Method r) "HEAD"
            || negb (bodyAllowedForStatus (status (handler_response tr))));
    [|now split].
  cbn [headers]. now rewrite !lookup_delete_ne by discriminate.
Qed.

Lemma error_answer_plain (code : nat) : error_answer (plain_error code) code.
Proof. now repeat split. Qed.

Lemma work_without_entries (w : list Event) :
  forallb is_work w = true ->
  List.filter is_entry w = [] ->
  forallb is_silent w = true.
Proof.
  induction w as [|e w IH]; [reflexivity|]. simpl. intros H Hn.
  apply andb_true_iff in H as [He Hw].
  destruct e; try discriminate; simpl in *; now apply IH.
Qed.

Lemma no_primary_log_in (l : list Event) (pre post : list Event)
  (e : Failure) :
  forallb (fun ev => negb (is_primary_log ev)) l = true ->
  l = pre ++ EvLog e :: post ->
  closing_failure e = false ->
  False.
Proof.
  intros H -> He. rewrite forallb_app in H. simpl in H. rewrite He in H.
  simpl in H. now rewrite andb_false_r in H.
Qed.

Lemma streamed_no_primary_log (r : Request) (m : BundleManifest)
  (w fin : list Event) :
  forallb is_work w = true ->
  finalization (installerID_of r) fin ->
  forallb (fun ev => negb (is_primary_log ev)) (checks_done r m ++ w) = true
  /\ forallb (fun ev => negb (is_primary_log ev)) fin = true.
Proof.
  intros Hw Hfin. split.
  - rewrite forallb_app.
    now rewrite (quiet_no_primary_log _ (checks_done_quiet r m)),
      (quiet_no_primary_log _ (work_quiet _ Hw)).
  - exact (proj1 (cleanup_calm _ (finalization_cleanup _ _ Hfin))).
Qed.

(** X11. A GET that passes the checks is answered 200 with the success
    headers, whatever fails later, with one exception.  When no error of the
    loops is logged, when the error is one of the layer or file loop, and
    when it is one of the image loop that comes after an entry has been
    written into the archive, the answer is that 200.  An error of the image
    loop that comes before any entry has been written is answered 500
    through [http.Error], with the line [Internal Server Error], and the
    archive gets no entry. *)
Theorem streaming_get_answers_200_or_500 (W : World) (r : Request)
  (m : BundleManifest) :
  resolves W r m ->
  Method r = "GET" ->
  Forall (reachable W) (Layers m) ->
  Forall (fun i => allowRegistry (net W) i = true) (Images m) ->
  (forallb (fun ev => negb (is_primary_log ev)) (bundle W r) = true ->
   response r (bundle W r) = success_response)
  /\ forall pre post e,
       bundle W r = pre ++ EvLog e :: post ->
       closing_failure e = false ->
       (image_failure e = true ->
        List.filter is_entry pre = [] ->
        error_answer (response r (bundle W r)) StatusInternalServerError
        /\ plain_text (bundle W r) = ["Internal Server Error" +:+ newline]
        /\ List.filter is_entry (bundle W r) = [])
       /\ (image_failure e = false \/ List.filter is_entry pre <> [] ->
           response r (bundle W r) = success_response).
Proof.
  intros Hres Hget Hall Hok.
  destruct (bundle_get_streams W r m Hres Hget Hall Hok)
    as (w & fin & Hw & Hfin & HE).
  change (lookup_events r ++ map EvHead (Layers m) ++ success_headers)
    with (checks_done r m) in HE.
  destruct (streamed_no_primary_log r m w fin Hw Hfin) as [Hpw Hpf].
  pose proof (finalization_cleanup _ _ Hfin) as Hcl.
  destruct HE as [E|(e' & He' & E)].
  - assert (R : response r (bundle W r) = success_response).
    { rewrite E. apply (response_of_get r _ _ Hget); [|reflexivity].
      exact (response_streamed _ w fin _
               (writer_after_checks r (Layers m)) Hw Hfin). }
    split; [now intros _|].
    intros pre post e E' He. exfalso.
    apply (no_primary_log_in (bundle W r) pre post e); try assumption.
    rewrite E, app_assoc, forallb_app. now rewrite Hpw, Hpf.
  - assert (Hc' : closing_failure e' = false)
      by (destruct e'; try discriminate; reflexivity).
    assert (E2 : bundle W r
                 = (checks_done r m ++ w) ++ EvLog e' :: aftermath e' ++ fin).
    { rewrite E. unfold report. now rewrite <- !app_assoc. }
    split.
    { intros H. exfalso.
      exact (no_primary_log_in _ _ _ e' H E2 Hc'). }
    intros pre post e E' He.
    assert (Hp : is_primary_log (EvLog e) = true) by (simpl; now rewrite He).
    assert (Hp' : is_primary_log (EvLog e') = true)
      by (simpl; now rewrite Hc').
    assert (Hr : forallb (fun ev => negb (is_primary_log ev))
                   (aftermath e' ++ fin) = true).
    { rewrite forallb_app, Hpf, andb_true_r.
      exact (proj1 (aftermath_calm e')). }
    rewrite E2 in E'.
    destruct (split_unique is_primary_log _ _ pre post
                (EvLog e') (EvLog e) Hpw Hr Hp' Hp E') as (-> & [= ->] & ->).
    split.
    + intros Hi Hn.
      rewrite List.filter_app in Hn. apply app_eq_nil in Hn as [_ Hn].
      pose proof (work_without_entries w Hw Hn) as Hs.
      assert (Hcode : http_code e' = Some StatusInternalServerError)
        by (destruct e'; try discriminate; reflexivity).
      assert (Hc : committed (checks_done r m ++ w) = None).
      { unfold committed. rewrite writer_after_app, (silent_writer w _ Hs).
        unfold checks_done. now rewrite writer_after_checks. }
      rewrite E. split; [|split].
      * rewrite (app_assoc _ w). apply error_answer_response.
        now apply handler_response_of_refusal.
      * rewrite (plain_text_app (checks_done r m)), (plain_text_app w),
          (plain_text_app (report e')).
        rewrite (plain_text_checks_done r m), (plain_text_silent w Hs).
        rewrite (plain_text_none is_cleanup fin)
          by (try reflexivity; exact Hcl).
        unfold report, aftermath. rewrite Hcode. reflexivity.
      * rewrite (List.filter_app _ (checks_done r m)), (List.filter_app _ w),
          (List.filter_app _ (report e')).
        rewrite Hn.
        rewrite (filter_entry_none is_preflight (checks_done r m))
          by (try reflexivity; apply (checks_done_preflight r m)).
        rewrite (filter_entry_none is_preflight (report e'))
          by (try reflexivity; apply report_preflight).
        rewrite (filter_entry_none is_cleanup fin)
          by (try reflexivity; exact Hcl).
        reflexivity.
    + intros Hcase. rewrite E.
      apply (response_of_get r _ _ Hget); [|reflexivity].
      destruct (response_cut_short _ w fin e' _
                  (writer_after_checks r (Layers m)) Hw He' Hfin)
        as [H|(Hc & Hi & _)]; [exact H|exfalso].
      destruct Hcase as [Hcase|Hcase]; [congruence|].
      apply Hcase. rewrite List.filter_app.
      rewrite (filter_entry_none is_preflight (checks_done r m))
        by (try reflexivity; apply (checks_done_preflight r m)).
      unfold committed in Hc. rewrite writer_after_app in Hc.
      exact (uncommitted_work w _ Hw Hc).
Qed.

Lemma streaming_get_answers_200_or_500_witness :
  error_answer
    (response (sample_request "GET")
       (bundle no_pull_world (sample_request "GET")))
    StatusInternalServerError
  /\ plain_text (bundle no_pull_world (sample_request "GET"))
     = ["Internal Server Error" +:+ newline]
  /\ List.filter is_entry (bundle no_pull_world (sample_request "GET")) = [].
Proof.
  assert (E : bundle no_pull_world (sample_request "GET")
              = firstn 9 (bundle no_pull_world (sample_request "GET"))
                ++ EvLog (ErrSaveImage "docker.io/library/nginx:1.21")
                   :: skipn 10 (bundle no_pull_world (sample_request "GET")))
    by (vm_compute; reflexivity).
  destruct (streaming_get_answers_200_or_500 no_pull_world
              (sample_request "GET") full_manifest) as [_ H].
  - apply sample_resolves. now left.
  - reflexivity.
  - repeat constructor.
  - repeat constructor.
  - destruct (H _ _ _ E eq_refl) as [H1 _].
    apply H1; [reflexivity|]. vm_compute. reflexivity.
Defined.

(** X18. The handler has these answers and no other.  A request is answered
    204 (OPTIONS), or 200 with the success headers (a GET; for a HEAD, less
    [Transfer-Encoding], which an answer to a HEAD does not carry), or with
    one of 404, 405, 422 and 500 through [http.Error]: then the answer says
    that its body is plain text ([Content-Type: text/plain; charset=utf-8]
    and [X-Content-Type-Options: nosniff]), also when the headers of a
    download had been set before. *)
Theorem answers_of_the_handler (W : World) (r : Request) :
  (Method r = "OPTIONS"
   /\ status (response r (bundle W r)) = StatusNoContent)
  \/ (Method r = "GET" /\ response r (bundle W r) = success_response)
  \/ (Method r = "HEAD" /\ response r (bundle W r) = head_success_response)
  \/ exists code,
       In code [StatusNotFound; StatusMethodNotAllowed;
                StatusUnprocessableEntity; StatusInternalServerError]
       /\ error_answer (response r (bundle W r)) code.
Proof.
  destruct (String.eqb_spec (Method r) "OPTIONS") as [Ho|Ho].
  { left. split; [exact Ho|]. rewrite status_response.
    unfold bundle, bundle_body. now rewrite Ho. }
  right.
  assert (Hm : Method r = "GET" \/ Method r = "HEAD"
               \/ bundle W r
                  = http_Error_events "Method Not Allowed"
                      StatusMethodNotAllowed).
  { destruct (String.eqb_spec (Method r) "GET") as [Hg|Hg]; [now left|].
    destruct (String.eqb_spec (Method r) "HEAD") as [Hh|Hh];
      [now right; left|].
    right. right. unfold bundle, bundle_body.
    apply String.eqb_neq in Ho, Hg, Hh. now rewrite Ho, Hg, Hh. }
  assert (refused : forall msg code,
             refused_with (bundle W r) msg code ->
             In code [StatusNotFound; StatusMethodNotAllowed;
                      StatusUnprocessableEntity; StatusInternalServerError] ->
             exists code,
               In code [StatusNotFound; StatusMethodNotAllowed;
                        StatusUnprocessableEntity;
                        StatusInternalServerError]
               /\ error_answer (response r (bundle W r)) code).
  { intros msg code H Hcode. exists code. split; [exact Hcode|].
    rewrite (response_refused r _ msg code H);
      [apply error_answer_plain|].
    simpl in Hcode. destruct Hcode as [<- |[<- |[<- |[<- |[]]]]];
      reflexivity. }
  assert (Hgh : (Method r = "GET" \/ Method r = "HEAD")
                \/ bundle W r
                   = http_Error_events "Method Not Allowed"
                       StatusMethodNotAllowed) by tauto.
  destruct Hgh as [Hgh|E].
  2:{ right. right. apply (refused "Method Not Allowed" StatusMethodNotAllowed);
        [|simpl; tauto].
      exists [], []. rewrite E, app_nil_r. now repeat split. }
  destruct (bundle_refused_or_passes W r Hgh)
    as [(msg & code & H & Hcode)|(m & Hres & Hreach & Hall)].
  { right. right. apply (refused msg code H).
    destruct Hcode as [-> |[-> | ->]]; simpl; tauto. }
  destruct Hgh as [Hget|Hhead].
  - destruct (bundle_get_streams W r m Hres Hget Hreach Hall)
      as (w & fin & Hw & Hfin & [E|(e & He & E)]); rewrite E.
    + left. split; [exact Hget|].
      apply (response_of_get r _ _ Hget); [|reflexivity].
      exact (response_streamed _ w fin _
               (writer_after_checks r (Layers m)) Hw Hfin).
    + destruct (response_cut_short _ w fin e _
                  (writer_after_checks r (Layers m)) Hw He Hfin)
        as [H|(Hc & Hi & _)].
      * left. split; [exact Hget|].
        now apply (response_of_get r _ _ Hget).
      * right. right. exists StatusInternalServerError.
        split; [simpl; tauto|].
        rewrite (app_assoc _ w). apply error_answer_response.
        apply handler_response_of_refusal; [exact Hc|].
        destruct e; try discriminate; reflexivity.
  - right. left. split; [exact Hhead|].
    rewrite (bundle_head_passes W r m Hres Hhead Hreach Hall).
    now apply head_passes_response.
Qed.
